(** * UNIT_UHF_RFID: the UHF RFID reader driver, embedded and verified

    Shallow embedding of [Unit_UHF_RFID] (UNIT_UHF_RFID.cpp / UNIT_UHF_RFID.h):
    the frame buffer, the receive loop [waitMsg], the tag table and the
    command operations built on them.

    Conventions.
    - [uint8_t], [uint16_t], [uint32_t] and [unsigned long] values are [Z];
      every wrap-around and mask of the source is written out.
    - The object state is threaded explicitly; an operation returns an
      [outcome]: its result, a [Fault] when the C++ code would index an
      array outside its bounds, or [Spin] when a loop is still running after
      [fuel] passes.
    - [buffer] and [cards] are lists, of length 256 and 200 in every object
      the class can build; the properties assume these lengths.  An index
      that is a constant of the source updates the list directly, an index
      computed at run time goes through [buffer_get] and [buffer_set], which
      fault outside the array.
    - Console output ([Serial.print...]) has no effect on the driver state
      and is left out; of the [_debug] traces only what can keep an
      operation from returning is kept ([debug_loop]). *)

From Stdlib Require Import ZArith Lia List Bool String Ascii.
From stdpp Require Import base tactics option list.

Local Open Scope Z_scope.

(** ** Outcomes of an operation *)

Inductive fault : Type :=
| BufferIndex (i : Z)   (* buffer[i] with i outside 0..255 *)
| CardsIndex (i : Z)    (* cards[i] with i outside 0..199 *)
| DataIndex (i : Z).    (* caller array indexed outside its size *)

Inductive outcome (A : Type) : Type :=
| Done (a : A)
| Fault (f : fault)
| Spin.

Arguments Done {A} a.
Arguments Fault {A} f.
Arguments Spin {A}.

Definition bind {A B : Type} (m : outcome A) (k : A -> outcome B) : outcome B :=
  match m with
  | Done a => k a
  | Fault f => Fault f
  | Spin => Spin
  end.

Notation "'do' x <- m ; k" := (bind m (fun x => k))
  (at level 10, x pattern, m at level 100, k at level 200).

(** ** Machine integers *)

Definition u8 (z : Z) : Z := z mod 256.
Definition u32 (z : Z) : Z := z mod 4294967296.

(** ** Arrays: [uint8_t x[n]] as a list of [n] integers *)

Definition load (l : list Z) (i : nat) : Z := default 0 (l !! i).

(** [for (i = from; i < from + n; i++) check += b[i];] on a [uint8_t check] *)
Definition checksum (b : list Z) (from n : nat) : Z :=
  fold_left (fun check i => u8 (check + load b i)) (seq from n) 0.

(** [memcpy(dst, src, sizeof(src))] *)
Definition memcpy (dst src : list Z) : list Z := src ++ drop (length src) dst.

(** ** The serial line and the millisecond clock

    [wire k] is the [k]-th byte the module ever puts on the line, with the
    clock value at which it reaches the receive queue ([None]: the module
    sends nothing more).  [rx_pos] counts the bytes already taken by
    [read()].  One pass of a polling loop takes one clock unit. *)

Record HardwareSerial : Type := mkSerial {
  wire : nat -> option (Z * Z);
  rx_pos : nat;
  clock : Z;
  tx_log : list (list Z)
}.

Definition available (s : HardwareSerial) : bool :=
  match wire s (rx_pos s) with
  | Some (t, _) => t <=? clock s
  | None => false
  end.

(** [read()] gives -1 on an empty queue, which a [uint8_t] holds as 255. *)
Definition read (s : HardwareSerial) : Z * HardwareSerial :=
  if available s then
    match wire s (rx_pos s) with
    | Some (_, b) => (u8 b, mkSerial (wire s) (S (rx_pos s)) (clock s) (tx_log s))
    | None => (255, s)
    end
  else (255, s).

Definition write (data : list Z) (s : HardwareSerial) : HardwareSerial :=
  mkSerial (wire s) (rx_pos s) (clock s) (tx_log s ++ [data]).

Definition millis (s : HardwareSerial) : Z := u32 (clock s).

Definition delay (ms : Z) (s : HardwareSerial) : HardwareSerial :=
  mkSerial (wire s) (rx_pos s) (clock s + ms) (tx_log s).

Definition tick (s : HardwareSerial) : HardwareSerial := delay 1 s.

(** ** The driver object *)

Record CARD : Type := mkCARD {
  rssi : Z;
  pc : list Z;
  epc : list Z;
  rssi_str : string;
  pc_str : string;
  epc_str : string
}.

Record Unit_UHF_RFID : Type := mkUnit {
  _serial : HardwareSerial;
  _debug : bool;
  buffer : list Z;     (* uint8_t buffer[256] *)
  cards : list CARD    (* CARD cards[200] *)
}.

Definition with_serial (s : HardwareSerial) (u : Unit_UHF_RFID) : Unit_UHF_RFID :=
  mkUnit s (_debug u) (buffer u) (cards u).
Definition with_buffer (b : list Z) (u : Unit_UHF_RFID) : Unit_UHF_RFID :=
  mkUnit (_serial u) (_debug u) b (cards u).
Definition with_cards (c : list CARD) (u : Unit_UHF_RFID) : Unit_UHF_RFID :=
  mkUnit (_serial u) (_debug u) (buffer u) c.

(** [buffer[i]] for an index computed at run time *)
Definition buffer_get (u : Unit_UHF_RFID) (i : Z) : outcome Z :=
  if (0 <=? i) && (i <? 256) then Done (load (buffer u) (Z.to_nat i))
  else Fault (BufferIndex i).

Definition buffer_set (i v : Z) (u : Unit_UHF_RFID) : outcome Unit_UHF_RFID :=
  if (0 <=? i) && (i <? 256) then Done (with_buffer (<[Z.to_nat i := v]> (buffer u)) u)
  else Fault (BufferIndex i).

(** ** cleanBuffer *)

Definition cleanBuffer (u : Unit_UHF_RFID) : Unit_UHF_RFID :=
  with_buffer (fold_left (fun b i => <[i := 0]> b) (seq 0 200) (buffer u)) u.

(** ** waitMsg *)

Definition default_timerout : Z := 500.

(** The [while] loop of [waitMsg]; [i] is the [uint8_t] write index. *)
Fixpoint waitMsg_loop (fuel : nat) (time start i : Z) (u : Unit_UHF_RFID)
  : outcome (Z * Unit_UHF_RFID) :=
  match fuel with
  | O => Spin
  | S fuel' =>
    let s := _serial u in
    if available s || (u32 (millis s - start) <? time) then
      if available s then
        let '(b, s') := read s in
        do u1 <- buffer_set i b (with_serial s' u);
        let i' := u8 (i + 1) in
        if b =? 0x7e then Done (i', u1)
        else waitMsg_loop fuel' time start i' (with_serial (tick s') u1)
      else waitMsg_loop fuel' time start i (with_serial (tick s) u)
    else Done (i, u)
  end.

Definition waitMsg (fuel : nat) (time : Z) (u : Unit_UHF_RFID)
  : outcome (bool * Unit_UHF_RFID) :=
  let start := millis (_serial u) in
  do (i, u1) <- waitMsg_loop fuel time start 0 (cleanBuffer u);
  if load (buffer u1) 0 =? 0xbb then
    do last <- buffer_get u1 (i - 1);
    Done (last =? 0x7e, u1)
  else Done (false, u1).

(** ** sendCMD *)

Definition sendCMD (data : list Z) (size : nat) (u : Unit_UHF_RFID) : Unit_UHF_RFID :=
  with_serial (write (take size data) (_serial u)) u.

(** ** hex2str

    [String(num, HEX)] prints an unsigned value in base 16 with lower-case
    digits and no padding. *)

Definition hex_digit (d : Z) : ascii :=
  nth (Z.to_nat d) (list_ascii_of_string "0123456789abcdef") "0"%char.

Definition String_HEX (num : Z) : string :=
  if num <? 16 then String (hex_digit num) EmptyString
  else String (hex_digit (num / 16)) (String (hex_digit (num mod 16)) EmptyString).

Definition hex2str (num : Z) : string :=
  if 0xf <? num then String_HEX num
  else ("0" ++ String_HEX num)%string.

(** ** The tag table *)

Definition empty_card : CARD := mkCARD 0 [0; 0] (repeat 0 12) "" "" "".

Definition card_at (c : list CARD) (i : nat) : CARD := default empty_card (c !! i).

Definition cleanCardsBuffer (u : Unit_UHF_RFID) : Unit_UHF_RFID :=
  with_cards (fold_left (fun c i => <[i := empty_card]> c) (seq 0 200) (cards u)) u.

Definition filterCardInfo (epc : string) (u : Unit_UHF_RFID) : bool :=
  forallb (fun i => negb (String.eqb epc (epc_str (card_at (cards u) i)))) (seq 0 200).

(** The EPC text [saveCardInfo] builds from [buffer[8..19]]. *)
Definition epc_text (b : list Z) : string :=
  fold_left (fun s i => (s ++ hex2str (load b i))%string) (seq 8 12) ""%string.

(** The record [saveCardInfo] writes through its [CARD *] argument. *)
Definition card_of_buffer (b : list Z) : CARD :=
  mkCARD (load b 5) [load b 6; load b 7] (map (load b) (seq 8 12))
         (hex2str (load b 5))
         (hex2str (load b 6) ++ hex2str (load b 7))%string
         (epc_text b).

(** [saveCardInfo(&cards[slot])]: the pointer is given by its slot number. *)
Definition saveCardInfo (slot : Z) (u : Unit_UHF_RFID) : outcome (bool * Unit_UHF_RFID) :=
  let epc := epc_text (buffer u) in
  if negb (filterCardInfo epc u) then Done (false, u)
  else if (0 <=? slot) && (slot <? 200) then
    Done (true, with_cards (<[Z.to_nat slot := card_of_buffer (buffer u)]> (cards u)) u)
  else Fault (CardsIndex slot).

(** [if (_debug) for (uint8_t i = 0; i < bound; i++) Serial.print(...);]
    prints and touches nothing, but with [bound] above 255 the [uint8_t]
    counter wraps before it reaches the bound and the loop never ends. *)
Definition debug_loop (u : Unit_UHF_RFID) (bound : Z) : outcome unit :=
  if _debug u && (256 <=? bound) then Spin else Done tt.

(** ** Command operations

    The command and reply tables live in CMD.h; the operations take them
    as parameters. *)

Section Commands.

Variables POLLING_ONCE_CMD POLLING_MULTIPLE_CMD : list Z.
Variables WRITE_STORAGE_CMD WRITE_STORAGE_ERROR : list Z.
Variables READ_STORAGE_CMD READ_STORAGE_ERROR : list Z.
Variable SET_TX_POWER : list Z.

(** [memcpy(buffer, CMD, sizeof(CMD))] *)
Definition load_template (cmd : list Z) (u : Unit_UHF_RFID) : outcome Unit_UHF_RFID :=
  if (length cmd <=? 256)%nat then Done (with_buffer (memcpy (buffer u) cmd) u)
  else Fault (BufferIndex 256).

(** *** pollingOnce *)

Fixpoint pollingOnce_loop (fuel wfuel : nat) (count : Z) (u : Unit_UHF_RFID)
  : outcome (Z * Unit_UHF_RFID) :=
  match fuel with
  | O => Spin
  | S fuel' =>
    do (ok, u1) <- waitMsg wfuel default_timerout u;
    if ok then
      if load (buffer u1) 23 =? 0x7e then
        if count <? 200 then
          do (saved, u2) <- saveCardInfo count u1;
          pollingOnce_loop fuel' wfuel (if saved then u8 (count + 1) else count) u2
        else Done (200, u1)
      else pollingOnce_loop fuel' wfuel count u1
    else Done (count, u1)
  end.

Definition pollingOnce (fuel : nat) (u : Unit_UHF_RFID) : outcome (Z * Unit_UHF_RFID) :=
  let u0 := cleanCardsBuffer u in
  let u1 := sendCMD POLLING_ONCE_CMD (length POLLING_ONCE_CMD) u0 in
  pollingOnce_loop fuel fuel 0 u1.

(** *** pollingMultiple *)

Fixpoint pollingMultiple_loop (fuel wfuel : nat) (count : Z) (u : Unit_UHF_RFID)
  : outcome (Z * Unit_UHF_RFID) :=
  match fuel with
  | O => Spin
  | S fuel' =>
    do (ok, u1) <- waitMsg wfuel default_timerout u;
    if ok then
      if load (buffer u1) 23 =? 0x7e then
        if count <? 200 then
          do (saved, u2) <- saveCardInfo count u1;
          pollingMultiple_loop fuel' wfuel (if saved then u8 (count + 1) else count) u2
        else Done (count, u1)
      else pollingMultiple_loop fuel' wfuel count u1
    else Done (count, u1)
  end.

Definition pollingMultiple (fuel : nat) (polling_count : Z) (u : Unit_UHF_RFID)
  : outcome (Z * Unit_UHF_RFID) :=
  let u0 := cleanCardsBuffer u in
  do u1 <- load_template POLLING_MULTIPLE_CMD u0;
  let b := <[6%nat := Z.land (Z.shiftr polling_count 8) 0xff]> (buffer u1) in
  let b := <[7%nat := Z.land polling_count 0xff]> b in
  let check := checksum b 1 7 in
  let b := <[8%nat := Z.land check 0xff]> b in
  let u2 := with_buffer b u1 in
  do _ <- debug_loop u2 (Z.of_nat (length POLLING_MULTIPLE_CMD));
  let u3 := sendCMD (buffer u2) (length POLLING_MULTIPLE_CMD) u2 in
  pollingMultiple_loop fuel fuel 0 u3.

(** *** setTxPower *)

(** The frame [setTxPower] leaves in [buffer] before it sends it. *)
Definition setTxPower_frame (db : Z) (u : Unit_UHF_RFID) : outcome Unit_UHF_RFID :=
  do u1 <- load_template SET_TX_POWER u;
  let b := <[5%nat := Z.land (Z.shiftr db 8) 0xff]> (buffer u1) in
  let b := <[6%nat := Z.land db 0xff]> b in
  let check := checksum b 1 6 in
  let b := <[7%nat := Z.land check 0xff]> b in
  Done (with_buffer b u1).

Definition setTxPower (fuel : nat) (db : Z) (u : Unit_UHF_RFID) : outcome (bool * Unit_UHF_RFID) :=
  do u1 <- setTxPower_frame db u;
  let u2 := sendCMD (buffer u1) (length SET_TX_POWER) u1 in
  do (ok, u3) <- waitMsg fuel default_timerout u2;
  if ok then
    if negb (load (buffer u3) 2 =? 0xB6) then Done (false, u3)
    else Done (true, u3)
  else Done (false, u3).

(** *** writeCard *)

(** [for (uint8_t i = 0; i < size; i++) { buffer[14 + i] = data[i]; offset++; }]
    The loop ends, or leaves the buffer, within 243 passes: [n] passes are
    allowed, and [writeCard] allows 256. *)
Fixpoint writeCard_copy (n : nat) (data : list Z) (size i offset : Z) (u : Unit_UHF_RFID)
  : outcome (Z * Unit_UHF_RFID) :=
  if i <? size then
    match n with
    | O => Spin
    | S n' =>
      match data !! Z.to_nat i with
      | None => Fault (DataIndex i)
      | Some d =>
        do u1 <- buffer_set (14 + i) d u;
        writeCard_copy n' data size (u8 (i + 1)) (u8 (offset + 1)) u1
      end
    end
  else Done (offset, u).

(** The frame [writeCard] leaves in [buffer], with its length [offset + 2]. *)
Definition writeCard_frame (data : list Z) (size membank sa access_password : Z)
  (u : Unit_UHF_RFID) : outcome (Z * Unit_UHF_RFID) :=
  do u1 <- load_template WRITE_STORAGE_CMD u;
  let b := <[5%nat := Z.land (Z.shiftr access_password 24) 0xff]> (buffer u1) in
  let b := <[6%nat := Z.land (Z.shiftr access_password 16) 0xff]> b in
  let b := <[7%nat := Z.land (Z.shiftr access_password 8) 0xff]> b in
  let b := <[8%nat := Z.land access_password 0xff]> b in
  let b := <[9%nat := membank]> b in
  let b := <[10%nat := Z.land (Z.shiftr sa 8) 0xff]> b in
  let b := <[11%nat := Z.land sa 0xff]> b in
  let word := u8 (size / 2) in
  let b := <[12%nat := Z.land (Z.shiftr word 8) 0xff]> b in
  let b := <[13%nat := Z.land word 0xff]> b in
  do (offset, u2) <- writeCard_copy 256 data size 0 14 (with_buffer b u1);
  let check := checksum (buffer u2) 1 (Z.to_nat offset - 1) in
  do u3 <- buffer_set offset (Z.land check 0xff) u2;
  do u4 <- buffer_set (offset + 1) 0x7e u3;
  Done (offset + 2, u4).

Definition writeCard (fuel : nat) (data : list Z) (size membank sa access_password : Z)
  (u : Unit_UHF_RFID) : outcome (bool * Unit_UHF_RFID) :=
  do (len, u1) <- writeCard_frame data size membank sa access_password u;
  do _ <- debug_loop u1 len;
  let u2 := sendCMD (buffer u1) (Z.to_nat len) u1 in
  do (ok, u3) <- waitMsg fuel default_timerout u2;
  if ok then
    if load WRITE_STORAGE_ERROR 2 =? load (buffer u3) 2 then Done (false, u3)
    else Done (true, u3)
  else Done (false, u3).

(** *** readCard *)

(** [for (uint8_t i = 0; i < size; i++) temp[i] = buffer[20 + i];] *)
Fixpoint readCard_copy (n : nat) (size i : Z) (temp : list Z) (u : Unit_UHF_RFID)
  : outcome (list Z) :=
  if i <? size then
    match n with
    | O => Spin
    | S n' =>
      do v <- buffer_get u (20 + i);
      readCard_copy n' size (u8 (i + 1)) (temp ++ [v]) u
    end
  else Done temp.

(** [memcpy(data, temp, size)] into the caller's array *)
Definition copy_out (data temp : list Z) (size : Z) : outcome (list Z) :=
  if size <=? Z.of_nat (length data) then Done (temp ++ drop (Z.to_nat size) data)
  else Fault (DataIndex (Z.of_nat (length data))).

(** The request frame, built in [buffer] and sent. *)
Definition readCard_request (size membank sa access_password : Z) (u : Unit_UHF_RFID)
  : outcome Unit_UHF_RFID :=
  do u1 <- load_template READ_STORAGE_CMD u;
  let b := <[5%nat := Z.land (Z.shiftr access_password 24) 0xff]> (buffer u1) in
  let b := <[6%nat := Z.land (Z.shiftr access_password 16) 0xff]> b in
  let b := <[7%nat := Z.land (Z.shiftr access_password 8) 0xff]> b in
  let b := <[8%nat := Z.land access_password 0xff]> b in
  let b := <[9%nat := membank]> b in
  let word := u8 (size / 2) in
  let b := <[12%nat := Z.land (Z.shiftr word 8) 0xff]> b in
  let b := <[13%nat := Z.land word 0xff]> b in
  let check := checksum b 1 13 in
  let b := <[14%nat := Z.land check 0xff]> b in
  let u2 := with_buffer b u1 in
  do _ <- debug_loop u2 (Z.of_nat (length READ_STORAGE_CMD));
  Done (sendCMD (buffer u2) (length READ_STORAGE_CMD) u2).

(** The result holds the caller's array [data] as the call leaves it. *)
Definition readCard (fuel : nat) (data : list Z) (size membank sa access_password : Z)
  (u : Unit_UHF_RFID) : outcome (bool * list Z * Unit_UHF_RFID) :=
  do u3 <- readCard_request size membank sa access_password u;
  do (ok, u4) <- waitMsg fuel default_timerout u3;
  if ok then
    do _ <- debug_loop u4 (22 + size);
    if load READ_STORAGE_ERROR 2 =? load (buffer u4) 2 then Done (false, data, u4)
    else
      do temp <- readCard_copy 256 size 0 [] u4;
      do data' <- copy_out data temp size;
      Done (true, data', u4)
  else Done (false, data, u4).

End Commands.

(** ** setRegion *)

(** [while (_serial->available()) _serial->read();] *)
Fixpoint drain (fuel : nat) (s : HardwareSerial) : outcome HardwareSerial :=
  match fuel with
  | O => Spin
  | S fuel' =>
    if available s then drain fuel' (tick (snd (read s)))
    else Done s
  end.



(** The value an operation hands back to its caller. *)
Definition result_of {A : Type} (o : outcome (A * Unit_UHF_RFID)) : outcome A :=
  match o with
  | Done (a, _) => Done a
  | Fault f => Fault f
  | Spin => Spin
  end.

(** ** Sample transports and objects *)

(** The module sends the bytes of [l], each at its clock value, and no more. *)
Definition scheduled (l : list (Z * Z)) : nat -> option (Z * Z) :=
  fun k => l !! k.

(** Every byte of [l] is already in the receive queue at clock 0. *)
Definition queued (l : list Z) : nat -> option (Z * Z) :=
  scheduled (map (fun b => (0, b)) l).

(** The bytes of [l] come in one per clock unit, the first at clock 0. *)
Definition trickle (l : list Z) : nat -> option (Z * Z) :=
  scheduled (imap (fun k b => (Z.of_nat k, b)) l).

(** The module sends the same byte for ever, one per clock unit. *)
Definition chatter (b : Z) : nat -> option (Z * Z) := fun k => Some (Z.of_nat k, b).

Definition power_on (w : nat -> option (Z * Z)) : Unit_UHF_RFID :=
  mkUnit (mkSerial w 0 0 []) false (repeat 0 256) (repeat empty_card 200).

(** Command tables laid out as the protocol asks, for the examples. *)
Definition sample_SET_TX_POWER : list Z :=
  [0xBB; 0x00; 0xB6; 0x00; 0x02; 0x07; 0xD0; 0x8F; 0x7E].
Definition sample_POLLING_ONCE_CMD : list Z :=
  [0xBB; 0x00; 0x22; 0x00; 0x00; 0x22; 0x7E].

(** A 24-byte inventory reply: RSSI [r], PC [0x30 0x00], EPC [e1 e2 0 ... 0]. *)
Definition tag_frame (r e1 e2 : Z) : list Z :=
  [0xbb; 0x02; 0x22; 0x00; 0x11; r; 0x30; 0x00; e1; e2] ++ repeat 0 10 ++ [0x12; 0x34; 0x56; 0x7e].

(** [n] inventory replies with pairwise different EPC, none holding a 0x7E
    before its terminator. *)
Definition many_tags (n : nat) : list Z :=
  flat_map (fun k => tag_frame 1 (Z.of_nat (k mod 100)) (Z.of_nat (k / 100))) (seq 0 n).

Definition sample_POLLING_MULTIPLE_CMD : list Z :=
  [0xBB; 0x00; 0x27; 0x00; 0x03; 0x22; 0x27; 0x10; 0x83; 0x7E].
Definition sample_WRITE_STORAGE_CMD : list Z :=
  [0xBB; 0x00; 0x49; 0x00; 0x0D; 0x00; 0x00; 0xFF; 0xFF; 0x03;
   0x00; 0x00; 0x00; 0x02; 0x12; 0x34; 0x56; 0x78; 0x6D; 0x7E].
Definition sample_WRITE_STORAGE_ERROR : list Z :=
  [0xBB; 0x01; 0xFF; 0x00; 0x01; 0x10; 0x0A; 0x7E].
Definition sample_READ_STORAGE_CMD : list Z :=
  [0xBB; 0x00; 0x39; 0x00; 0x09; 0x00; 0x00; 0xFF; 0xFF; 0x03;
   0x00; 0x00; 0x00; 0x02; 0x45; 0x7E].
Definition sample_READ_STORAGE_ERROR : list Z :=
  [0xBB; 0x01; 0xFF; 0x00; 0x01; 0x09; 0x0A; 0x7E].

(** A reply to a storage read: 20 bytes of header and EPC, then four bytes
    of data. *)
Definition read_reply : list Z :=
  [0xBB; 0x01; 0x39; 0x00; 0x13; 0x0E; 0x30; 0x00] ++ repeat 0x11 12
  ++ [0xDE; 0xAD; 0xBE; 0xEF; 0x42; 0x7E].

(** ** What a receive loop has read *)

Definition wire_byte (s : HardwareSerial) (k : nat) : Z :=
  match wire s k with
  | Some (_, b) => u8 b
  | None => 255
  end.

(** The next [n] bytes of the line, as [read()] hands them over. *)
Definition received (s : HardwareSerial) (n : nat) : list Z :=
  map (wire_byte s) (seq (rx_pos s) n).

(** [buffer[i] = b; i++;] for each byte of [l] in turn *)
Fixpoint fill (b : list Z) (i : Z) (l : list Z) : list Z :=
  match l with
  | [] => b
  | x :: l' => fill (<[Z.to_nat i := x]> b) (u8 (i + 1)) l'
  end.

(** [b[from] + ... + b[from + n - 1]], not truncated *)
Definition sum_bytes (b : list Z) (from n : nat) : Z :=
  fold_right Z.add 0 (map (load b) (seq from n)).

(** ** Predicates and sample objects used by the properties *)

Definition no_terminator (l : list Z) : Prop := Forall (fun x => x <> 0x7e) l.

(** The loop stopped on a terminator, or on an idle line after the timeout. *)
Definition stopped (time start : Z) (l : list Z) (u' : Unit_UHF_RFID) : Prop :=
  (exists pre, l = pre ++ [0x7e] /\ no_terminator pre) \/
  (no_terminator l /\ available (_serial u') = false /\
   time <= u32 (millis (_serial u') - start)).

(** The line hands over [l] next, each byte no later than clock [deadline]. *)
Definition delivers (s : HardwareSerial) (deadline : Z) (l : list Z) : Prop :=
  forall (k : nat) x, l !! k = Some x ->
    exists t b, wire s (rx_pos s + k) = Some (t, b) /\ u8 b = x /\ t <= deadline.

(** [delivers], as a check that runs. *)
Fixpoint deliversb (s : HardwareSerial) (deadline : Z) (k : nat) (l : list Z) : bool :=
  match l with
  | [] => true
  | x :: l' =>
    match wire s (rx_pos s + k) with
    | Some (t, b) => (u8 b =? x) && (t <=? deadline) && deliversb s deadline (S k) l'
    | None => false
    end
  end.

(** No byte the module sends is a terminator. *)
Definition quiet (l : list (Z * Z)) : bool :=
  forallb (fun tb => negb (u8 (snd tb) =? 0x7e)) l.

(** A buffer with every byte set, and a short reply on the line. *)
Definition stale_unit : Unit_UHF_RFID :=
  mkUnit (mkSerial (queued [0xbb; 0x01; 0x7e]) 0 0 []) false
         (repeat 0xAA 256) (repeat empty_card 200).

(** 256 bytes without terminator, then the two frame markers. *)
Definition headless_stream : list Z := repeat 0 256 ++ [0xbb; 0x7e].

(** A start marker, then 255 bytes without terminator. *)
Definition unterminated_stream : list Z := 0xbb :: repeat 0 255.

(** A frame of 258 bytes, the length of the reply to a read of 236 bytes:
    start marker, 255 bytes 0x00, the checksum byte [chk], terminator.  The
    sum of bytes 1..255 is 0, so 0x00 is the right checksum. *)
Definition long_frame (chk : Z) : list Z := 0xbb :: repeat 0 255 ++ [chk; 0x7e].

(** The table of a scan in progress: [n] records with pairwise different,
    non-empty EPC strings in slots [0..n), untouched slots from [n] on. *)
Definition tidy (n : nat) (cs : list CARD) : Prop :=
  length cs = 200%nat /\ (n <= 200)%nat /\
  (forall j, (n <= j)%nat -> card_at cs j = empty_card) /\
  (forall j, (j < n)%nat -> epc_str (card_at cs j) <> ""%string) /\
  (forall j1 j2, (j1 < n)%nat -> (j2 < n)%nat -> j1 <> j2 ->
                 epc_str (card_at cs j1) <> epc_str (card_at cs j2)).

(** What a scan may end in: a count within the table, never an access
    outside [cards]. *)
Definition scan_ok (r : outcome (Z * Unit_UHF_RFID)) : Prop :=
  match r with
  | Done (count, u') =>
    exists n : nat, count = Z.of_nat n /\ tidy n (cards u')
  | Fault f => f = BufferIndex (-1)
  | Spin => True
  end.


(** ** Further operations *)

(** [(char)b] for a byte of the buffer *)
Definition char_of_byte (b : Z) : ascii := ascii_of_nat (Z.to_nat b).

(** The scan of [getVersion]: [n] passes are left, [i] is the loop counter. *)
Fixpoint getVersion_scan (n i : nat) (b : list Z) (info : string) : string :=
  match n with
  | O => info
  | S n' =>
    let info' := (info ++ String (char_of_byte (load b (6 + i))) EmptyString)%string in
    if load b (8 + i) =? 0x7e then info'
    else getVersion_scan n' (S i) b info'
  end.

(** [for (uint8_t i = 12; i < 24; i++) Info += hex2str(buffer[i]);] *)
Definition select_text (b : list Z) : string :=
  fold_left (fun s i => (s ++ hex2str (load b i))%string) (seq 12 12) ""%string.

(** [for (uint8_t i = 0; i < sizeof(SET_SELECT_OK); i++)
       if (SET_SELECT_OK[i] != buffer[i]) return false;
     return true;]
    With a table of more than 255 bytes the [uint8_t] counter never reaches
    the bound: the loop ends on a mismatch only. *)
Definition select_reply_ok (ok_table b : list Z) : outcome bool :=
  if forallb (fun i => load ok_table i =? load b i) (seq 0 (Nat.min (length ok_table) 256))
  then (if (length ok_table <=? 255)%nat then Done true else Spin)
  else Done false.

Section MoreCommands.

Variables HARDWARE_VERSION_CMD GET_SELECT_PARAMETER_CMD : list Z.
Variables SET_SELECT_PARAMETER_CMD SET_SELECT_OK : list Z.
Variables READ_STORAGE_CMD READ_STORAGE_ERROR : list Z.

(** *** getVersion *)

Definition getVersion (fuel : nat) (u : Unit_UHF_RFID) : outcome (string * Unit_UHF_RFID) :=
  let u1 := sendCMD HARDWARE_VERSION_CMD (length HARDWARE_VERSION_CMD) u in
  do (ok, u2) <- waitMsg fuel default_timerout u1;
  if ok then Done (getVersion_scan 50 0 (buffer u2) "", u2)
  else Done ("ERROR"%string, u2).

(** *** selectInfo *)

Definition selectInfo (fuel : nat) (u : Unit_UHF_RFID) : outcome (string * Unit_UHF_RFID) :=
  let u1 := sendCMD GET_SELECT_PARAMETER_CMD (length GET_SELECT_PARAMETER_CMD) u in
  do (ok, u2) <- waitMsg fuel default_timerout u1;
  if ok then Done (select_text (buffer u2), u2)
  else Done ("ERROR"%string, u2).

(** *** select *)

(** The frame [select] leaves in [buffer] before it sends it; [epc] is the
    caller's array, read at indices 0..11. *)
Definition select_frame (epc : list Z) (u : Unit_UHF_RFID) : outcome Unit_UHF_RFID :=
  do u1 <- load_template SET_SELECT_PARAMETER_CMD u;
  if (length epc <? 12)%nat then Fault (DataIndex (Z.of_nat (length epc)))
  else
    let b := fold_left (fun b i => <[i := load epc (i - 12)]> b) (seq 12 12) (buffer u1) in
    let check := checksum b 1 23 in
    let b := <[24%nat := Z.land check 0xff]> b in
    Done (with_buffer b u1).

Definition select (fuel : nat) (epc : list Z) (u : Unit_UHF_RFID)
  : outcome (bool * Unit_UHF_RFID) :=
  do u1 <- select_frame epc u;
  let u2 := sendCMD (buffer u1) (length SET_SELECT_PARAMETER_CMD) u1 in
  do (ok, u3) <- waitMsg fuel default_timerout u2;
  if ok then
    do r <- select_reply_ok SET_SELECT_OK (buffer u3);
    Done (r, u3)
  else Done (false, u3).

(** *** readTID *)

(** [cards[tagIndex]] for a [uint8_t tagIndex] *)
Definition cards_get (u : Unit_UHF_RFID) (tagIndex : Z) : outcome CARD :=
  if (0 <=? tagIndex) && (tagIndex <? 200) then Done (card_at (cards u) (Z.to_nat tagIndex))
  else Fault (CardsIndex tagIndex).

Definition readTID (fuel : nat) (tagIndex : Z) (u : Unit_UHF_RFID)
  : outcome (bool * Unit_UHF_RFID) :=
  do card <- cards_get u tagIndex;
  do (selected, u1) <- select fuel (epc card) u;
  if selected then
    let tid_buffer := repeat 0 12 in
    do (r, u2) <- readCard READ_STORAGE_CMD READ_STORAGE_ERROR fuel tid_buffer 8 0x02 0 0 u1;
    Done (fst r, u2)
  else Done (false, u1).

End MoreCommands.

(** *** setReceiverParams and verifyRegion *)

(** [while (millis() - start < limit && idx < cap)
       if (_serial->available()) response[idx++] = _serial->read();]
    [response] holds the bytes stored so far, [idx] is its length. *)
Fixpoint collect (fuel : nat) (limit : Z) (cap : nat) (start : Z) (response : list Z)
  (s : HardwareSerial) : outcome (list Z * HardwareSerial) :=
  match fuel with
  | O => Spin
  | S fuel' =>
    if (u32 (millis s - start) <? limit) && (length response <? cap)%nat then
      if available s then
        let '(b, s') := read s in
        collect fuel' limit cap start (response ++ [b]) (tick s')
      else collect fuel' limit cap start response (tick s)
    else Done (response, s)
  end.

(** The array [setParamsCmd] once its checksum is filled in. *)
Definition setParamsCmd (mixer_g if_g thrd : Z) : list Z :=
  let cmd := [0xBB; 0x00; 0xF0; 0x00; 0x04; mixer_g; if_g;
              u8 (Z.shiftr thrd 8); u8 (Z.land thrd 0xFF); 0x00; 0x7E] in
  let checksum := checksum cmd 1 8 in
  <[9%nat := checksum]> cmd.

(** The test on the collected reply. *)
Definition params_ack (response : list Z) : bool :=
  (7 <=? length response)%nat && (load response 0 =? 0xBB) && (load response 1 =? 0x01)
  && (load response 2 =? 0xF0) && (load response 5 =? 0x00).

Definition setReceiverParams (fuel : nat) (mixer_g if_g thrd : Z) (u : Unit_UHF_RFID)
  : outcome (bool * Unit_UHF_RFID) :=
  let cmd := setParamsCmd mixer_g if_g thrd in
  do s1 <- drain fuel (_serial u);
  let u1 := sendCMD cmd (length cmd) (with_serial s1 u) in
  let startTime := millis (_serial u1) in
  do (response, s2) <- collect fuel 500 10 startTime [] (_serial u1);
  Done (params_ack response, with_serial s2 u1).




(** *** getSignalQuality *)

(** [(int8_t)cards[tagIndex].rssi], as [displayTagInfo] reads the RSSI byte *)
Definition int8 (b : Z) : Z := if u8 b <? 128 then u8 b else u8 b - 256.

Definition getSignalQuality (rssi : Z) : string :=
  if -50 <? rssi then "(Excellent)"
  else if -65 <? rssi then "(Good)"
  else if -75 <? rssi then "(Fair)"
  else "(Weak)".

(** Nothing is left to read, now or later. *)
Definition silent (s : HardwareSerial) : Prop :=
  forall k, (rx_pos s <= k)%nat -> wire s k = None.

(** The object [waitMsg] leaves behind when nothing came in: the cleaned
    buffer, the clock [time] units on. *)
Definition timed_out (time : Z) (u : Unit_UHF_RFID) : Unit_UHF_RFID :=
  with_serial (delay time (_serial u)) (cleanBuffer u).

(** ** A scan, as a function of the replies *)

(** A 24-byte inventory reply as the module frames it: start marker first,
    terminator last and nowhere before, every element a byte. *)
Definition inventory_frame (f : list Z) : bool :=
  (length f =? 24)%nat && (load f 0 =? 0xbb) && (load f 23 =? 0x7e)
  && forallb (fun x => (0 <=? x) && (x <? 256)) f
  && forallb (fun x => negb (x =? 0x7e)) (take 23 f).

(** The records a scan holds after one more reply: the reply is added when
    there is room and no record has its EPC string. *)
Definition scan_step (acc : list CARD) (f : list Z) : list CARD :=
  let c := card_of_buffer f in
  if (length acc <? 200)%nat
     && negb (existsb (fun c' => String.eqb (epc_str c) (epc_str c')) acc)
  then acc ++ [c] else acc.

Definition scan_records (frames : list (list Z)) : list CARD :=
  fold_left scan_step frames [].

(** The bytes [l] are in the receive queue, and nothing follows them. *)
Definition pending (s : HardwareSerial) (l : list Z) : Prop :=
  forall k,
    match l !! k with
    | Some b => exists t, wire s (rx_pos s + k) = Some (t, b) /\ t <= clock s
    | None => wire s (rx_pos s + k) = None
    end.

(** The table with the records [acc] in its first slots. *)
Definition table_of (acc : list CARD) : list CARD :=
  acc ++ repeat empty_card (200 - length acc).

Definition sample_HARDWARE_VERSION_CMD : list Z :=
  [0xBB; 0x00; 0x03; 0x00; 0x01; 0x00; 0x04; 0x7E].
Definition sample_GET_SELECT_PARAMETER_CMD : list Z :=
  [0xBB; 0x00; 0x0B; 0x00; 0x00; 0x0B; 0x7E].
Definition sample_SET_SELECT_PARAMETER_CMD : list Z :=
  [0xBB; 0x00; 0x0C; 0x00; 0x13; 0x01; 0x00; 0x00; 0x00; 0x20; 0x60; 0x00]
  ++ repeat 0 12 ++ [0x00; 0x7E].
Definition sample_SET_SELECT_OK : list Z :=
  [0xBB; 0x01; 0x0C; 0x00; 0x01; 0x00; 0x0E; 0x7E].

(** ** Replies *)

(** [l] ends with the terminator and holds no other. *)
Definition terminated (l : list Z) : bool :=
  forallb (fun x => negb (x =? 0x7e)) (removelast l) && (List.last l 0 =? 0x7e)
  && negb (length l =? 0)%nat.

(** The reply [l] reaches [u] within the default timeout: a whole frame,
    shorter than the buffer. *)
Definition replies (u : Unit_UHF_RFID) (l : list Z) : bool :=
  terminated l && (length l <? 256)%nat
  && deliversb (_serial u) (clock (_serial u) + default_timerout) 0 l.

(** ** begin and initializeModule *)





(* ================================================================== *)
(** * Properties *)

(** ** Integers and arrays *)

Lemma u8_range z : 0 <= u8 z < 256.
Proof. unfold u8. apply Z.mod_pos_bound. lia. Qed.

Lemma u8_small z : 0 <= z < 256 -> u8 z = z.
Proof. intros. unfold u8. apply Z.mod_small. lia. Qed.

Lemma u32_le z : 0 <= z -> 0 <= u32 z <= z.
Proof.
  intros. unfold u32. split.
  - apply Z.mod_pos_bound. lia.
  - apply Z.mod_le; lia.
Qed.

Lemma u32_small z : 0 <= z < 4294967296 -> u32 z = z.
Proof. intros. unfold u32. apply Z.mod_small. lia. Qed.

Lemma u32_sub a b : u32 (u32 a - u32 b) = u32 (a - b).
Proof. unfold u32. rewrite <- Zminus_mod. reflexivity. Qed.

Lemma land_ff z : Z.land z 0xff = z mod 256.
Proof. change 0xff with (Z.ones 8). rewrite Z.land_ones by lia. reflexivity. Qed.

Lemma load_insert_eq (l : list Z) i v : (i < length l)%nat -> load (<[i := v]> l) i = v.
Proof. intros. unfold load. rewrite list_lookup_insert_eq by done. reflexivity. Qed.

Lemma load_insert_ne (l : list Z) i j v : i <> j -> load (<[i := v]> l) j = load l j.
Proof. intros. unfold load. rewrite list_lookup_insert_ne by done. reflexivity. Qed.

(** Filling a range of slots with one value, as the two [clean...] loops do. *)
Lemma fold_insert_length {A} (x : A) (idx : list nat) (l : list A) :
  length (fold_left (fun b i => <[i := x]> b) idx l) = length l.
Proof.
  revert l. induction idx as [|k idx IH]; intros l; simpl; [done|].
  rewrite IH. apply length_insert.
Qed.

Lemma fold_insert_lookup_out {A} (x : A) (idx : list nat) (l : list A) j :
  ~ In j idx -> fold_left (fun b i => <[i := x]> b) idx l !! j = l !! j.
Proof.
  revert l. induction idx as [|k idx IH]; intros l Hj; simpl; [done|].
  rewrite IH by (intros ?; apply Hj; right; done).
  apply list_lookup_insert_ne. intros ->. apply Hj. left. done.
Qed.

Lemma fold_insert_lookup_in {A} (x : A) (idx : list nat) (l : list A) j :
  In j idx -> (j < length l)%nat ->
  fold_left (fun b i => <[i := x]> b) idx l !! j = Some x.
Proof.
  revert l. induction idx as [|k idx IH]; intros l Hj Hlen; simpl; [destruct Hj|].
  destruct (in_dec Nat.eq_dec j idx) as [Hin|Hout].
  - apply IH; [done|]. rewrite length_insert. done.
  - destruct Hj as [->|]; [|done].
    rewrite fold_insert_lookup_out by done.
    apply list_lookup_insert_eq. done.
Qed.

(** ** cleanBuffer *)

Lemma cleanBuffer_length u : length (buffer (cleanBuffer u)) = length (buffer u).
Proof. unfold cleanBuffer. cbn [buffer with_buffer]. apply fold_insert_length. Qed.

Lemma cleanBuffer_zero u j :
  (j < 200)%nat -> load (buffer (cleanBuffer u)) j = 0.
Proof.
  intros Hj. unfold load, cleanBuffer. cbn [buffer with_buffer].
  destruct (decide (j < length (buffer u))%nat) as [Hlt|Hge].
  - rewrite fold_insert_lookup_in; [done| |done]. apply in_seq. lia.
  - rewrite (lookup_ge_None_2 _ j); [done|]. rewrite fold_insert_length. lia.
Qed.

Lemma cleanBuffer_keep u j :
  (200 <= j)%nat -> buffer (cleanBuffer u) !! j = buffer u !! j.
Proof.
  intros Hj. unfold cleanBuffer. cbn [buffer with_buffer].
  apply fold_insert_lookup_out. rewrite in_seq. lia.
Qed.

(** ** fill *)

Lemma fill_length l : forall b i, length (fill b i l) = length b.
Proof.
  induction l as [|x l IH]; intros b i; simpl; [done|].
  rewrite IH. apply length_insert.
Qed.

Lemma fill_lookup_other l : forall b i (j : nat),
  0 <= i -> i + Z.of_nat (length l) <= 256 ->
  (j < Z.to_nat i \/ Z.to_nat i + length l <= j)%nat ->
  fill b i l !! j = b !! j.
Proof.
  induction l as [|x l IH]; intros b i j Hi Hlen Hj; [done|].
  cbn [fill]. cbn [length] in Hlen, Hj.
  destruct l as [|y l].
  - cbn [fill]. apply list_lookup_insert_ne. lia.
  - cbn [length] in Hlen, Hj.
    rewrite IH.
    + apply list_lookup_insert_ne. lia.
    + pose proof (u8_range (i + 1)). lia.
    + rewrite u8_small by lia. cbn [length]. lia.
    + rewrite u8_small by lia. cbn [length]. lia.
Qed.

Lemma fill_lookup_written l : forall b i (k : nat),
  0 <= i -> i + Z.of_nat (length l) <= Z.of_nat (length b) -> length b = 256%nat ->
  (k < length l)%nat ->
  fill b i l !! (Z.to_nat i + k)%nat = l !! k.
Proof.
  induction l as [|x l IH]; intros b i k Hi Hlen Hb Hk; [cbn in Hk; lia|].
  cbn [fill]. cbn [length] in Hlen, Hk.
  destruct k as [|k].
  - rewrite Nat.add_0_r. cbn [lookup list_lookup].
    destruct l as [|y l].
    + cbn [fill]. apply list_lookup_insert_eq. lia.
    + cbn [length] in Hlen.
      rewrite fill_lookup_other.
      * apply list_lookup_insert_eq. lia.
      * pose proof (u8_range (i + 1)). lia.
      * rewrite u8_small by lia. cbn [length]. lia.
      * rewrite u8_small by lia. lia.
  - destruct l as [|y l]; [cbn in Hk; lia|].
    cbn [length] in Hlen.
    replace (Z.to_nat i + S k)%nat with (Z.to_nat (u8 (i + 1)) + k)%nat
      by (rewrite u8_small by lia; lia).
    rewrite IH.
    + reflexivity.
    + pose proof (u8_range (i + 1)). lia.
    + rewrite length_insert. rewrite u8_small by lia. cbn [length]. lia.
    + rewrite length_insert. done.
    + lia.
Qed.

(** Whatever the number of bytes, the last one sits just below the index. *)
Lemma fill_last l : forall b i,
  length b = 256%nat -> 0 <= i < 256 -> l <> [] ->
  load (fill b i l) (Z.to_nat (u8 (i + Z.of_nat (length l) - 1))) = List.last l 0.
Proof.
  induction l as [|x l IH]; intros b i Hb Hi Hne; [done|].
  destruct l as [|y l].
  - cbn [fill length List.last].
    replace (i + Z.of_nat 1 - 1) with i by lia.
    rewrite u8_small by lia. apply load_insert_eq. lia.
  - change (fill b i (x :: y :: l))
      with (fill (<[Z.to_nat i := x]> b) (u8 (i + 1)) (y :: l)).
    change (List.last (x :: y :: l) 0) with (List.last (y :: l) 0).
    rewrite <- (IH (<[Z.to_nat i := x]> b) (u8 (i + 1)));
      [|rewrite length_insert; done|apply u8_range|done].
    f_equal. f_equal. unfold u8.
    replace (i + Z.of_nat (length (x :: y :: l)) - 1)
      with ((i + 1) + (Z.of_nat (length (y :: l)) - 1)) by (cbn [length]; lia).
    replace ((i + 1) mod 256 + Z.of_nat (length (y :: l)) - 1)
      with ((i + 1) mod 256 + (Z.of_nat (length (y :: l)) - 1)) by lia.
    symmetry. apply Zplus_mod_idemp_l.
Qed.

(** ** The receive loop: what a finished pass sequence has done *)

Lemma received_S s n :
  received s (S n) =
  wire_byte s (rx_pos s)
  :: received (mkSerial (wire s) (S (rx_pos s)) (clock s) (tx_log s)) n.
Proof. reflexivity. Qed.

Lemma received_ext s s' n :
  wire s' = wire s -> rx_pos s' = rx_pos s -> received s' n = received s n.
Proof. intros Hw Hp. unfold received, wire_byte. rewrite Hw, Hp. reflexivity. Qed.

Lemma received_length s n : length (received s n) = n.
Proof. unfold received. rewrite length_map, length_seq. reflexivity. Qed.

Lemma waitMsg_loop_inv fuel : forall time start i u i' u',
  0 <= i < 256 ->
  waitMsg_loop fuel time start i u = Done (i', u') ->
  exists n : nat,
    rx_pos (_serial u') = (rx_pos (_serial u) + n)%nat /\
    i' = u8 (i + Z.of_nat n) /\
    buffer u' = fill (buffer u) i (received (_serial u) n) /\
    wire (_serial u') = wire (_serial u) /\
    tx_log (_serial u') = tx_log (_serial u) /\
    cards u' = cards u /\
    _debug u' = _debug u /\
    clock (_serial u) <= clock (_serial u') /\
    (forall k, (k < n)%nat -> is_Some (wire (_serial u) (rx_pos (_serial u) + k))) /\
    stopped time start (received (_serial u) n) u'.
Proof.
  induction fuel as [|fuel IH]; intros time start i u i' u' Hi Hrun; [done|].
  cbn [waitMsg_loop] in Hrun.
  destruct (available (_serial u)) eqn:Hav.
  - (* a byte is waiting *)
    cbn [orb] in Hrun. unfold read in Hrun. rewrite Hav in Hrun.
    unfold available in Hav.
    destruct (wire (_serial u) (rx_pos (_serial u))) as [[t b]|] eqn:Hw; [|done].
    unfold buffer_set in Hrun.
    replace ((0 <=? i) && (i <? 256)) with true in Hrun
      by (symmetry; apply andb_true_iff; split; [apply Z.leb_le|apply Z.ltb_lt]; lia).
    cbn [bind] in Hrun.
    assert (Hb : wire_byte (_serial u) (rx_pos (_serial u)) = u8 b)
      by (unfold wire_byte; rewrite Hw; done).
    destruct (u8 b =? 0x7e) eqn:Hterm.
    + injection Hrun as <- <-. exists 1%nat.
      cbn [_serial with_serial with_buffer rx_pos wire tx_log clock buffer cards _debug].
      rewrite received_S, Hb. cbn [received map seq fill].
      apply Z.eqb_eq in Hterm.
      repeat split; try done; try lia.
      * intros k Hk. replace k with 0%nat by lia. rewrite Nat.add_0_r, Hw. eauto.
      * left. exists []. rewrite Hterm. split; [done|constructor].
    + apply IH in Hrun; [|apply u8_range].
      destruct Hrun as (n & Hpos & Hi' & Hbuf & Hwire & Htx & Hcards & Hdbg & Hclk & Hsome & Hstop).
      unfold tick, delay in *.
      cbn [_serial with_serial with_buffer rx_pos wire tx_log clock buffer cards
           _debug tick delay] in *.
      assert (Hrec : received (_serial u) (S n) =
                     u8 b :: received
                       (mkSerial (wire (_serial u)) (S (rx_pos (_serial u)))
                          (clock (_serial u) + 1) (tx_log (_serial u))) n).
      { rewrite received_S, Hb. f_equal. }
      exists (S n). rewrite Hrec. cbn [fill].
      apply Z.eqb_neq in Hterm.
      repeat split; try done; try lia.
      * rewrite Hi'. unfold u8. rewrite Zplus_mod_idemp_l. f_equal. lia.
      * intros [|k] Hk.
        -- rewrite Nat.add_0_r, Hw. eauto.
        -- replace (rx_pos (_serial u) + S k)%nat with (S (rx_pos (_serial u)) + k)%nat by lia.
           apply Hsome. lia.
      * destruct Hstop as [(pre & Hl & Hpre)|(Hl & Hidle)].
        -- left. exists (u8 b :: pre). rewrite Hl. split; [done|].
           constructor; done.
        -- right. split; [constructor; done|done].
  - (* nothing waiting *)
    cbn [orb] in Hrun.
    destruct (u32 (millis (_serial u) - start) <? time) eqn:Hlate.
    + apply IH in Hrun; [|done].
      destruct Hrun as (n & Hpos & Hi' & Hbuf & Hwire & Htx & Hcards & Hdbg & Hclk & Hsome & Hstop).
      unfold tick, delay in *.
      cbn [_serial with_serial with_buffer rx_pos wire tx_log clock buffer cards
           _debug tick delay] in *.
      exists n.
      rewrite (received_ext (_serial u)) in Hbuf, Hstop by done.
      repeat split; try done; try lia.
    + injection Hrun as <- <-. exists 0%nat.
      cbn [received map seq fill].
      repeat split; try done; try lia.
      * rewrite Z.add_0_r. symmetry. apply u8_small. done.
      * right. split; [constructor|]. split; [done|]. apply Z.ltb_ge. done.
Qed.

(** ** waitMsg: what a finished call has done *)

Lemma u8_pred n : u8 n <> 0 -> u8 (n - 1) = u8 n - 1.
Proof. unfold u8. intros H. Z.div_mod_to_equations. lia. Qed.

Lemma waitMsg_inv fuel time u r u' :
  length (buffer u) = 256%nat ->
  waitMsg fuel time u = Done (r, u') ->
  exists n : nat,
    rx_pos (_serial u') = (rx_pos (_serial u) + n)%nat /\
    buffer u' = fill (buffer (cleanBuffer u)) 0 (received (_serial u) n) /\
    wire (_serial u') = wire (_serial u) /\
    tx_log (_serial u') = tx_log (_serial u) /\
    cards u' = cards u /\
    _debug u' = _debug u /\
    clock (_serial u) <= clock (_serial u') /\
    (forall k, (k < n)%nat -> is_Some (wire (_serial u) (rx_pos (_serial u) + k))) /\
    stopped time (millis (_serial u)) (received (_serial u) n) u' /\
    (r = true ->
     load (buffer u') 0 = 0xbb /\ n <> 0%nat /\
     List.last (received (_serial u) n) 0 = 0x7e).
Proof.
  intros Hlen Hrun. unfold waitMsg in Hrun.
  destruct (waitMsg_loop fuel time (millis (_serial u)) 0 (cleanBuffer u))
    as [[i u1]| |] eqn:Hloop; [|done|done].
  cbn [bind] in Hrun.
  apply waitMsg_loop_inv in Hloop; [|lia].
  destruct Hloop as (n & Hpos & Hi & Hbuf & Hwire & Htx & Hcards & Hdbg & Hclk & Hsome & Hstop).
  change (_serial (cleanBuffer u)) with (_serial u) in *.
  change (cards (cleanBuffer u)) with (cards u) in *.
  change (_debug (cleanBuffer u)) with (_debug u) in *.
  assert (Hfin : u' = u1 /\
    (r = true -> load (buffer u1) 0 = 0xbb /\ i <> 0 /\
                 load (buffer u1) (Z.to_nat (i - 1)) = 0x7e)).
  { destruct (load (buffer u1) 0 =? 0xbb) eqn:Hhead.
    - unfold buffer_get in Hrun.
      destruct ((0 <=? i - 1) && (i - 1 <? 256)) eqn:Hin; [|done].
      cbn [bind] in Hrun. injection Hrun as <- <-.
      split; [done|]. intros Hr.
      apply andb_true_iff in Hin as [Hlo _]. apply Z.leb_le in Hlo.
      apply Z.eqb_eq in Hhead, Hr. split; [done|]. split; [lia|done].
    - injection Hrun as <- <-. split; [done|]. discriminate. }
  destruct Hfin as [-> Hr].
  exists n. repeat split; try done.
  - apply Hr. done.
  - destruct (Hr H) as (_ & Hi0 & _). intros ->. apply Hi0. rewrite Hi. done.
  - destruct (Hr H) as (_ & Hi0 & Hlast).
    assert (Hn : n <> 0%nat) by (intros ->; apply Hi0; rewrite Hi; done).
    rewrite Hbuf in Hlast. rewrite <- Hlast.
    rewrite Hi. cbn [Z.add]. rewrite <- u8_pred by (rewrite <- Hi; done).
    symmetry.
    rewrite <- (received_length (_serial u) n) at 2.
    apply (fill_last (received (_serial u) n) (buffer (cleanBuffer u)) 0).
    + rewrite cleanBuffer_length. done.
    + lia.
    + intros Hnil. apply (f_equal length) in Hnil.
      rewrite received_length in Hnil. done.
Qed.

(** ** The receive loop: when it finishes *)

Lemma delivers_prefix s deadline l1 l2 :
  delivers s deadline (l1 ++ l2) -> delivers s deadline l1.
Proof.
  intros H k x Hk. apply H. rewrite lookup_app_l; [done|].
  apply lookup_lt_Some in Hk. done.
Qed.

Lemma delivers_tail w p c tx c' x l deadline :
  delivers (mkSerial w p c tx) deadline (x :: l) ->
  delivers (mkSerial w (S p) c' tx) deadline l.
Proof.
  intros H k y Hk. cbn [wire rx_pos].
  replace (S p + k)%nat with (p + S k)%nat by lia.
  apply (H (S k) y). done.
Qed.

(** One pass further: the record updates of the loop body, laid bare. *)
Ltac next_pass :=
  unfold tick, delay, with_serial, with_buffer;
  cbn [_serial buffer cards rx_pos wire tx_log clock _debug].

Lemma in_range_true i : 0 <= i < 256 -> (0 <=? i) && (i <? 256) = true.
Proof. intros. apply andb_true_iff. split; [apply Z.leb_le|apply Z.ltb_lt]; lia. Qed.

(** A frame that arrives in time is read up to its terminator. *)
Lemma waitMsg_loop_break fuel : forall time c0 i u pre,
  0 <= i < 256 ->
  c0 <= clock (_serial u) ->
  delivers (_serial u) (c0 + time) (pre ++ [0x7e]) ->
  no_terminator pre ->
  (Z.to_nat (c0 + time - clock (_serial u)) + length pre < fuel)%nat ->
  exists u',
    waitMsg_loop fuel time (u32 c0) i u = Done (u8 (i + Z.of_nat (length pre) + 1), u') /\
    buffer u' = fill (buffer u) i (pre ++ [0x7e]) /\
    rx_pos (_serial u') = (rx_pos (_serial u) + S (length pre))%nat /\
    wire (_serial u') = wire (_serial u) /\
    tx_log (_serial u') = tx_log (_serial u) /\
    cards u' = cards u.
Proof.
  induction fuel as [|fuel IH]; intros time c0 i u pre Hi Hc Hdel Hpre Hfuel; [lia|].
  destruct u as [[w p c tx] dbg buf cs].
  cbn [_serial clock rx_pos wire tx_log buffer cards] in *.
  destruct (Hdel 0%nat (hd 0x7e (pre ++ [0x7e]))) as (t & b & Hw & Hb & Ht).
  { destruct pre; done. }
  cbn [wire rx_pos] in Hw. rewrite Nat.add_0_r in Hw.
  cbn [waitMsg_loop _serial]. unfold read, available. cbn [wire rx_pos clock tx_log].
  rewrite Hw.
  destruct (t <=? c) eqn:Harr.
  - (* the byte has arrived: it is read *)
    cbn [orb]. unfold buffer_set. rewrite in_range_true by done. cbn [bind].
    destruct pre as [|x pre].
    + cbn [app hd] in Hb. rewrite Hb. cbn [Z.eqb Pos.eqb length Z.of_nat].
      unfold with_serial, with_buffer.
      eexists. split; [f_equal; f_equal; f_equal; lia|].
      cbn [with_serial with_buffer _serial buffer cards rx_pos wire tx_log fill app].
      repeat split; try done. lia.
    + cbn [app hd] in Hb. rewrite Hb.
      inversion Hpre as [|? ? Hx Hpre']; subst.
      apply Z.eqb_neq in Hx. rewrite Hx.
      next_pass.
      edestruct (IH time c0 (u8 (i + 1))
                   (mkUnit (mkSerial w (S p) (c + 1) tx) dbg
                      (<[Z.to_nat i := u8 b]> buf) cs) pre)
        as (u' & Hrun & Hbuf & Hpos & Hwire & Htx & Hcards).
      * apply u8_range.
      * cbn [_serial clock]. lia.
      * cbn [_serial]. apply (delivers_tail w p c tx (c + 1) (u8 b)). done.
      * done.
      * cbn [_serial clock]. cbn [length] in Hfuel. lia.
      * exists u'. rewrite Hrun.
        cbn [_serial buffer cards rx_pos wire tx_log] in *.
        repeat split; try done.
        -- f_equal. f_equal. unfold u8.
           rewrite <- Z.add_assoc, Zplus_mod_idemp_l.
           f_equal. cbn [length]. lia.
        -- cbn [length]. lia.
  - (* not yet: the loop idles, the timeout has not run out *)
    apply Z.leb_gt in Harr.
    cbn [orb]. unfold millis. cbn [clock]. rewrite u32_sub.
    assert (Hearly : (u32 (c - c0) <? time) = true).
    { apply Z.ltb_lt. pose proof (u32_le (c - c0)). lia. }
    rewrite Hearly. next_pass.
    edestruct (IH time c0 i (mkUnit (mkSerial w p (c + 1) tx) dbg buf cs) pre)
      as (u' & Hrun & Hrest); try done.
    + cbn [_serial clock]. lia.
    + cbn [_serial clock]. lia.
    + exists u'. split; done.
Qed.

(** On a line that falls silent and never sends a terminator, the loop
    ends: not before the timeout, and after it no later than the bytes still
    to come can hold it up, one pass each. *)
Lemma waitMsg_loop_timeout fuel : forall time c0 i u (N : nat),
  0 <= i < 256 ->
  c0 <= clock (_serial u) ->
  (forall k, (rx_pos (_serial u) + N <= k)%nat -> wire (_serial u) k = None) ->
  (forall k t b, wire (_serial u) k = Some (t, b) -> u8 b <> 0x7e) ->
  Z.max (clock (_serial u) - c0) time + Z.of_nat N < 4294967296 ->
  (Z.to_nat (time - (clock (_serial u) - c0)) + N < fuel)%nat ->
  exists i' u',
    waitMsg_loop fuel time (u32 c0) i u = Done (i', u') /\
    Z.max (clock (_serial u)) (c0 + time) <= clock (_serial u')
    <= Z.max (clock (_serial u)) (c0 + time) + Z.of_nat N.
Proof.
  induction fuel as [|fuel IH]; intros time c0 i u N Hi Hc Hend Hquiet Hbig Hfuel; [lia|].
  destruct u as [[w p c tx] dbg buf cs].
  cbn [_serial clock rx_pos wire tx_log buffer cards] in *.
  cbn [waitMsg_loop _serial]. unfold read, available. cbn [wire rx_pos clock tx_log].
  destruct (w p) as [[t b]|] eqn:Hw.
  - destruct (t <=? c) eqn:Harr.
    + (* a byte is read; it is no terminator *)
      destruct N as [|N]; [rewrite Hend in Hw by lia; done|].
      cbn [orb]. unfold buffer_set. rewrite in_range_true by done. cbn [bind].
      pose proof (Hquiet _ _ _ Hw) as Hb. apply Z.eqb_neq in Hb. rewrite Hb.
      next_pass.
      edestruct (IH time c0 (u8 (i + 1))
                   (mkUnit (mkSerial w (S p) (c + 1) tx) dbg
                      (<[Z.to_nat i := u8 b]> buf) cs) N)
        as (i' & u' & Hrun & Hwhen).
      * apply u8_range.
      * cbn [_serial clock]. lia.
      * cbn [_serial rx_pos wire]. intros k Hk. apply Hend. lia.
      * done.
      * cbn [_serial clock]. lia.
      * cbn [_serial clock]. lia.
      * exists i', u'. split; [done|]. cbn [_serial clock] in Hwhen. lia.
    + (* the next byte is still on its way *)
      cbn [orb]. unfold millis. cbn [clock]. rewrite u32_sub.
      rewrite u32_small by lia.
      destruct (c - c0 <? time) eqn:Hearly.
      * apply Z.ltb_lt in Hearly. next_pass.
        edestruct (IH time c0 i (mkUnit (mkSerial w p (c + 1) tx) dbg buf cs) N)
          as (i' & u' & Hrun & Hwhen); try done.
        -- cbn [_serial clock]. lia.
        -- cbn [_serial clock]. lia.
        -- cbn [_serial clock]. lia.
        -- exists i', u'. split; [done|]. cbn [_serial clock] in Hwhen. lia.
      * apply Z.ltb_ge in Hearly. exists i, (mkUnit (mkSerial w p c tx) dbg buf cs).
        split; [done|]. cbn [_serial clock]. lia.
  - (* the line is silent *)
    cbn [orb]. unfold millis. cbn [clock]. rewrite u32_sub.
    rewrite u32_small by lia.
    destruct (c - c0 <? time) eqn:Hearly.
    + apply Z.ltb_lt in Hearly. next_pass.
      edestruct (IH time c0 i (mkUnit (mkSerial w p (c + 1) tx) dbg buf cs) N)
        as (i' & u' & Hrun & Hwhen); try done.
      * cbn [_serial clock]. lia.
      * cbn [_serial clock]. lia.
      * cbn [_serial clock]. lia.
      * exists i', u'. split; [done|]. cbn [_serial clock] in Hwhen. lia.
    + apply Z.ltb_ge in Hearly. exists i, (mkUnit (mkSerial w p c tx) dbg buf cs).
      split; [done|]. cbn [_serial clock]. lia.
Qed.

(** A module that never stops sending keeps the loop going for ever. *)
Lemma waitMsg_loop_chatter fuel : forall time start i u,
  0 <= i < 256 ->
  Z.of_nat (rx_pos (_serial u)) <= clock (_serial u) ->
  wire (_serial u) = chatter 0 ->
  waitMsg_loop fuel time start i u = Spin.
Proof.
  induction fuel as [|fuel IH]; intros time start i u Hi Hc Hw; [done|].
  cbn [waitMsg_loop]. unfold read, available. rewrite Hw. unfold chatter.
  replace (Z.of_nat (rx_pos (_serial u)) <=? clock (_serial u)) with true
    by (symmetry; apply Z.leb_le; done).
  cbn [orb]. unfold buffer_set. rewrite in_range_true by done. cbn [bind].
  change (u8 0 =? 0x7e) with false. cbv iota.
  apply IH.
  - apply u8_range.
  - unfold tick, delay, with_serial, with_buffer. cbn [_serial clock rx_pos]. lia.
  - done.
Qed.

(** ** waitMsg on a frame that arrives in time *)

Lemma load_fill_written l b (k : nat) :
  length b = 256%nat -> (length l <= 256)%nat -> (k < length l)%nat ->
  load (fill b 0 l) k = default 0 (l !! k).
Proof.
  intros Hb Hl Hk. unfold load.
  rewrite <- (fill_lookup_written l b 0 k); try done; try lia.
Qed.

Lemma waitMsg_frame fuel time u pre :
  length (buffer u) = 256%nat ->
  delivers (_serial u) (clock (_serial u) + time) (pre ++ [0x7e]) ->
  no_terminator pre ->
  (length pre < 255)%nat ->
  (Z.to_nat time + length pre < fuel)%nat ->
  exists u',
    waitMsg fuel time u = Done (hd 0x7e pre =? 0xbb, u') /\
    buffer u' = fill (buffer (cleanBuffer u)) 0 (pre ++ [0x7e]) /\
    rx_pos (_serial u') = (rx_pos (_serial u) + S (length pre))%nat /\
    wire (_serial u') = wire (_serial u) /\
    tx_log (_serial u') = tx_log (_serial u) /\
    cards u' = cards u.
Proof.
  intros Hlen Hdel Hpre Hshort Hfuel.
  destruct (waitMsg_loop_break fuel time (clock (_serial u)) 0 (cleanBuffer u) pre)
    as (u' & Hrun & Hbuf & Hrest); try done; try lia.
  { change (_serial (cleanBuffer u)) with (_serial u).
    replace (clock (_serial u) + time - clock (_serial u)) with time by lia. done. }
  exists u'. split; [|split; done].
  unfold waitMsg, millis. rewrite Hrun. cbn [bind].
  assert (Hclean : length (buffer (cleanBuffer u)) = 256%nat)
    by (rewrite cleanBuffer_length; done).
  assert (Hhead : load (buffer u') 0 = hd 0x7e (pre ++ [0x7e])).
  { rewrite Hbuf, load_fill_written; try done.
    - destruct pre; done.
    - rewrite length_app. cbn [length]. lia.
    - rewrite length_app. cbn [length]. lia. }
  assert (Hlast : load (buffer u') (length pre) = 0x7e).
  { rewrite Hbuf, load_fill_written; try done.
    - rewrite lookup_app_r by lia. rewrite Nat.sub_diag. done.
    - rewrite length_app. cbn [length]. lia.
    - rewrite length_app. cbn [length]. lia. }
  rewrite Hhead.
  replace (hd 0x7e (pre ++ [0x7e])) with (hd 0x7e pre) by (destruct pre; done).
  destruct (hd 0x7e pre =? 0xbb); [|done].
  unfold buffer_get. rewrite u8_small by lia.
  rewrite in_range_true by lia. cbn [bind].
  replace (Z.to_nat (0 + Z.of_nat (length pre) + 1 - 1)) with (length pre) by lia.
  rewrite Hlast. done.
Qed.

(** Every byte string ends at its first terminator once one is appended. *)
Lemma first_terminator l :
  exists pre rest,
    l ++ [0x7e] = (pre ++ [0x7e]) ++ rest /\
    no_terminator pre /\
    (length pre <= length l)%nat /\
    hd 0x7e pre = hd 0x7e l.
Proof.
  induction l as [|x l (pre & rest & Heq & Hpre & Hlen & Hhd)].
  - exists [], []. repeat split; try done. constructor.
  - destruct (decide (x = 0x7e)) as [->|Hx].
    + exists [], (l ++ [0x7e]). repeat split; try done; [constructor|cbn; lia].
    + exists (x :: pre), rest. cbn [app]. rewrite Heq.
      repeat split; try done; [constructor; done|cbn [length]; lia].
Qed.

Lemma deliversb_from s deadline l : forall k0,
  deliversb s deadline k0 l = true ->
  forall (k : nat) x, l !! k = Some x ->
    exists t b, wire s (rx_pos s + (k0 + k)) = Some (t, b) /\ u8 b = x /\ t <= deadline.
Proof.
  induction l as [|y l IH]; intros k0 H k x Hk; [done|].
  cbn [deliversb] in H.
  destruct (wire s (rx_pos s + k0)) as [[t b]|] eqn:Hw; [|done].
  apply andb_true_iff in H as [H Hrest]. apply andb_true_iff in H as [Hb Ht].
  apply Z.eqb_eq in Hb. apply Z.leb_le in Ht.
  destruct k as [|k].
  - injection Hk as <-. rewrite Nat.add_0_r. eauto.
  - replace (k0 + S k)%nat with (S k0 + k)%nat by lia. apply (IH (S k0)); done.
Qed.

Lemma deliversb_true s deadline l :
  deliversb s deadline 0 l = true -> delivers s deadline l.
Proof. intros H k x Hk. apply (deliversb_from s deadline l 0 H k x Hk). Qed.

Lemma waitMsg_header fuel time u l :
  length (buffer u) = 256%nat ->
  (length l < 255)%nat ->
  delivers (_serial u) (clock (_serial u) + time) (l ++ [0x7e]) ->
  (Z.to_nat time + length l < fuel)%nat ->
  exists u', waitMsg fuel time u = Done (hd 0x7e l =? 0xbb, u').
Proof.
  intros Hlen Hshort Hdel Hfuel.
  destruct (first_terminator l) as (pre & rest & Heq & Hpre & Hle & Hhd).
  rewrite Heq in Hdel. apply delivers_prefix in Hdel.
  destruct (waitMsg_frame fuel time u pre) as (u' & Hrun & _); try done; try lia.
  exists u'. rewrite <- Hhd. done.
Qed.

(** What does hold of the claim that the receive path verifies no checksum:
    two frames that differ only in the byte before the terminator, each
    received in time and shorter than the frame buffer, get the same verdict
    from [waitMsg], which is fixed by the first byte alone; hence such a
    frame that starts with 0xBB and ends with 0x7E is accepted whatever its
    checksum byte. *)
Theorem waitMsg_ignores_checksum fuel time u1 u2 h body c1 c2 :
  length (buffer u1) = 256%nat ->
  length (buffer u2) = 256%nat ->
  (length body + 3 < 256)%nat ->
  deliversb (_serial u1) (clock (_serial u1) + time) 0 (h :: body ++ [c1; 0x7e]) = true ->
  deliversb (_serial u2) (clock (_serial u2) + time) 0 (h :: body ++ [c2; 0x7e]) = true ->
  (Z.to_nat time + length body + 3 <= fuel)%nat ->
  exists r u1' u2',
    waitMsg fuel time u1 = Done (r, u1') /\
    waitMsg fuel time u2 = Done (r, u2') /\
    r = (h =? 0xbb).
Proof.
  intros Hb1 Hb2 Hshort Hd1 Hd2 Hfuel.
  apply deliversb_true in Hd1, Hd2.
  assert (Hsplit : forall c, h :: body ++ [c; 0x7e] = (h :: body ++ [c]) ++ [0x7e]).
  { intros c. cbn [app]. rewrite <- app_assoc. done. }
  rewrite Hsplit in Hd1, Hd2.
  destruct (waitMsg_header fuel time u1 (h :: body ++ [c1])) as (u1' & Hrun1); try done;
    try (cbn [length]; rewrite length_app; cbn [length]; lia).
  destruct (waitMsg_header fuel time u2 (h :: body ++ [c2])) as (u2' & Hrun2); try done;
    try (cbn [length]; rewrite length_app; cbn [length]; lia).
  exists (h =? 0xbb), u1', u2'. cbn [hd] in Hrun1, Hrun2. done.
Qed.

Lemma waitMsg_ignores_checksum_witness :
  exists u1' u2',
    waitMsg 600 default_timerout
      (power_on (queued [0xbb; 0x01; 0xb6; 0x00; 0x01; 0x00; 0xb8; 0x7e])) = Done (true, u1') /\
    waitMsg 600 default_timerout
      (power_on (queued [0xbb; 0x01; 0xb6; 0x00; 0x01; 0x00; 0x55; 0x7e])) = Done (true, u2').
Proof.
  destruct (waitMsg_ignores_checksum 600 default_timerout
              (power_on (queued [0xbb; 0x01; 0xb6; 0x00; 0x01; 0x00; 0xb8; 0x7e]))
              (power_on (queued [0xbb; 0x01; 0xb6; 0x00; 0x01; 0x00; 0x55; 0x7e]))
              0xbb [0x01; 0xb6; 0x00; 0x01; 0x00] 0xb8 0x55)
    as (r & u1' & u2' & H1 & H2 & Hr);
    [reflexivity|reflexivity|simpl; lia|reflexivity|reflexivity|vm_compute; lia|].
  exists u1', u2'. rewrite Hr in H1, H2. split; [exact H1|exact H2].
Defined.

(** ** waitMsg on a line without terminator *)

Lemma quiet_spec l k t b : quiet l = true -> scheduled l k = Some (t, b) -> u8 b <> 0x7e.
Proof.
  unfold quiet, scheduled. intros Hq Hk.
  rewrite forallb_forall in Hq.
  apply list_elem_of_lookup_2, list_elem_of_In, Hq in Hk.
  cbn [snd] in Hk. apply negb_true_iff, Z.eqb_neq in Hk. done.
Qed.

Lemma received_quiet s n :
  (forall k, (k < n)%nat -> is_Some (wire s (rx_pos s + k))) ->
  (forall k t b, wire s k = Some (t, b) -> u8 b <> 0x7e) ->
  no_terminator (received s n).
Proof.
  intros Hsome Hq. unfold no_terminator, received.
  apply Forall_forall. intros x Hx.
  apply list_elem_of_In, in_map_iff in Hx as (k & <- & Hk). apply in_seq in Hk.
  destruct (Hsome (k - rx_pos s)%nat) as [[t b] Hw]; [lia|].
  replace (rx_pos s + (k - rx_pos s))%nat with k in Hw by lia.
  unfold wire_byte. rewrite Hw. eapply Hq. done.
Qed.

Lemma no_terminator_last l : no_terminator l -> l <> [] -> List.last l 0 <> 0x7e.
Proof.
  intros Hl Hne. unfold no_terminator in Hl. rewrite Forall_forall in Hl.
  apply Hl. apply list_elem_of_In.
  destruct (exists_last Hne) as (l' & x & ->). rewrite last_last.
  apply in_or_app. right. left. done.
Qed.

(** C7 (amended). On a transport that sends no 0x7E byte and fewer than 256
    bytes in all, [waitMsg] returns, and returns failure; it does not return
    before the clock has advanced by the timeout, it returns with nothing
    left to read, no later than the timeout plus one clock unit for each
    byte still to come, hence exactly [time] units after the call when there
    is nothing to read.  The default timeout is 500. *)
Theorem waitMsg_timeout time u l :
  length (buffer u) = 256%nat ->
  wire (_serial u) = scheduled l ->
  quiet l = true ->
  (length l - rx_pos (_serial u) < 256)%nat ->
  0 <= time < 4294967040 ->
  default_timerout = 500 /\
  exists fuel u',
    waitMsg fuel time u = Done (false, u') /\
    time <= clock (_serial u') - clock (_serial u)
         <= time + Z.of_nat (length l - rx_pos (_serial u)) /\
    available (_serial u') = false.
Proof.
  intros Hlen Hwire Hquiet Hfew Htime. split; [reflexivity|].
  set (N := (length l - rx_pos (_serial u))%nat) in *.
  assert (Hq : forall k t b, wire (_serial u) k = Some (t, b) -> u8 b <> 0x7e).
  { intros k t b Hk. rewrite Hwire in Hk. eapply quiet_spec; done. }
  assert (Hend : forall k, (rx_pos (_serial u) + N <= k)%nat -> wire (_serial u) k = None).
  { intros k Hk. rewrite Hwire. unfold scheduled. apply lookup_ge_None_2. lia. }
  destruct (waitMsg_loop_timeout (S (Z.to_nat time + N)) time (clock (_serial u)) 0
              (cleanBuffer u) N)
    as (i & u1 & Hloop & Hwhen); try done; try lia.
  { change (_serial (cleanBuffer u)) with (_serial u). lia. }
  { change (_serial (cleanBuffer u)) with (_serial u). lia. }
  change (_serial (cleanBuffer u)) with (_serial u) in Hwhen.
  exists (S (Z.to_nat time + N)), u1.
  pose proof Hloop as Hinv. apply waitMsg_loop_inv in Hinv; [|lia].
  destruct Hinv as (n & Hpos & Hi & Hbuf & _ & _ & _ & _ & Hclk & Hsome & Hstop).
  change (_serial (cleanBuffer u)) with (_serial u) in *.
  pose proof (received_quiet _ _ Hsome Hq) as Hrec.
  assert (Hn : (n <= N)%nat).
  { destruct n as [|n]; [lia|].
    destruct (Hsome n) as [x Hx]; [lia|].
    destruct (decide (rx_pos (_serial u) + N <= rx_pos (_serial u) + n)%nat) as [Hge|]; [|lia].
    rewrite (Hend _ Hge) in Hx. done. }
  assert (Hidle : available (_serial u1) = false).
  { destruct Hstop as [(pre & Hl & _)|(_ & Hidle & _)]; [|done].
    exfalso. rewrite Hl in Hrec. unfold no_terminator in Hrec.
    apply Forall_app in Hrec as [_ Hrec]. inversion Hrec. done. }
  split; [|split; [lia|done]].
  unfold waitMsg, millis. rewrite Hloop. cbn [bind].
  destruct (load (buffer u1) 0 =? 0xbb) eqn:Hhead; [|done].
  assert (Hn0 : n <> 0%nat).
  { intros ->. cbn [received map seq fill] in Hbuf. rewrite Hbuf in Hhead.
    rewrite cleanBuffer_zero in Hhead by lia. done. }
  rewrite Hi. rewrite u8_small by lia.
  unfold buffer_get. rewrite in_range_true by lia. cbn [bind].
  replace (Z.to_nat (0 + Z.of_nat n - 1)) with (Z.to_nat (u8 (0 + Z.of_nat n - 1)))
    by (rewrite u8_small by lia; done).
  rewrite Hbuf.
  rewrite <- (received_length (_serial u) n) at 2.
  rewrite fill_last; [|rewrite cleanBuffer_length; done|lia|].
  - assert (Hne : List.last (received (_serial u) n) 0 <> 0x7e).
    { apply no_terminator_last; [done|]. intros Hnil.
      apply (f_equal length) in Hnil. rewrite received_length in Hnil. done. }
    apply Z.eqb_neq in Hne. rewrite Hne. done.
  - intros Hnil. apply (f_equal length) in Hnil.
    rewrite received_length in Hnil. done.
Qed.

Lemma waitMsg_timeout_witness :
  exists fuel u',
    waitMsg fuel default_timerout (power_on (queued [0xbb; 0x01; 0x02])) = Done (false, u') /\
    default_timerout <= clock (_serial u').
Proof.
  destruct (waitMsg_timeout default_timerout (power_on (queued [0xbb; 0x01; 0x02]))
              [(0, 0xbb); (0, 0x01); (0, 0x02)])
    as (_ & fuel & u' & Hrun & [Hlate _] & _);
    [reflexivity|reflexivity|reflexivity|simpl; lia|vm_compute; split; congruence|].
  exists fuel, u'. split; [exact Hrun|].
  change (clock (_serial (power_on (queued [0xbb; 0x01; 0x02])))) with 0 in Hlate.
  rewrite Z.sub_0_r in Hlate. exact Hlate.
Defined.

(** With bytes still coming in when the timeout runs out, the failure is
    reported later than the timeout: 600 bytes, one per clock unit. *)
Example waitMsg_returns_late :
  exists u',
    waitMsg 1000 default_timerout (power_on (trickle (repeat 0 600))) = Done (false, u') /\
    clock (_serial u') = 600.
Proof. eexists. split; vm_compute; reflexivity. Qed.

(** C7, the claim as stated, fails: a module that keeps sending a byte other
    than 0x7E never lets [waitMsg] return, whatever the timeout. *)
Lemma waitMsg_no_return_on_chatter :
  (forall k, chatter 0 k = Some (Z.of_nat k, 0)) /\
  ~ (exists fuel r, waitMsg fuel default_timerout (power_on (chatter 0)) = Done r).
Proof.
  split; [reflexivity|].
  intros (fuel & r & Hrun). unfold waitMsg in Hrun.
  rewrite waitMsg_loop_chatter in Hrun; [done|lia|cbn; lia|reflexivity].
Qed.

(** ** The tail of the frame buffer *)

(** C9. [cleanBuffer] zeroes [buffer[0..199]] and leaves [buffer[200..255]]
    as they were; [waitMsg] starts from the buffer so cleaned, and a byte at
    index 200..255 that the received bytes do not reach is, after [waitMsg],
    what it was before the call. *)
Theorem cleanBuffer_leaves_tail u :
  length (buffer u) = 256%nat ->
  (forall j, (j < 200)%nat -> load (buffer (cleanBuffer u)) j = 0) /\
  (forall j, (200 <= j < 256)%nat -> load (buffer (cleanBuffer u)) j = load (buffer u) j) /\
  (forall fuel time r u',
     waitMsg fuel time u = Done (r, u') ->
     exists n : nat,
       rx_pos (_serial u') = (rx_pos (_serial u) + n)%nat /\
       buffer u' = fill (buffer (cleanBuffer u)) 0 (received (_serial u) n) /\
       forall j, (200 <= j < 256)%nat -> (n <= j)%nat ->
                 load (buffer u') j = load (buffer u) j).
Proof.
  intros Hlen. split; [|split].
  - intros j Hj. apply cleanBuffer_zero. done.
  - intros j Hj. unfold load. rewrite cleanBuffer_keep by lia. done.
  - intros fuel time r u' Hrun.
    apply waitMsg_inv in Hrun; [|done].
    destruct Hrun as (n & Hpos & Hbuf & _).
    exists n. split; [done|]. split; [done|].
    intros j Hj Hn. unfold load. rewrite Hbuf.
    rewrite fill_lookup_other.
    + rewrite cleanBuffer_keep by lia. done.
    + lia.
    + rewrite received_length. lia.
    + rewrite received_length. lia.
Qed.

Lemma cleanBuffer_leaves_tail_witness :
  load (buffer (cleanBuffer stale_unit)) 199 = 0 /\
  load (buffer (cleanBuffer stale_unit)) 200 = 0xAA /\
  exists u', waitMsg 10 default_timerout stale_unit = Done (true, u') /\
             load (buffer u') 255 = 0xAA.
Proof.
  destruct (cleanBuffer_leaves_tail stale_unit eq_refl) as (Hzero & Hkeep & Hwait).
  split; [apply Hzero; lia|].
  split; [rewrite Hkeep by lia; reflexivity|].
  eexists. split; [vm_compute; reflexivity|].
  vm_compute. reflexivity.
Defined.

(** Bytes 200..255 left by an earlier exchange reach the caller: a read of
    190 bytes after a 26-byte reply hands back [buffer[200..209]] as they were
    before the call. *)
Example readCard_returns_stale_tail :
  exists data' u',
    readCard sample_READ_STORAGE_CMD sample_READ_STORAGE_ERROR 600 (repeat 0 190) 190 0x03 0 0
      (with_buffer (repeat 0xAA 256) (power_on (queued read_reply)))
    = Done (true, data', u') /\
    drop 180 data' = repeat 0xAA 10.
Proof. do 2 eexists. split; vm_compute; reflexivity. Qed.

(** ** The start marker and long streams *)

(** C1. The claim fails on the code: the write index is a [uint8_t], so the
    257th byte received lands in [buffer[0]].  A stream whose first byte is
    0x00 is accepted once the 257th byte is 0xBB and a 0x7E follows; and after
    exactly 256 bytes the last-byte test reads [buffer[-1]]. *)
Theorem waitMsg_accepts_headless_stream :
  hd 0 headless_stream = 0x00 /\
  length headless_stream = 258%nat /\
  result_of (waitMsg 600 default_timerout (power_on (trickle headless_stream))) = Done true /\
  result_of (waitMsg 1000 default_timerout (power_on (trickle unterminated_stream)))
  = Fault (BufferIndex (-1)).
Proof. repeat split; vm_compute; reflexivity. Qed.

(** C8. The claim fails on the code, by the index wrap of C1: in a frame of
    258 bytes the checksum byte is the 257th byte received and lands in
    [buffer[0]], where the start marker test reads it.  Of two such frames
    that differ only in the checksum byte, the one with the right checksum
    0x00 is rejected and the one with the wrong checksum 0xBB is accepted;
    and a frame of 257 bytes with both markers is rejected, its terminator
    having replaced the start marker. *)
Theorem waitMsg_long_frame_checksum :
  length (long_frame 0x00) = 258%nat /\
  checksum (long_frame 0x00) 1 255 = 0x00 /\
  result_of (waitMsg 600 default_timerout (power_on (trickle (long_frame 0x00)))) = Done false /\
  result_of (waitMsg 600 default_timerout (power_on (trickle (long_frame 0xbb)))) = Done true /\
  result_of (waitMsg 600 default_timerout
               (power_on (trickle (0xbb :: repeat 0 255 ++ [0x7e])))) = Done false.
Proof. repeat split; vm_compute; reflexivity. Qed.

(** What does hold: [waitMsg] answers true only with 0xBB in [buffer[0]] and
    0x7E as the last byte read; and while the bytes read fit the buffer,
    [buffer[0]] is the first of them. *)
Lemma waitMsg_true_markers fuel time u u' :
  length (buffer u) = 256%nat ->
  waitMsg fuel time u = Done (true, u') ->
  exists n : nat,
    rx_pos (_serial u') = (rx_pos (_serial u) + n)%nat /\
    n <> 0%nat /\
    load (buffer u') 0 = 0xbb /\
    List.last (received (_serial u) n) 0 = 0x7e /\
    ((n <= 256)%nat -> hd 0 (received (_serial u) n) = 0xbb).
Proof.
  intros Hlen Hrun. apply waitMsg_inv in Hrun; [|done].
  destruct Hrun as (n & Hpos & Hbuf & _ & _ & _ & _ & _ & _ & _ & Htrue).
  destruct (Htrue eq_refl) as (Hhead & Hn & Hlast).
  exists n. repeat split; try done.
  intros Hfit. rewrite Hbuf in Hhead.
  rewrite load_fill_written in Hhead.
  - destruct n; [done|]. rewrite received_S in *. done.
  - rewrite cleanBuffer_length. done.
  - rewrite received_length. done.
  - rewrite received_length. lia.
Qed.

(** ** The tag table *)

Lemma waitMsg_loop_no_fault fuel : forall time start i u f,
  0 <= i < 256 -> waitMsg_loop fuel time start i u <> Fault f.
Proof.
  induction fuel as [|fuel IH]; intros time start i u f Hi; [done|].
  cbn [waitMsg_loop].
  destruct (available (_serial u) || (u32 (millis (_serial u) - start) <? time)); [|done].
  destruct (available (_serial u)); [|apply IH; done].
  destruct (read (_serial u)) as [b s'].
  unfold buffer_set. rewrite in_range_true by done. cbn [bind].
  destruct (b =? 0x7e); [done|]. apply IH. apply u8_range.
Qed.

Lemma waitMsg_fault fuel time u f :
  waitMsg fuel time u = Fault f -> f = BufferIndex (-1).
Proof.
  unfold waitMsg. intros Hrun.
  destruct (waitMsg_loop fuel time (millis (_serial u)) 0 (cleanBuffer u))
    as [[i u1]| |] eqn:Hloop; cbn [bind] in Hrun; [| |done].
  - destruct (load (buffer u1) 0 =? 0xbb); [|done].
    unfold buffer_get in Hrun.
    apply waitMsg_loop_inv in Hloop as (n & _ & Hi & _); [|lia].
    pose proof (u8_range (0 + Z.of_nat n)).
    destruct ((0 <=? i - 1) && (i - 1 <? 256)) eqn:Hin; [done|].
    cbn [bind] in Hrun. injection Hrun as <-. f_equal.
    apply andb_false_iff in Hin as [Hlo|Hhi]; [apply Z.leb_gt in Hlo|apply Z.ltb_ge in Hhi]; lia.
  - exfalso. eapply waitMsg_loop_no_fault; [|done]. lia.
Qed.

Lemma waitMsg_cards fuel time u r u' :
  waitMsg fuel time u = Done (r, u') ->
  cards u' = cards u /\ length (buffer u') = length (buffer u).
Proof.
  unfold waitMsg. intros Hrun.
  destruct (waitMsg_loop fuel time (millis (_serial u)) 0 (cleanBuffer u))
    as [[i u1]| |] eqn:Hloop; cbn [bind] in Hrun; [|done|done].
  apply waitMsg_loop_inv in Hloop as (n & _ & _ & Hbuf & _ & _ & Hcards & _); [|lia].
  assert (u' = u1) as ->.
  { destruct (load (buffer u1) 0 =? 0xbb); [|congruence].
    destruct (buffer_get u1 (i - 1)); cbn [bind] in Hrun; congruence. }
  split; [done|]. rewrite Hbuf, fill_length. apply cleanBuffer_length.
Qed.

Lemma card_at_insert_eq cs (k : nat) c :
  (k < length cs)%nat -> card_at (<[k := c]> cs) k = c.
Proof. intros. unfold card_at. rewrite list_lookup_insert_eq by done. done. Qed.

Lemma card_at_insert_ne cs (k j : nat) c :
  k <> j -> card_at (<[k := c]> cs) j = card_at cs j.
Proof. intros. unfold card_at. rewrite list_lookup_insert_ne by done. done. Qed.

Lemma cleanCardsBuffer_empty u j :
  length (cards u) = 200%nat ->
  card_at (cards (cleanCardsBuffer u)) j = empty_card.
Proof.
  intros Hlen. unfold card_at, cleanCardsBuffer. cbn [cards with_cards].
  destruct (decide (j < 200)%nat).
  - rewrite fold_insert_lookup_in; [done| |lia]. apply in_seq. lia.
  - rewrite (lookup_ge_None_2 _ j); [done|]. rewrite fold_insert_length. lia.
Qed.

Lemma cleanCardsBuffer_length u :
  length (cards (cleanCardsBuffer u)) = length (cards u).
Proof. unfold cleanCardsBuffer. cbn [cards with_cards]. apply fold_insert_length. Qed.

Lemma filterCardInfo_true e u :
  filterCardInfo e u = true <->
  forall j, (j < 200)%nat -> epc_str (card_at (cards u) j) <> e.
Proof.
  unfold filterCardInfo. rewrite forallb_forall. split.
  - intros H j Hj Heq. specialize (H j). rewrite in_seq in H.
    rewrite <- Heq, String.eqb_refl in H. discriminate H. lia.
  - intros H j Hj. apply in_seq in Hj. apply negb_true_iff, String.eqb_neq.
    intros Heq. apply (H j); [lia|done].
Qed.

Lemma filterCardInfo_false e u :
  filterCardInfo e u = false <->
  exists j, (j < 200)%nat /\ epc_str (card_at (cards u) j) = e.
Proof.
  split.
  - intros H. unfold filterCardInfo in H.
    assert (Hex : existsb (fun i => String.eqb e (epc_str (card_at (cards u) i))) (seq 0 200) = true).
    { revert H. generalize (seq 0 200). induction l as [|x l IH]; cbn; [done|].
      destruct (String.eqb e (epc_str (card_at (cards u) x))); cbn; [done|]. apply IH. }
    apply existsb_exists in Hex as (j & Hj & Heq). apply in_seq in Hj.
    apply String.eqb_eq in Heq. exists j. split; [lia|done].
  - intros (j & Hj & Heq). destruct (filterCardInfo e u) eqn:Hf; [|done].
    rewrite filterCardInfo_true in Hf. exfalso. apply (Hf j); done.
Qed.

Lemma hex2str_length num : String.length (hex2str num) = 2%nat.
Proof.
  unfold hex2str, String_HEX.
  destruct (0xf <? num) eqn:Hbig.
  - apply Z.ltb_lt in Hbig.
    replace (num <? 16) with false by (symmetry; apply Z.ltb_ge; lia). done.
  - apply Z.ltb_ge in Hbig.
    replace (num <? 16) with true by (symmetry; apply Z.ltb_lt; lia). done.
Qed.

Lemma string_length_append (s1 s2 : string) :
  String.length (s1 ++ s2) = (String.length s1 + String.length s2)%nat.
Proof. induction s1 as [|c s1 IH]; cbn; [done|]. rewrite IH. done. Qed.

Lemma epc_text_length b : String.length (epc_text b) = 24%nat.
Proof.
  unfold epc_text. cbn [seq fold_left].
  rewrite !string_length_append, !hex2str_length. done.
Qed.

Lemma epc_text_filled b : epc_text b <> ""%string.
Proof.
  intros H. apply (f_equal String.length) in H.
  rewrite epc_text_length in H. done.
Qed.

Lemma saveCardInfo_tidy (n : nat) u saved u' :
  tidy n (cards u) -> (n < 200)%nat ->
  saveCardInfo (Z.of_nat n) u = Done (saved, u') ->
  buffer u' = buffer u /\ _serial u' = _serial u /\
  tidy (if saved then S n else n) (cards u').
Proof.
  intros (Hlen & Hn & Hfree & Hfull & Hdist) Hlt Hsave. unfold saveCardInfo in Hsave.
  destruct (filterCardInfo (epc_text (buffer u)) u) eqn:Hf; cbn [negb] in Hsave.
  - replace ((0 <=? Z.of_nat n) && (Z.of_nat n <? 200)) with true in Hsave
      by (symmetry; apply andb_true_iff; split; [apply Z.leb_le|apply Z.ltb_lt]; lia).
    injection Hsave as <- <-. rewrite Nat2Z.id.
    cbn [buffer _serial cards with_cards]. split; [done|]. split; [done|].
    rewrite filterCardInfo_true in Hf.
    split; [rewrite length_insert; done|]. split; [lia|]. split; [|split].
    + intros j Hj. rewrite card_at_insert_ne by lia. apply Hfree. lia.
    + intros j Hj. destruct (decide (j = n)) as [->|Hjn].
      * rewrite card_at_insert_eq by lia. apply epc_text_filled.
      * rewrite card_at_insert_ne by done. apply Hfull. lia.
    + intros j1 j2 H1 H2 Hne.
      destruct (decide (j1 = n)) as [->|Hj1]; destruct (decide (j2 = n)) as [->|Hj2];
        try done.
      * rewrite card_at_insert_eq by lia. rewrite card_at_insert_ne by done.
        intros Heq. apply (Hf j2); [lia|]. rewrite <- Heq. done.
      * rewrite card_at_insert_eq by lia. rewrite card_at_insert_ne by done.
        intros Heq. apply (Hf j1); [lia|]. rewrite Heq. done.
      * rewrite !card_at_insert_ne by done. apply Hdist; lia.
  - injection Hsave as <- <-. repeat split; try done.
Qed.

Lemma saveCardInfo_fault (n : nat) u f :
  (n < 200)%nat -> saveCardInfo (Z.of_nat n) u <> Fault f.
Proof.
  intros Hlt. unfold saveCardInfo.
  destruct (negb (filterCardInfo (epc_text (buffer u)) u)); [done|].
  replace ((0 <=? Z.of_nat n) && (Z.of_nat n <? 200)) with true
    by (symmetry; apply andb_true_iff; split; [apply Z.leb_le|apply Z.ltb_lt]; lia).
  done.
Qed.

Lemma pollingOnce_loop_ok fuel wfuel : forall (n : nat) u,
  tidy n (cards u) ->
  scan_ok (pollingOnce_loop fuel wfuel (Z.of_nat n) u).
Proof.
  induction fuel as [|fuel IH]; intros n u Htidy; [done|].
  cbn [pollingOnce_loop].
  destruct (waitMsg wfuel default_timerout u) as [[ok u1]|f|] eqn:Hwait; cbn [bind];
    [|apply waitMsg_fault in Hwait; done|done].
  apply waitMsg_cards in Hwait as [Hcards _].
  destruct ok; [|exists n; rewrite Hcards; done].
  destruct (load (buffer u1) 23 =? 0x7e); [|apply IH; rewrite Hcards; done].
  destruct (Z.of_nat n <? 200) eqn:Hroom.
  - apply Z.ltb_lt in Hroom.
    destruct (saveCardInfo (Z.of_nat n) u1) as [[saved u2]|f|] eqn:Hsave; cbn [bind];
      [|exfalso; eapply saveCardInfo_fault; [|done]; lia|done].
    apply saveCardInfo_tidy in Hsave as (_ & _ & Htidy'); [|rewrite Hcards; done|lia].
    destruct saved; [|apply IH; done].
    replace (u8 (Z.of_nat n + 1)) with (Z.of_nat (S n)) by (rewrite u8_small; lia).
    apply IH. done.
  - apply Z.ltb_ge in Hroom. destruct Htidy as (Hlen & Hn & Hrest).
    exists 200%nat. split; [done|]. rewrite Hcards.
    replace 200%nat with n by lia. destruct Hrest as (? & ? & ?). repeat split; try done.
Qed.

Lemma pollingMultiple_loop_eq fuel wfuel : forall (n : nat) u,
  (n <= 200)%nat ->
  pollingMultiple_loop fuel wfuel (Z.of_nat n) u = pollingOnce_loop fuel wfuel (Z.of_nat n) u.
Proof.
  induction fuel as [|fuel IH]; intros n u Hn; [done|].
  cbn [pollingMultiple_loop pollingOnce_loop].
  destruct (waitMsg wfuel default_timerout u) as [[ok u1]|f|]; cbn [bind]; try done.
  destruct ok; [|done].
  destruct (load (buffer u1) 23 =? 0x7e); [|apply IH; done].
  destruct (Z.of_nat n <? 200) eqn:Hroom.
  - apply Z.ltb_lt in Hroom.
    destruct (saveCardInfo (Z.of_nat n) u1) as [[saved u2]|f|]; cbn [bind]; try done.
    destruct saved; [|apply IH; done].
    replace (u8 (Z.of_nat n + 1)) with (Z.of_nat (S n)) by (rewrite u8_small; lia).
    apply IH. lia.
  - apply Z.ltb_ge in Hroom. do 2 f_equal. lia.
Qed.

Lemma tidy_cleanCardsBuffer u :
  length (cards u) = 200%nat -> tidy 0 (cards (cleanCardsBuffer u)).
Proof.
  intros Hlen. split; [rewrite cleanCardsBuffer_length; done|]. split; [lia|]. split.
  - intros j _. apply cleanCardsBuffer_empty. done.
  - split; [intros j Hj; lia|intros j1 j2 H1; lia].
Qed.

Section Scans.

Variables POLLING_ONCE_CMD POLLING_MULTIPLE_CMD : list Z.

Lemma pollingOnce_ok fuel u :
  length (cards u) = 200%nat -> scan_ok (pollingOnce POLLING_ONCE_CMD fuel u).
Proof.
  intros Hlen. unfold pollingOnce.
  apply (pollingOnce_loop_ok fuel fuel 0). unfold sendCMD. cbn [cards with_serial].
  apply tidy_cleanCardsBuffer. done.
Qed.

Lemma pollingMultiple_ok fuel polling_count u :
  length (cards u) = 200%nat ->
  scan_ok (pollingMultiple POLLING_MULTIPLE_CMD fuel polling_count u) \/
  pollingMultiple POLLING_MULTIPLE_CMD fuel polling_count u = Fault (BufferIndex 256).
Proof.
  intros Hlen. unfold pollingMultiple, load_template.
  destruct (length POLLING_MULTIPLE_CMD <=? 256)%nat; cbn [bind]; [left|right; done].
  unfold debug_loop. destruct (_ && _); cbn [bind]; [done|].
  rewrite (pollingMultiple_loop_eq fuel fuel 0) by lia.
  apply (pollingOnce_loop_ok fuel fuel 0). unfold sendCMD. cbn [cards with_serial with_buffer].
  apply tidy_cleanCardsBuffer. done.
Qed.

(** C3. [pollingOnce] and [pollingMultiple] never write a tag record outside
    slots 0..199 and never return a count above 200: the count they return
    is the number of slots filled, the slots from the count on are untouched,
    and with 200 records stored the next inventory frame makes either scan
    stop and return 200 without touching the table. *)
Theorem polling_capacity fuel polling_count u :
  length (cards u) = 200%nat ->
  (forall i, pollingOnce POLLING_ONCE_CMD fuel u <> Fault (CardsIndex i)) /\
  (forall i, pollingMultiple POLLING_MULTIPLE_CMD fuel polling_count u <> Fault (CardsIndex i)) /\
  (forall count u',
     pollingOnce POLLING_ONCE_CMD fuel u = Done (count, u') \/
     pollingMultiple POLLING_MULTIPLE_CMD fuel polling_count u = Done (count, u') ->
     0 <= count <= 200 /\ length (cards u') = 200%nat /\
     forall j, (Z.to_nat count <= j)%nat -> card_at (cards u') j = empty_card) /\
  (forall wfuel v v1,
     waitMsg wfuel default_timerout v = Done (true, v1) ->
     load (buffer v1) 23 = 0x7e ->
     pollingOnce_loop (S fuel) wfuel 200 v = Done (200, v1) /\
     pollingMultiple_loop (S fuel) wfuel 200 v = Done (200, v1) /\
     cards v1 = cards v).
Proof.
  intros Hlen.
  pose proof (pollingOnce_ok fuel u Hlen) as Honce.
  pose proof (pollingMultiple_ok fuel polling_count u Hlen) as Hmult.
  split; [|split; [|split]].
  - intros i Hf. rewrite Hf in Honce. done.
  - intros i Hf. rewrite Hf in Hmult. destruct Hmult; done.
  - intros count u' [Hrun|Hrun].
    + rewrite Hrun in Honce. destruct Honce as (n & -> & Hl & Hn & Hfree & _).
      split; [lia|]. split; [done|]. intros j Hj. apply Hfree. lia.
    + rewrite Hrun in Hmult. destruct Hmult as [(n & -> & Hl & Hn & Hfree & _)|]; [|done].
      split; [lia|]. split; [done|]. intros j Hj. apply Hfree. lia.
  - intros wfuel v v1 Hwait Hlast.
    cbn [pollingOnce_loop pollingMultiple_loop]. rewrite Hwait. cbn [bind].
    apply Z.eqb_eq in Hlast. rewrite Hlast.
    change (200 <? 200) with false. cbv iota.
    apply waitMsg_cards in Hwait as [Hcards _]. done.
Qed.

End Scans.

Lemma polling_capacity_witness :
  exists u',
    pollingOnce sample_POLLING_ONCE_CMD 600 (power_on (queued (many_tags 3))) = Done (3, u') /\
    length (cards u') = 200%nat /\
    card_at (cards u') 3 = empty_card.
Proof.
  destruct (polling_capacity sample_POLLING_ONCE_CMD sample_POLLING_MULTIPLE_CMD 600 16
              (power_on (queued (many_tags 3))) eq_refl)
    as (_ & _ & Hcount & _).
  eexists. split; [vm_compute; reflexivity|].
  edestruct Hcount as (_ & Hlen & Hfree); [left; vm_compute; reflexivity|].
  split; [exact Hlen|]. apply Hfree. vm_compute. lia.
Defined.

(** With 201 different tags in range, both scans stop at the 201st reply
    and return 200. *)
Example polling_stops_at_capacity :
  result_of (pollingOnce sample_POLLING_ONCE_CMD 300 (power_on (queued (many_tags 201))))
  = Done 200 /\
  result_of (pollingMultiple sample_POLLING_MULTIPLE_CMD 300 16
               (power_on (queued (many_tags 201))))
  = Done 200.
Proof. split; vm_compute; reflexivity. Qed.

(** ** saveCardInfo *)

(** Two replies with the same EPC and different RSSI, then a third tag: the
    scan counts two records and keeps the RSSI of the first reply. *)
Example pollingOnce_keeps_first_record :
  exists u',
    pollingOnce sample_POLLING_ONCE_CMD 600
      (power_on (queued (tag_frame 0xC5 0x11 0x22 ++ tag_frame 0xB0 0x11 0x22
                         ++ tag_frame 0xA7 0x33 0x44)))
    = Done (2, u') /\
    map rssi (take 3 (cards u')) = [0xC5; 0xA7; 0].
Proof. eexists. split; vm_compute; reflexivity. Qed.

Lemma epc_text_ext b b' :
  (forall i, (8 <= i < 20)%nat -> load b' i = load b i) -> epc_text b' = epc_text b.
Proof.
  intros H. unfold epc_text. cbn [seq fold_left].
  rewrite !H by lia. reflexivity.
Qed.



(** ** Checksums and command frames *)

Lemma checksum_fold b l : forall acc,
  u8 (fold_left (fun check i => u8 (check + load b i)) l acc)
  = u8 (acc + fold_right Z.add 0 (map (load b) l)).
Proof.
  induction l as [|i l IH]; intros acc; cbn [fold_left map fold_right].
  - rewrite Z.add_0_r. done.
  - rewrite IH. unfold u8. rewrite Zplus_mod_idemp_l. f_equal. lia.
Qed.

Lemma checksum_range b l : forall acc,
  0 <= acc < 256 ->
  0 <= fold_left (fun check i => u8 (check + load b i)) l acc < 256.
Proof.
  induction l as [|i l IH]; intros acc Hacc; cbn [fold_left]; [done|].
  apply IH. apply u8_range.
Qed.

Lemma checksum_sum b from n : checksum b from n = (sum_bytes b from n) mod 256.
Proof.
  unfold checksum, sum_bytes.
  rewrite <- (u8_small (fold_left _ _ _)) by (apply checksum_range; lia).
  rewrite checksum_fold. done.
Qed.

Lemma sum_bytes_ext b b' from n :
  (forall i, (from <= i < from + n)%nat -> load b' i = load b i) ->
  sum_bytes b' from n = sum_bytes b from n.
Proof.
  intros H. unfold sum_bytes. f_equal. apply map_ext_in.
  intros i Hi. apply in_seq in Hi. apply H. lia.
Qed.

Lemma memcpy_length dst src :
  (length src <= length dst)%nat -> length (memcpy dst src) = length dst.
Proof. intros. unfold memcpy. rewrite length_app, length_drop. lia. Qed.

Lemma load_template_ok cmd u :
  (length cmd <= 256)%nat ->
  load_template cmd u = Done (with_buffer (memcpy (buffer u) cmd) u).
Proof.
  intros H. unfold load_template.
  apply Nat.leb_le in H. rewrite H. done.
Qed.

Lemma waitMsg_tx_log fuel time u r u' :
  waitMsg fuel time u = Done (r, u') ->
  tx_log (_serial u') = tx_log (_serial u).
Proof.
  unfold waitMsg. intros Hrun.
  destruct (waitMsg_loop fuel time (millis (_serial u)) 0 (cleanBuffer u))
    as [[i u1]| |] eqn:Hloop; cbn [bind] in Hrun; [|done|done].
  apply waitMsg_loop_inv in Hloop as (n & _ & _ & _ & _ & Htx & _); [|lia].
  assert (u' = u1) as ->; [|done].
  destruct (load (buffer u1) 0 =? 0xbb); [|congruence].
  destruct (buffer_get u1 (i - 1)); cbn [bind] in Hrun; congruence.
Qed.

(** C5. [setTxPower(2600)] builds a frame with [buffer[5] = 0x0A],
    [buffer[6] = 0x28] and, in [buffer[7]], the sum of [buffer[1..6]] modulo
    256; the frame it sends is that buffer, cut to the size of the
    [SET_TX_POWER] table. *)
Theorem setTxPower_2600 SET_TX_POWER u :
  length (buffer u) = 256%nat ->
  (length SET_TX_POWER <= 256)%nat ->
  exists u1,
    setTxPower_frame SET_TX_POWER 2600 u = Done u1 /\
    load (buffer u1) 5 = 0x0A /\
    load (buffer u1) 6 = 0x28 /\
    load (buffer u1) 7
    = (load (buffer u1) 1 + load (buffer u1) 2 + load (buffer u1) 3 +
       load (buffer u1) 4 + load (buffer u1) 5 + load (buffer u1) 6) mod 256 /\
    forall fuel r u',
      setTxPower SET_TX_POWER fuel 2600 u = Done (r, u') ->
      tx_log (_serial u') = tx_log (_serial u) ++ [take (length SET_TX_POWER) (buffer u1)].
Proof.
  intros Hlen Hcmd. unfold setTxPower, setTxPower_frame.
  rewrite load_template_ok by done. cbn [bind buffer with_buffer].
  set (b0 := memcpy (buffer u) SET_TX_POWER).
  assert (Hb0 : length b0 = 256%nat) by (unfold b0; rewrite memcpy_length; lia).
  change (Z.land (Z.shiftr 2600 8) 255) with 10.
  change (Z.land 2600 255) with 40.
  set (b2 := <[6%nat := 40]> (<[5%nat := 10]> b0)).
  assert (Hb2 : length b2 = 256%nat) by (unfold b2; rewrite !length_insert; done).
  eexists. split; [reflexivity|]. cbn [buffer with_buffer _serial].
  split; [|split; [|split]].
  - rewrite load_insert_ne by lia. unfold b2.
    rewrite load_insert_ne by lia. apply load_insert_eq. lia.
  - rewrite load_insert_ne by lia. unfold b2. apply load_insert_eq.
    rewrite length_insert. lia.
  - rewrite load_insert_eq by lia. rewrite land_ff, checksum_sum.
    rewrite Z.mod_mod by lia. f_equal.
    rewrite !(load_insert_ne b2 7) by lia.
    unfold sum_bytes. cbn [seq map fold_right]. lia.
  - intros fuel r u' Hrun.
    destruct (waitMsg fuel default_timerout _) as [[ok u3]| |] eqn:Hwait;
      cbn [bind] in Hrun; [|done|done].
    apply waitMsg_tx_log in Hwait.
    assert (u' = u3) as -> by (destruct ok; [destruct (negb _)|]; congruence).
    rewrite Hwait. reflexivity.
Qed.

Lemma setTxPower_2600_witness :
  exists u1,
    setTxPower_frame sample_SET_TX_POWER 2600 (power_on (queued [])) = Done u1 /\
    take 9 (buffer u1) = [0xBB; 0x00; 0xB6; 0x00; 0x02; 0x0A; 0x28; 0xEA; 0x7E].
Proof.
  destruct (setTxPower_2600 sample_SET_TX_POWER (power_on (queued [])) eq_refl)
    as (u1 & Hframe & _); [simpl; lia|].
  exists u1. split; [exact Hframe|].
  vm_compute in Hframe. injection Hframe as <-. reflexivity.
Defined.

(** ** writeCard *)

Lemma writeCard_copy_spec data size (m : nat) : forall n i u,
  Z.of_nat m = size - i -> 0 <= i -> (m <= n)%nat ->
  size <= 240 -> size <= Z.of_nat (length data) ->
  length (buffer u) = 256%nat ->
  exists u',
    writeCard_copy n data size i (14 + i) u = Done (14 + size, u') /\
    length (buffer u') = 256%nat /\
    _serial u' = _serial u /\
    cards u' = cards u /\
    (forall j, (j < 14 + Z.to_nat i \/ 14 + Z.to_nat size <= j)%nat ->
               buffer u' !! j = buffer u !! j) /\
    (forall k, (Z.to_nat i <= k < Z.to_nat size)%nat ->
               buffer u' !! (14 + k)%nat = data !! k).
Proof.
  induction m as [|m IH]; intros n i u Hm Hi Hn Hsize Hdata Hlen.
  - exists u. assert (i = size) as -> by lia.
    split.
    + destruct n; cbn [writeCard_copy]; rewrite Z.ltb_irrefl; done.
    + repeat split; try done. intros k Hk. lia.
  - destruct n as [|n]; [lia|]. cbn [writeCard_copy].
    replace (i <? size) with true by (symmetry; apply Z.ltb_lt; lia).
    destruct (data !! Z.to_nat i) as [d|] eqn:Hd;
      [|apply lookup_ge_None_1 in Hd; lia].
    unfold buffer_set. rewrite in_range_true by lia. cbn [bind].
    rewrite (u8_small (i + 1)) by lia. rewrite (u8_small (14 + i + 1)) by lia.
    replace (14 + i + 1) with (14 + (i + 1)) by lia.
    destruct (IH n (i + 1) (with_buffer (<[Z.to_nat (14 + i) := d]> (buffer u)) u))
      as (u' & Hrun & Hlen' & Hser & Hcards & Hout & Hin); try lia.
    { cbn [buffer with_buffer]. rewrite length_insert. done. }
    exists u'. split; [done|]. split; [done|]. split; [done|]. split; [done|].
    cbn [buffer with_buffer] in Hout. split.
    + intros j Hj. rewrite Hout by lia. apply list_lookup_insert_ne. lia.
    + intros k Hk. destruct (decide (k = Z.to_nat i)) as [->|Hne].
      * rewrite Hout by lia.
        replace (14 + Z.to_nat i)%nat with (Z.to_nat (14 + i)) by lia.
        rewrite list_lookup_insert_eq by lia. done.
      * apply Hin. lia.
Qed.

(** C6. For a payload of [size] bytes that fits the frame buffer
    ([14 + size + 2 <= 256]), [writeCard] stores the word count [size / 2]
    big-endian in [buffer[12..13]], the payload from [buffer[14]] on, the sum
    modulo 256 of [buffer[1 .. 13 + size]] in [buffer[14 + size]] and 0x7E in
    [buffer[15 + size]], and sends these [size + 16] bytes. *)
Theorem writeCard_frame_layout WRITE_STORAGE_CMD WRITE_STORAGE_ERROR
    data size membank sa access_password u :
  length (buffer u) = 256%nat ->
  (length WRITE_STORAGE_CMD <= 256)%nat ->
  0 <= size <= Z.of_nat (length data) ->
  14 + size + 2 <= 256 ->
  exists u1,
    writeCard_frame WRITE_STORAGE_CMD data size membank sa access_password u
    = Done (size + 16, u1) /\
    load (buffer u1) 12 = (size / 2 / 256) mod 256 /\
    load (buffer u1) 13 = (size / 2) mod 256 /\
    256 * load (buffer u1) 12 + load (buffer u1) 13 = size / 2 /\
    (forall k, (k < Z.to_nat size)%nat -> buffer u1 !! (14 + k)%nat = data !! k) /\
    load (buffer u1) (14 + Z.to_nat size)
    = (sum_bytes (buffer u1) 1 (13 + Z.to_nat size)) mod 256 /\
    load (buffer u1) (15 + Z.to_nat size) = 0x7e /\
    forall fuel r u',
      writeCard WRITE_STORAGE_CMD WRITE_STORAGE_ERROR fuel data size membank sa
        access_password u = Done (r, u') ->
      tx_log (_serial u') = tx_log (_serial u) ++ [take (Z.to_nat size + 16) (buffer u1)].
Proof.
  intros Hlen Hcmd Hsize Hfit. unfold writeCard, writeCard_frame.
  rewrite load_template_ok by done. cbn [bind buffer with_buffer].
  assert (Hword : u8 (size / 2) = size / 2).
  { apply u8_small. split; [apply Z.div_pos; lia|].
    apply Z.div_lt_upper_bound; lia. }
  assert (Hw0 : 0 <= size / 2 < 256) by (rewrite <- Hword; apply u8_range).
  rewrite Hword.
  set (b0 := memcpy (buffer u) WRITE_STORAGE_CMD).
  assert (Hb0 : length b0 = 256%nat) by (unfold b0; rewrite memcpy_length; lia).
  set (b13 := <[13%nat := Z.land (size / 2) 255]> _).
  assert (Hb13 : length b13 = 256%nat) by (unfold b13; rewrite !length_insert; done).
  destruct (writeCard_copy_spec data size (Z.to_nat size) 256 0
              (with_buffer b13 (with_buffer b0 u)))
    as (u2 & Hcopy & Hlen2 & Hser2 & Hcards2 & Hout & Hin); try done; try lia.
  change (14 + 0) with 14 in Hcopy. rewrite Hcopy. cbn [bind].
  unfold buffer_set. rewrite in_range_true by lia. cbn [bind].
  rewrite in_range_true by lia. cbn [bind buffer with_buffer].
  cbn [buffer with_buffer] in Hout, Hin.
  set (chk := Z.land _ 255).
  replace (Z.to_nat (14 + size)) with (14 + Z.to_nat size)%nat by lia.
  replace (Z.to_nat (14 + size + 1)) with (15 + Z.to_nat size)%nat by lia.
  eexists. split; [f_equal; f_equal; lia|].
  cbn [buffer with_buffer _serial].
  assert (H12 : load b13 12 = Z.land (Z.shiftr (size / 2) 8) 255).
  { unfold b13. rewrite load_insert_ne by lia. apply load_insert_eq.
    rewrite !length_insert. lia. }
  assert (H13 : load b13 13 = Z.land (size / 2) 255).
  { unfold b13. apply load_insert_eq. rewrite !length_insert. lia. }
  assert (Hhi : Z.land (Z.shiftr (size / 2) 8) 255 = (size / 2 / 256) mod 256).
  { rewrite land_ff, Z.shiftr_div_pow2 by lia. done. }
  assert (Hkeep : forall j, (j < 14)%nat ->
            load (<[(15 + Z.to_nat size)%nat := 126]>
                    (<[(14 + Z.to_nat size)%nat := chk]> (buffer u2))) j = load b13 j).
  { intros j Hj. rewrite !load_insert_ne by lia. unfold load. rewrite Hout by lia. done. }
  split; [rewrite Hkeep, H12 by lia; done|].
  split; [rewrite Hkeep, H13, land_ff by lia; done|].
  split.
  { rewrite !Hkeep, H12, H13, Hhi, land_ff by lia.
    rewrite (Z.div_small (size / 2) 256) by lia.
    rewrite (Z.mod_small (size / 2) 256) by lia. done. }
  split.
  { intros k Hk. rewrite !list_lookup_insert_ne by lia. apply Hin. lia. }
  split.
  { rewrite load_insert_ne by lia. rewrite load_insert_eq by lia.
    unfold chk. rewrite land_ff, checksum_sum, Z.mod_mod by lia.
    replace (Z.to_nat (14 + size) - 1)%nat with (13 + Z.to_nat size)%nat by lia.
    f_equal. symmetry. apply sum_bytes_ext.
    intros i Hi. rewrite !load_insert_ne by lia. done. }
  split.
  { apply load_insert_eq. rewrite length_insert. lia. }
  intros fuel r u' Hrun.
  destruct (debug_loop _ _); cbn [bind] in Hrun; [|done|done].
  destruct (waitMsg fuel default_timerout _) as [[ok u3]| |] eqn:Hwait;
    cbn [bind] in Hrun; [|done|done].
  apply waitMsg_tx_log in Hwait.
  assert (u' = u3) as -> by (destruct ok; [destruct (_ =? _)|]; congruence).
  rewrite Hwait. unfold sendCMD, write, with_serial, with_buffer in *.
  cbn [_serial tx_log buffer] in *.
  rewrite Hser2. do 3 f_equal. lia.
Qed.

Lemma writeCard_frame_layout_witness :
  exists u1,
    writeCard_frame sample_WRITE_STORAGE_CMD [0x12; 0x34; 0x56; 0x78] 4 0x03 0 0
      (power_on (queued [])) = Done (20, u1) /\
    take 20 (buffer u1)
    = [0xBB; 0x00; 0x49; 0x00; 0x0D; 0x00; 0x00; 0x00; 0x00; 0x03;
       0x00; 0x00; 0x00; 0x02; 0x12; 0x34; 0x56; 0x78; 0x6F; 0x7E].
Proof.
  destruct (writeCard_frame_layout sample_WRITE_STORAGE_CMD sample_WRITE_STORAGE_ERROR
              [0x12; 0x34; 0x56; 0x78] 4 0x03 0 0 (power_on (queued [])) eq_refl)
    as (u1 & Hframe & _); [simpl; lia|simpl; lia|lia|].
  exists u1. split; [exact Hframe|].
  vm_compute in Hframe. injection Hframe as <-. reflexivity.
Defined.

(** ** readCard *)

(** Whenever the copy loop finishes, it has appended [buffer[20 + i]],
    ..., [buffer[20 + size - 1]]. *)
Lemma readCard_copy_done u size n : forall i temp t,
  0 <= i < 256 ->
  readCard_copy n size i temp u = Done t ->
  t = temp ++ map (fun k => load (buffer u) (20 + k)) (seq (Z.to_nat i) (Z.to_nat (size - i))).
Proof.
  induction n as [|n IH]; intros i temp t Hi Hrun.
  - cbn [readCard_copy] in Hrun. destruct (i <? size) eqn:Hlt; [done|].
    apply Z.ltb_ge in Hlt. injection Hrun as <-.
    replace (Z.to_nat (size - i)) with 0%nat by lia. cbn [seq map].
    rewrite app_nil_r. done.
  - cbn [readCard_copy] in Hrun. destruct (i <? size) eqn:Hlt.
    + apply Z.ltb_lt in Hlt. unfold buffer_get in Hrun.
      destruct ((0 <=? 20 + i) && (20 + i <? 256)) eqn:Hin; [|done].
      apply andb_true_iff in Hin as [_ Hin]. apply Z.ltb_lt in Hin.
      cbn [bind] in Hrun. rewrite u8_small in Hrun by lia.
      apply IH in Hrun; [|lia]. rewrite Hrun, <- app_assoc. f_equal.
      replace (Z.to_nat (size - i)) with (S (Z.to_nat (size - (i + 1)))) by lia.
      cbn [seq map app]. f_equal; [f_equal; lia|].
      replace (Z.to_nat (i + 1)) with (S (Z.to_nat i)) by lia. done.
    + apply Z.ltb_ge in Hlt. injection Hrun as <-.
      replace (Z.to_nat (size - i)) with 0%nat by lia. cbn [seq map].
      rewrite app_nil_r. done.
Qed.

(** Up to 236 bytes the copy loop stays inside the buffer and finishes. *)
Lemma readCard_copy_ok u size (m : nat) : forall n i temp,
  Z.of_nat m = size - i -> 0 <= i -> (m <= n)%nat -> size <= 236 ->
  exists t, readCard_copy n size i temp u = Done t.
Proof.
  induction m as [|m IH]; intros n i temp Hm Hi Hn Hsize.
  - exists temp. destruct n; cbn [readCard_copy];
      replace (i <? size) with false by (symmetry; apply Z.ltb_ge; lia); done.
  - destruct n as [|n]; [lia|]. cbn [readCard_copy].
    replace (i <? size) with true by (symmetry; apply Z.ltb_lt; lia).
    unfold buffer_get. rewrite in_range_true by lia. cbn [bind].
    rewrite u8_small by lia. apply IH; lia.
Qed.

(** C10. [readCard] writes to the caller's array only on success: when it
    returns false (no frame within the timeout, a marker mismatch, or the
    error code of [READ_STORAGE_ERROR] at index 2 of the reply) the array is
    as the caller passed it; when it returns true the first [size] bytes of the
    array are [buffer[20 .. 20 + size - 1]] of the reply and the rest is
    unchanged. *)
Theorem readCard_data READ_STORAGE_CMD READ_STORAGE_ERROR
    fuel data size membank sa access_password u :
  (forall r data' u',
     readCard READ_STORAGE_CMD READ_STORAGE_ERROR fuel data size membank sa access_password u
     = Done (r, data', u') ->
     if r then
       size <= Z.of_nat (length data) /\
       data' = map (fun k => load (buffer u') (20 + k)) (seq 0 (Z.to_nat size))
               ++ drop (Z.to_nat size) data
     else data' = data) /\
  (forall u3,
     readCard_request READ_STORAGE_CMD size membank sa access_password u = Done u3 ->
     (forall u4,
        waitMsg fuel default_timerout u3 = Done (false, u4) ->
        readCard READ_STORAGE_CMD READ_STORAGE_ERROR fuel data size membank sa
          access_password u = Done (false, data, u4)) /\
     (forall u4,
        waitMsg fuel default_timerout u3 = Done (true, u4) ->
        _debug u4 = false \/ 22 + size < 256 ->
        load READ_STORAGE_ERROR 2 = load (buffer u4) 2 ->
        readCard READ_STORAGE_CMD READ_STORAGE_ERROR fuel data size membank sa
          access_password u = Done (false, data, u4)) /\
     (forall u4,
        waitMsg fuel default_timerout u3 = Done (true, u4) ->
        _debug u4 = false \/ 22 + size < 256 ->
        load READ_STORAGE_ERROR 2 <> load (buffer u4) 2 ->
        0 <= size <= 236 -> size <= Z.of_nat (length data) ->
        readCard READ_STORAGE_CMD READ_STORAGE_ERROR fuel data size membank sa
          access_password u
        = Done (true,
                map (fun k => load (buffer u4) (20 + k)) (seq 0 (Z.to_nat size))
                ++ drop (Z.to_nat size) data,
                u4))).
Proof.
  assert (Hdbg : forall u4, _debug u4 = false \/ 22 + size < 256 ->
                            debug_loop u4 (22 + size) = Done tt).
  { intros u4 [Hoff|Hsmall]; unfold debug_loop.
    - rewrite Hoff. done.
    - replace (256 <=? 22 + size) with false by (symmetry; apply Z.leb_gt; lia).
      rewrite andb_false_r. done. }
  split.
  - intros r data' u' Hrun. unfold readCard in Hrun.
    destruct (readCard_request _ _ _ _ _ u) as [u3| |]; cbn [bind] in Hrun; [|done|done].
    destruct (waitMsg fuel default_timerout u3) as [[ok u4]| |];
      cbn [bind] in Hrun; [|done|done].
    destruct ok; [|injection Hrun as <- <- <-; done].
    destruct (debug_loop u4 (22 + size)); cbn [bind] in Hrun; [|done|done].
    destruct (load READ_STORAGE_ERROR 2 =? load (buffer u4) 2);
      [injection Hrun as <- <- <-; done|].
    destruct (readCard_copy 256 size 0 [] u4) as [temp| |] eqn:Hcopy;
      cbn [bind] in Hrun; [|done|done].
    unfold copy_out in Hrun.
    destruct (size <=? Z.of_nat (length data)) eqn:Hfit; cbn [bind] in Hrun; [|done].
    injection Hrun as <- <- <-. apply Z.leb_le in Hfit. split; [done|].
    apply readCard_copy_done in Hcopy; [|lia].
    rewrite Hcopy. cbn [app]. rewrite Z.sub_0_r. done.
  - intros u3 Hreq. unfold readCard. rewrite Hreq. cbn [bind].
    split; [|split].
    + intros u4 Hwait. rewrite Hwait. done.
    + intros u4 Hwait Hquietdbg Herr. rewrite Hwait. cbn [bind].
      rewrite Hdbg by done. cbn [bind].
      apply Z.eqb_eq in Herr. rewrite Herr. done.
    + intros u4 Hwait Hquietdbg Herr Hsize Hfit. rewrite Hwait. cbn [bind].
      rewrite Hdbg by done. cbn [bind].
      apply Z.eqb_neq in Herr. rewrite Herr.
      destruct (readCard_copy_ok u4 size (Z.to_nat size) 256 0 []) as (t & Hcopy);
        try lia.
      rewrite Hcopy. cbn [bind].
      apply readCard_copy_done in Hcopy as ->; [|lia].
      unfold copy_out. apply Z.leb_le in Hfit. rewrite Hfit. cbn [bind app].
      rewrite Z.sub_0_r. done.
Qed.

Lemma readCard_data_witness :
  (exists u',
     readCard sample_READ_STORAGE_CMD sample_READ_STORAGE_ERROR 600
       [1; 2; 3; 4; 5; 6] 4 0x03 0 0 (power_on (queued read_reply))
     = Done (true, [0xDE; 0xAD; 0xBE; 0xEF; 5; 6], u')) /\
  (exists u',
     readCard sample_READ_STORAGE_CMD sample_READ_STORAGE_ERROR 600
       [1; 2; 3; 4; 5; 6] 4 0x03 0 0 (power_on (queued sample_READ_STORAGE_ERROR))
     = Done (false, [1; 2; 3; 4; 5; 6], u')) /\
  (exists u',
     readCard sample_READ_STORAGE_CMD sample_READ_STORAGE_ERROR 600
       [1; 2; 3; 4; 5; 6] 4 0x03 0 0 (power_on (queued []))
     = Done (false, [1; 2; 3; 4; 5; 6], u')).
Proof.
  pose proof (readCard_data sample_READ_STORAGE_CMD sample_READ_STORAGE_ERROR 600
                [1; 2; 3; 4; 5; 6] 4 0x03 0 0) as H.
  split; [|split].
  - destruct (H (power_on (queued read_reply))) as [_ Hcases].
    edestruct Hcases as (_ & _ & Hok); [vm_compute; reflexivity|].
    eexists. etransitivity.
    + eapply Hok; [vm_compute; reflexivity|left; reflexivity|vm_compute; congruence|lia|simpl; lia].
    + vm_compute. reflexivity.
  - destruct (H (power_on (queued sample_READ_STORAGE_ERROR))) as [_ Hcases].
    edestruct Hcases as (_ & Herr & _); [vm_compute; reflexivity|].
    eexists. eapply Herr; [vm_compute; reflexivity|left; reflexivity|reflexivity].
  - destruct (H (power_on (queued []))) as [_ Hcases].
    edestruct Hcases as (Hnone & _ & _); [vm_compute; reflexivity|].
    eexists. eapply Hnone. vm_compute. reflexivity.
Defined.

(** ** setRegion *)






(* ================================================================== *)
(** * Further properties *)

(** ** A silent line *)

Lemma waitMsg_loop_silent fuel : forall time c0 i w p c tx dbg buf cs,
  silent (mkSerial w p c tx) ->
  c0 <= c <= c0 + time ->
  time < 4294967296 ->
  (Z.to_nat (c0 + time - c) < fuel)%nat ->
  waitMsg_loop fuel time (u32 c0) i (mkUnit (mkSerial w p c tx) dbg buf cs)
  = Done (i, mkUnit (mkSerial w p (c0 + time) tx) dbg buf cs).
Proof.
  induction fuel as [|fuel IH]; intros time c0 i w p c tx dbg buf cs Hs Hc Ht Hfuel; [lia|].
  cbn [waitMsg_loop _serial]. unfold available. cbn [wire rx_pos clock].
  assert (Hp : w p = None) by (apply (Hs p); cbn; lia).
  rewrite Hp. cbn [orb].
  unfold millis. cbn [clock]. rewrite u32_sub, u32_small by lia.
  destruct (c - c0 <? time) eqn:Hearly.
  - apply Z.ltb_lt in Hearly. next_pass.
    apply IH; try done; lia.
  - apply Z.ltb_ge in Hearly. do 4 f_equal. lia.
Qed.

Lemma waitMsg_silent fuel time u :
  silent (_serial u) ->
  0 <= time < 4294967296 ->
  (Z.to_nat time < fuel)%nat ->
  waitMsg fuel time u = Done (false, timed_out time u).
Proof.
  intros Hs Ht Hfuel. unfold waitMsg, millis.
  destruct u as [[w p c tx] dbg buf cs]. unfold cleanBuffer at 1.
  unfold with_buffer at 1. cbn [_serial _debug cards clock].
  rewrite waitMsg_loop_silent; try done; try lia.
  cbn [bind buffer].
  assert (H0 : load (buffer (cleanBuffer (mkUnit (mkSerial w p c tx) dbg buf cs))) 0 = 0)
    by (apply cleanBuffer_zero; lia).
  unfold cleanBuffer, with_buffer in H0. cbn [buffer] in H0. rewrite H0.
  reflexivity.
Qed.

Lemma silent_sendCMD data size u :
  silent (_serial u) -> silent (_serial (sendCMD data size u)).
Proof. intros H. exact H. Qed.

Lemma debug_loop_off u bound : _debug u = false -> debug_loop u bound = Done tt.
Proof. intros H. unfold debug_loop. rewrite H. done. Qed.

Lemma writeCard_copy_debug data size n : forall i off u off' u',
  writeCard_copy n data size i off u = Done (off', u') -> _debug u' = _debug u.
Proof.
  induction n as [|n IH]; intros i off u off' u' Hrun; cbn [writeCard_copy] in Hrun.
  - destruct (i <? size); [done|]. injection Hrun as _ <-. done.
  - destruct (i <? size); [|injection Hrun as _ <-; done].
    destruct (data !! Z.to_nat i) as [d|]; [|done].
    unfold buffer_set in Hrun. destruct ((0 <=? 14 + i) && (14 + i <? 256)); [|done].
    cbn [bind] in Hrun. apply IH in Hrun. done.
Qed.

Lemma writeCard_frame_done WRITE_STORAGE_CMD data size membank sa access_password u :
  length (buffer u) = 256%nat ->
  (length WRITE_STORAGE_CMD <= 256)%nat ->
  0 <= size <= Z.of_nat (length data) ->
  size <= 240 ->
  exists u1,
    writeCard_frame WRITE_STORAGE_CMD data size membank sa access_password u
    = Done (14 + size + 2, u1) /\
    _serial u1 = _serial u /\ _debug u1 = _debug u /\ cards u1 = cards u /\
    length (buffer u1) = 256%nat.
Proof.
  intros Hlen Hcmd Hsize Hfit. unfold writeCard_frame.
  rewrite load_template_ok by done. cbn [bind buffer with_buffer].
  set (b13 := <[13%nat := _]> _).
  assert (Hb13 : length b13 = 256%nat).
  { unfold b13. rewrite !length_insert, memcpy_length; lia. }
  destruct (writeCard_copy_spec data size (Z.to_nat size) 256 0
              (with_buffer b13 (with_buffer (memcpy (buffer u) WRITE_STORAGE_CMD) u)))
    as (u2 & Hcopy & Hlen2 & Hser2 & Hcards2 & _); try done; try lia.
  change (14 + 0) with 14 in Hcopy. rewrite Hcopy. cbn [bind].
  pose proof (writeCard_copy_debug _ _ _ _ _ _ _ _ Hcopy) as Hdbg.
  unfold buffer_set. rewrite in_range_true by lia. cbn [bind].
  rewrite in_range_true by lia. cbn [bind buffer with_buffer].
  eexists. split; [reflexivity|].
  unfold with_buffer in *. cbn [_serial _debug cards buffer] in *.
  rewrite !length_insert. done.
Qed.

Section SilentLine.

Variables POLLING_ONCE_CMD POLLING_MULTIPLE_CMD : list Z.
Variables WRITE_STORAGE_CMD WRITE_STORAGE_ERROR : list Z.
Variables READ_STORAGE_CMD READ_STORAGE_ERROR : list Z.
Variables SET_TX_POWER HARDWARE_VERSION_CMD GET_SELECT_PARAMETER_CMD : list Z.
Variables SET_SELECT_PARAMETER_CMD SET_SELECT_OK : list Z.

(** X1. When the module sends nothing, every request/response operation
    reports failure 500 clock units after its request went out: the boolean
    ones return false, the two text ones return "ERROR", the two scans return
    0, and [readCard] hands the caller's array back untouched.  (Debug traces
    off, tables no longer than the buffer.) *)
Theorem silent_line_failure fuel u db polling_count data size membank sa access_password epc :
  silent (_serial u) ->
  _debug u = false ->
  length (buffer u) = 256%nat ->
  (500 < fuel)%nat ->
  (length SET_TX_POWER <= 256)%nat ->
  (length POLLING_MULTIPLE_CMD <= 256)%nat ->
  (length READ_STORAGE_CMD <= 256)%nat ->
  (length WRITE_STORAGE_CMD <= 256)%nat ->
  (length SET_SELECT_PARAMETER_CMD <= 256)%nat ->
  (12 <= length epc)%nat ->
  0 <= size <= Z.of_nat (length data) ->
  size <= 240 ->
  let late u' := clock (_serial u') = clock (_serial u) + 500 /\
                 rx_pos (_serial u') = rx_pos (_serial u) in
  (exists u', setTxPower SET_TX_POWER fuel db u = Done (false, u') /\ late u') /\
  (exists u', writeCard WRITE_STORAGE_CMD WRITE_STORAGE_ERROR fuel data size membank sa
                access_password u = Done (false, u') /\ late u') /\
  (exists u', readCard READ_STORAGE_CMD READ_STORAGE_ERROR fuel data size membank sa
                access_password u = Done (false, data, u') /\ late u') /\
  (exists u', select SET_SELECT_PARAMETER_CMD SET_SELECT_OK fuel epc u = Done (false, u') /\
              late u') /\
  (exists u', getVersion HARDWARE_VERSION_CMD fuel u = Done ("ERROR"%string, u') /\ late u') /\
  (exists u', selectInfo GET_SELECT_PARAMETER_CMD fuel u = Done ("ERROR"%string, u') /\
              late u') /\
  (exists u', pollingOnce POLLING_ONCE_CMD fuel u = Done (0, u') /\ late u') /\
  (exists u', pollingMultiple POLLING_MULTIPLE_CMD fuel polling_count u = Done (0, u') /\
              late u').
Proof.
  intros Hs Hdbg Hlen Hfuel Htx Hpm Hrd Hwr Hsel Hepc Hsize Hfit late.
  assert (Hwait : forall v, _serial v = _serial u ->
            waitMsg fuel default_timerout v = Done (false, timed_out default_timerout v)).
  { intros v Hv. apply waitMsg_silent; [rewrite Hv; done|done|].
    change (Z.to_nat default_timerout) with 500%nat. done. }
  assert (Hsent : forall d n v, _serial v = _serial u ->
            waitMsg fuel default_timerout (sendCMD d n v)
            = Done (false, timed_out default_timerout (sendCMD d n v)) /\
            late (timed_out default_timerout (sendCMD d n v))).
  { intros d n v Hv. split.
    - apply waitMsg_silent; [apply silent_sendCMD; rewrite Hv; done|done|].
      change (Z.to_nat default_timerout) with 500%nat. done.
    - unfold late, timed_out, sendCMD, write, delay, with_serial, cleanBuffer, with_buffer.
      cbn [_serial clock rx_pos]. rewrite Hv. done. }
  repeat split.
  - unfold setTxPower, setTxPower_frame. rewrite load_template_ok by done. cbn [bind].
    match goal with |- context [waitMsg fuel _ (sendCMD ?d ?n ?v)] =>
      destruct (Hsent d n v eq_refl) as [-> Hl] end.
    cbn [bind]. eauto.
  - unfold writeCard.
    destruct (writeCard_frame_done WRITE_STORAGE_CMD data size membank sa access_password u)
      as (u1 & -> & Hser & Hd & _); try done.
    cbn [bind]. rewrite debug_loop_off by (rewrite Hd; done). cbn [bind].
    destruct (Hsent (buffer u1) (Z.to_nat (14 + size + 2)) u1 Hser) as [-> Hl].
    cbn [bind]. eauto.
  - unfold readCard, readCard_request. rewrite load_template_ok by done. cbn [bind].
    rewrite debug_loop_off by done. cbn [bind].
    match goal with |- context [waitMsg fuel _ (sendCMD ?d ?n ?v)] =>
      destruct (Hsent d n v eq_refl) as [-> Hl] end.
    cbn [bind]. eauto.
  - unfold select, select_frame. rewrite load_template_ok by done. cbn [bind].
    replace (length epc <? 12)%nat with false by (symmetry; apply Nat.ltb_ge; done).
    cbn [bind].
    match goal with |- context [waitMsg fuel _ (sendCMD ?d ?n ?v)] =>
      destruct (Hsent d n v eq_refl) as [-> Hl] end.
    cbn [bind]. eauto.
  - unfold getVersion.
    destruct (Hsent HARDWARE_VERSION_CMD (length HARDWARE_VERSION_CMD) u eq_refl) as [-> Hl].
    cbn [bind]. eauto.
  - unfold selectInfo.
    destruct (Hsent GET_SELECT_PARAMETER_CMD (length GET_SELECT_PARAMETER_CMD) u eq_refl)
      as [-> Hl].
    cbn [bind]. eauto.
  - unfold pollingOnce. destruct fuel as [|fuel']; [lia|]. cbn [pollingOnce_loop].
    match goal with |- context [waitMsg _ _ (sendCMD ?d ?n ?v)] =>
      destruct (Hsent d n v eq_refl) as [-> Hl] end.
    cbn [bind]. eauto.
  - unfold pollingMultiple. rewrite load_template_ok by done. cbn [bind].
    rewrite debug_loop_off by done. cbn [bind].
    destruct fuel as [|fuel']; [lia|]. cbn [pollingMultiple_loop].
    match goal with |- context [waitMsg _ _ (sendCMD ?d ?n ?v)] =>
      destruct (Hsent d n v eq_refl) as [-> Hl] end.
    cbn [bind]. eauto.
Qed.

End SilentLine.

(** ** A scan, as a function of the replies *)

Lemma repeat_lookup {A} (x : A) n j : (j < n)%nat -> repeat x n !! j = Some x.
Proof.
  revert j. induction n as [|n IH]; intros j Hj; [lia|].
  destruct j as [|j]; cbn; [done|]. apply IH. lia.
Qed.

Lemma card_at_table acc j :
  (length acc <= 200)%nat ->
  card_at (table_of acc) j = default empty_card (acc !! j).
Proof.
  intros Hlen. unfold card_at, table_of.
  destruct (decide (j < length acc)%nat) as [Hlt|Hge].
  - rewrite lookup_app_l by done. done.
  - rewrite lookup_app_r by lia. rewrite (lookup_ge_None_2 acc j) by lia.
    destruct (decide (j - length acc < 200 - length acc)%nat).
    + rewrite repeat_lookup by done. done.
    + rewrite lookup_ge_None_2; [done|]. rewrite repeat_length. lia.
Qed.

Lemma table_of_length acc : (length acc <= 200)%nat -> length (table_of acc) = 200%nat.
Proof. intros. unfold table_of. rewrite length_app, repeat_length. lia. Qed.

Lemma table_of_insert acc c :
  (length acc < 200)%nat ->
  <[length acc := c]> (table_of acc) = table_of (acc ++ [c]).
Proof.
  intros Hlt. unfold table_of.
  rewrite insert_app_r_alt by lia. rewrite Nat.sub_diag.
  replace (200 - length acc)%nat with (S (200 - length (acc ++ [c]))%nat)
    by (rewrite length_app; cbn [length]; lia).
  cbn [repeat insert list_insert]. rewrite <- app_assoc. done.
Qed.

Lemma filterCardInfo_table e acc u :
  cards u = table_of acc ->
  (length acc <= 200)%nat ->
  e <> ""%string ->
  filterCardInfo e u = negb (existsb (fun c => String.eqb e (epc_str c)) acc).
Proof.
  intros Hcards Hlen He.
  destruct (existsb _ acc) eqn:Hex; cbn [negb].
  - apply existsb_exists in Hex as (c & Hin & Heq).
    apply String.eqb_eq in Heq.
    apply list_elem_of_In, list_elem_of_lookup in Hin as (j & Hj).
    apply filterCardInfo_false. exists j.
    pose proof (lookup_lt_Some _ _ _ Hj).
    split; [lia|]. rewrite Hcards, card_at_table, Hj by done. done.
  - apply filterCardInfo_true. intros j Hj Heq.
    rewrite Hcards, card_at_table in Heq by done.
    destruct (acc !! j) as [c|] eqn:Hc; cbn [default] in Heq.
    + assert (Htrue : existsb (fun c => String.eqb e (epc_str c)) acc = true).
      { apply existsb_exists. exists c. split.
        - apply list_elem_of_In, list_elem_of_lookup. eauto.
        - apply String.eqb_eq. done. }
      congruence.
    + cbn in Heq. congruence.
Qed.

Lemma card_of_buffer_ext b b' :
  (forall i, (5 <= i < 20)%nat -> load b' i = load b i) ->
  card_of_buffer b' = card_of_buffer b.
Proof.
  intros H. unfold card_of_buffer.
  rewrite (epc_text_ext b b') by (intros; apply H; lia).
  cbn [seq map]. rewrite !H by lia. done.
Qed.

Lemma inventory_frame_spec f :
  inventory_frame f = true ->
  length f = 24%nat /\ load f 0 = 0xbb /\ load f 23 = 0x7e /\
  f = take 23 f ++ [0x7e] /\
  no_terminator (take 23 f) /\
  Forall (fun x => 0 <= x < 256) f.
Proof.
  unfold inventory_frame. intros H.
  apply andb_true_iff in H as [H Hterm]. apply andb_true_iff in H as [H Hrange].
  apply andb_true_iff in H as [H Hlast]. apply andb_true_iff in H as [Hlen Hhead].
  apply Nat.eqb_eq in Hlen. apply Z.eqb_eq in Hhead, Hlast.
  split; [done|]. split; [done|]. split; [done|]. split; [|split].
  - rewrite <- (take_drop 23 f) at 1. f_equal.
    unfold load in Hlast.
    destruct (f !! 23%nat) as [x|] eqn:Hx;
      [|apply lookup_ge_None_1 in Hx; lia].
    cbn in Hlast. subst x.
    apply (drop_S f 0x7e 23) in Hx as ->. rewrite drop_ge; [done|lia].
  - apply Forall_forall. intros x Hx. rewrite forallb_forall in Hterm.
    apply list_elem_of_In, Hterm, negb_true_iff, Z.eqb_neq in Hx. done.
  - apply Forall_forall. intros x Hx. rewrite forallb_forall in Hrange.
    apply list_elem_of_In, Hrange, andb_true_iff in Hx as [Hlo Hhi].
    apply Z.leb_le in Hlo. apply Z.ltb_lt in Hhi. done.
Qed.

Lemma pending_delivers s f rest deadline :
  pending s (f ++ rest) ->
  Forall (fun x => 0 <= x < 256) f ->
  clock s <= deadline ->
  delivers s deadline f.
Proof.
  intros Hp Hrange Hd k x Hk.
  specialize (Hp k). rewrite lookup_app_l in Hp by (apply lookup_lt_Some in Hk; done).
  rewrite Hk in Hp. destruct Hp as (t & Hw & Ht).
  exists t, x. split; [done|]. split; [|lia].
  apply u8_small. rewrite Forall_forall in Hrange. apply Hrange.
  apply list_elem_of_lookup. eauto.
Qed.

Lemma pending_advance s s' f rest :
  pending s (f ++ rest) ->
  wire s' = wire s -> rx_pos s' = (rx_pos s + length f)%nat -> clock s <= clock s' ->
  pending s' rest.
Proof.
  intros Hp Hw Hpos Hclk k.
  specialize (Hp (length f + k)%nat).
  rewrite lookup_app_r in Hp by lia.
  replace (length f + k - length f)%nat with k in Hp by lia.
  rewrite Hw, Hpos. replace (rx_pos s + length f + k)%nat with (rx_pos s + (length f + k))%nat by lia.
  destruct (rest !! k); [|done].
  destruct Hp as (t & Hwk & Ht). exists t. split; [done|lia].
Qed.

Lemma pending_nil_silent s : pending s [] -> silent s.
Proof.
  intros Hp k Hk. specialize (Hp (k - rx_pos s)%nat). cbn in Hp.
  replace (rx_pos s + (k - rx_pos s))%nat with k in Hp by lia. done.
Qed.

Lemma scan_step_full frames : forall acc,
  (200 <= length acc)%nat -> fold_left scan_step frames acc = acc.
Proof.
  induction frames as [|f frames IH]; intros acc Hfull; [done|].
  cbn [fold_left]. unfold scan_step at 2.
  replace (length acc <? 200)%nat with false by (symmetry; apply Nat.ltb_ge; done).
  cbn [andb]. apply IH. done.
Qed.

Lemma scan_step_length acc f :
  (length acc <= 200)%nat -> (length (scan_step acc f) <= 200)%nat.
Proof.
  intros H. unfold scan_step.
  destruct (length acc <? 200)%nat eqn:Hroom; cbn [andb]; [|done].
  apply Nat.ltb_lt in Hroom.
  destruct (negb _); [|done]. rewrite length_app. cbn [length]. lia.
Qed.

Lemma load_received_frame u1 b0 f i :
  buffer u1 = fill b0 0 f -> length b0 = 256%nat -> length f = 24%nat ->
  (i < 24)%nat -> load (buffer u1) i = load f i.
Proof.
  intros Hbuf Hb0 Hlen Hi. rewrite Hbuf, load_fill_written by lia. done.
Qed.

Lemma pollingOnce_loop_scan frames : forall fuel wfuel acc u,
  forallb inventory_frame frames = true ->
  pending (_serial u) (concat frames) ->
  length (buffer u) = 256%nat ->
  cards u = table_of acc ->
  (length acc <= 200)%nat ->
  (length frames < fuel)%nat ->
  (524 < wfuel)%nat ->
  exists u',
    pollingOnce_loop fuel wfuel (Z.of_nat (length acc)) u
    = Done (Z.of_nat (length (fold_left scan_step frames acc)), u') /\
    cards u' = table_of (fold_left scan_step frames acc).
Proof.
  induction frames as [|f frames IH];
    intros fuel wfuel acc u Hwf Hpend Hlen Hcards Hacc Hfuel Hwfuel.
  - destruct fuel as [|fuel]; [cbn in Hfuel; lia|].
    cbn [pollingOnce_loop concat fold_left] in *.
    rewrite waitMsg_silent;
      [|apply pending_nil_silent; done|done|change (Z.to_nat default_timerout) with 500%nat; lia].
    cbn [bind]. eexists. split; [reflexivity|]. exact Hcards.
  - destruct fuel as [|fuel]; [cbn in Hfuel; lia|].
    cbn [forallb] in Hwf. apply andb_true_iff in Hwf as [Hf Hwf].
    apply inventory_frame_spec in Hf as (Hflen & Hhead & Hlast & Hsplit & Hterm & Hrange).
    cbn [concat] in Hpend.
    assert (Hprelen : length (take 23 f) = 23%nat) by (rewrite length_take; lia).
    destruct (waitMsg_frame wfuel default_timerout u (take 23 f))
      as (u1 & Hwait & Hbuf & Hpos & Hwire & Htx & Hcards1); try done; try lia.
    { rewrite <- Hsplit. eapply pending_delivers; [done|done|].
      unfold default_timerout. lia. }
    { change (Z.to_nat default_timerout) with 500%nat. lia. }
    rewrite <- Hsplit in Hbuf.
    assert (Hhd : hd 0x7e (take 23 f) = 0xbb).
    { destruct f as [|x f]; [done|]. cbn. cbn in Hhead. done. }
    rewrite Hhd in Hwait. change (0xbb =? 0xbb) with true in Hwait.
    pose proof (waitMsg_inv _ _ _ _ _ Hlen Hwait) as (n & _ & _ & _ & _ & _ & _ & Hclk & _).
    pose proof (waitMsg_cards _ _ _ _ _ Hwait) as [_ Hlen1].
    assert (Hclean : length (buffer (cleanBuffer u)) = 256%nat)
      by (rewrite cleanBuffer_length; done).
    assert (Hload : forall i, (i < 24)%nat -> load (buffer u1) i = load f i)
      by (intros i Hi; eapply load_received_frame; done).
    assert (Hpend1 : pending (_serial u1) (concat frames)).
    { eapply pending_advance; [done|done| |done]. rewrite Hpos, Hflen. lia. }
    cbn [pollingOnce_loop]. rewrite Hwait. cbn [bind].
    rewrite Hload, Hlast by lia.
    change (0x7e =? 0x7e) with true. cbv iota.
    cbn [fold_left].
    destruct (Z.of_nat (length acc) <? 200) eqn:Hroom.
    + apply Z.ltb_lt in Hroom.
      assert (Hepc : epc_text (buffer u1) = epc_str (card_of_buffer f)).
      { cbn [epc_str card_of_buffer]. apply epc_text_ext. intros i Hi. apply Hload. lia. }
      assert (Hcard : card_of_buffer (buffer u1) = card_of_buffer f).
      { apply card_of_buffer_ext. intros i Hi. apply Hload. lia. }
      unfold saveCardInfo.
      rewrite (filterCardInfo_table _ acc) by
        first [congruence | done | apply epc_text_filled].
      rewrite Hepc, Hcard.
      replace ((0 <=? Z.of_nat (length acc)) && (Z.of_nat (length acc) <? 200)) with true
        by (symmetry; apply andb_true_iff; split; [apply Z.leb_le|apply Z.ltb_lt]; lia).
      unfold scan_step at 2 4.
      replace (length acc <? 200)%nat with true by (symmetry; apply Nat.ltb_lt; lia).
      cbn [andb].
      destruct (negb (existsb _ acc)) eqn:Hnew; cbn [negb bind].
      * rewrite Nat2Z.id. rewrite u8_small by lia.
        replace (Z.of_nat (length acc) + 1) with (Z.of_nat (length (acc ++ [card_of_buffer f])))
          by (rewrite length_app; cbn [length]; lia).
        apply IH.
        -- done.
        -- done.
        -- cbn [buffer with_cards]. lia.
        -- unfold with_cards. cbn [cards]. rewrite Hcards1, Hcards.
           apply table_of_insert. lia.
        -- rewrite length_app. cbn [length]. lia.
        -- cbn [length] in Hfuel. lia.
        -- done.
      * apply IH; [done|done|lia|congruence|done|cbn [length] in Hfuel; lia|done].
    + apply Z.ltb_ge in Hroom.
      assert (Hstay : scan_step acc f = acc).
      { unfold scan_step.
        replace (length acc <? 200)%nat with false by (symmetry; apply Nat.ltb_ge; lia).
        done. }
      rewrite Hstay, scan_step_full by lia.
      exists u1. split; [do 2 f_equal; lia|congruence].
Qed.

Lemma scan_records_length frames : forall acc,
  (length acc <= 200)%nat -> (length (fold_left scan_step frames acc) <= 200)%nat.
Proof.
  induction frames as [|f frames IH]; intros acc Hacc; [done|].
  cbn [fold_left]. apply IH, scan_step_length. done.
Qed.

Lemma existsb_epc_In e acc :
  existsb (fun c' => String.eqb e (epc_str c')) acc = true <-> In e (map epc_str acc).
Proof.
  rewrite existsb_exists, in_map_iff. split.
  - intros (c & Hin & Heq). apply String.eqb_eq in Heq. eauto.
  - intros (c & Heq & Hin). exists c. split; [done|]. apply String.eqb_eq. done.
Qed.

Lemma scan_step_keeps acc f e :
  In e (map epc_str acc) -> In e (map epc_str (scan_step acc f)).
Proof.
  intros H. unfold scan_step. destruct (_ && _); [|done].
  rewrite map_app. apply in_or_app. left. done.
Qed.

Lemma scan_records_keep frames : forall acc e,
  In e (map epc_str acc) -> In e (map epc_str (fold_left scan_step frames acc)).
Proof.
  induction frames as [|f frames IH]; intros acc e H; [done|].
  cbn [fold_left]. apply IH, scan_step_keeps. done.
Qed.

Lemma scan_records_grow frames : forall acc,
  (length acc <= length (fold_left scan_step frames acc))%nat.
Proof.
  induction frames as [|f frames IH]; intros acc; [done|].
  cbn [fold_left]. etransitivity; [|apply IH].
  unfold scan_step. destruct (_ && _); [|done]. rewrite length_app. lia.
Qed.

(** While the table has room, no EPC is lost. *)
Lemma scan_records_complete frames : forall acc f,
  In f frames ->
  (length (fold_left scan_step frames acc) < 200)%nat ->
  In (epc_str (card_of_buffer f)) (map epc_str (fold_left scan_step frames acc)).
Proof.
  induction frames as [|g frames IH]; intros acc f Hin Hroom; [destruct Hin|].
  cbn [fold_left] in *. destruct Hin as [->|Hin]; [|apply IH; done].
  apply scan_records_keep.
  assert (Hacc : (length acc < 200)%nat).
  { pose proof (scan_records_grow frames (scan_step acc f)).
    assert (length acc <= length (scan_step acc f))%nat; [|lia].
    unfold scan_step. destruct (_ && _); [|done]. rewrite length_app. lia. }
  unfold scan_step. apply Nat.ltb_lt in Hacc. rewrite Hacc. cbn [andb].
  destruct (existsb _ acc) eqn:Hex; cbn [negb].
  - apply existsb_epc_In. done.
  - rewrite map_app. apply in_or_app. right. left. done.
Qed.

(** No EPC string is stored twice. *)
Lemma scan_records_NoDup frames : forall acc,
  List.NoDup (map epc_str acc) ->
  List.NoDup (map epc_str (fold_left scan_step frames acc)).
Proof.
  induction frames as [|f frames IH]; intros acc Hnd; [done|].
  cbn [fold_left]. apply IH. unfold scan_step.
  destruct (length acc <? 200)%nat; cbn [andb]; [|done].
  destruct (existsb _ acc) eqn:Hex; cbn [negb]; [done|].
  rewrite map_app. cbn [map].
  apply List.NoDup_app; [done|repeat constructor; intros []|].
  intros e Hin [<-|[]].
  apply existsb_epc_In in Hin. congruence.
Qed.

Lemma pending_queued l c tx : 0 <= c -> pending (mkSerial (queued l) 0 c tx) l.
Proof.
  intros Hc k. unfold queued, scheduled. cbn [wire rx_pos clock Nat.add].
  rewrite list_lookup_fmap. destruct (l !! k); cbn; eauto.
Qed.

Lemma cleanCardsBuffer_table u :
  length (cards u) = 200%nat -> cards (cleanCardsBuffer u) = table_of [].
Proof.
  intros Hlen. apply list_eq. intros j.
  unfold table_of. cbn [app length Nat.sub].
  unfold cleanCardsBuffer. cbn [cards with_cards].
  destruct (decide (j < 200)%nat).
  - rewrite fold_insert_lookup_in; [|apply in_seq; lia|lia].
    rewrite repeat_lookup by done. done.
  - rewrite !lookup_ge_None_2; [done|rewrite repeat_length; lia|].
    rewrite fold_insert_length. lia.
Qed.

(** X2. When the line holds nothing but inventory replies, all received,
    each of 24 bytes with 0xBB first, 0x7E last and no other 0x7E byte in it
    ([inventory_frame]), [pollingOnce] and [pollingMultiple] return the
    number of records of [scan_records] and leave exactly those records, in
    order of first appearance, in the first slots of the table: one record
    per distinct EPC string, holding the fields of the first reply with that
    EPC, never more than 200, and with every reply's EPC among them unless
    the table is full. *)
Theorem polling_scan_records POLLING_ONCE_CMD POLLING_MULTIPLE_CMD
    frames fuel polling_count u :
  forallb inventory_frame frames = true ->
  wire (_serial u) = queued (concat frames) ->
  rx_pos (_serial u) = 0%nat ->
  0 <= clock (_serial u) ->
  length (buffer u) = 256%nat ->
  length (cards u) = 200%nat ->
  (length POLLING_MULTIPLE_CMD < 256)%nat ->
  (524 < fuel)%nat ->
  (length frames < fuel)%nat ->
  (length (scan_records frames) <= 200)%nat /\
  List.NoDup (map epc_str (scan_records frames)) /\
  (forall f, In f frames -> (length (scan_records frames) < 200)%nat ->
             In (epc_str (card_of_buffer f)) (map epc_str (scan_records frames))) /\
  (exists u',
     pollingOnce POLLING_ONCE_CMD fuel u
     = Done (Z.of_nat (length (scan_records frames)), u') /\
     cards u' = table_of (scan_records frames)) /\
  (exists u',
     pollingMultiple POLLING_MULTIPLE_CMD fuel polling_count u
     = Done (Z.of_nat (length (scan_records frames)), u') /\
     cards u' = table_of (scan_records frames)).
Proof.
  intros Hwf Hwire Hpos Hclk Hlen Hcards Hcmd Hfuel Hframes.
  assert (Hpend : pending (_serial u) (concat frames)).
  { destruct u as [[w p c tx] dbg buf cs]. cbn [_serial wire rx_pos clock] in *.
    subst w p. apply pending_queued. done. }
  split; [|split; [|split; [|split]]].
  - apply scan_records_length. cbn. lia.
  - apply scan_records_NoDup. constructor.
  - intros f Hin Hroom. apply scan_records_complete; done.
  - unfold pollingOnce.
    apply (pollingOnce_loop_scan frames fuel fuel [] _); try done.
    + unfold sendCMD, with_serial. cbn [cards]. apply cleanCardsBuffer_table. done.
    + cbn. lia.
  - unfold pollingMultiple. rewrite load_template_ok by lia. cbn [bind].
    unfold debug_loop.
    replace (256 <=? Z.of_nat (length POLLING_MULTIPLE_CMD)) with false
      by (symmetry; apply Z.leb_gt; lia).
    rewrite andb_false_r. cbn [bind].
    rewrite (pollingMultiple_loop_eq fuel fuel 0) by lia.
    apply (pollingOnce_loop_scan frames fuel fuel [] _); try done.
    + unfold sendCMD, with_serial, with_buffer. cbn [buffer].
      rewrite !length_insert, memcpy_length; [done|].
      unfold cleanCardsBuffer, with_cards. cbn [buffer]. lia.
    + unfold sendCMD, with_serial, with_buffer. cbn [cards].
      apply cleanCardsBuffer_table. done.
    + cbn. lia.
Qed.

Lemma polling_scan_records_witness :
  exists u',
    pollingOnce sample_POLLING_ONCE_CMD 600
      (power_on (queued (concat [tag_frame 0xC5 0x11 0x22; tag_frame 0xB0 0x11 0x22;
                                 tag_frame 0xA7 0x33 0x44])))
    = Done (2, u') /\
    map rssi (take 2 (cards u')) = [0xC5; 0xA7].
Proof.
  destruct (polling_scan_records sample_POLLING_ONCE_CMD sample_POLLING_MULTIPLE_CMD
              [tag_frame 0xC5 0x11 0x22; tag_frame 0xB0 0x11 0x22; tag_frame 0xA7 0x33 0x44]
              600 16
              (power_on (queued (concat [tag_frame 0xC5 0x11 0x22; tag_frame 0xB0 0x11 0x22;
                                         tag_frame 0xA7 0x33 0x44]))))
    as (_ & _ & _ & (u' & Hrun & Hcards) & _);
    [reflexivity|reflexivity|reflexivity|simpl; lia|reflexivity|reflexivity
    |simpl; lia|lia|simpl; lia|].
  exists u'. split; [exact Hrun|]. rewrite Hcards. reflexivity.
Defined.

Lemma silent_line_failure_witness :
  (exists u', setTxPower sample_SET_TX_POWER 600 2600 (power_on (queued [])) = Done (false, u')
              /\ clock (_serial u') = 500) /\
  (exists u', getVersion sample_HARDWARE_VERSION_CMD 600 (power_on (queued []))
              = Done ("ERROR"%string, u')) /\
  (exists u', pollingOnce sample_POLLING_ONCE_CMD 600 (power_on (queued [])) = Done (0, u')).
Proof.
  destruct (silent_line_failure sample_POLLING_ONCE_CMD sample_POLLING_MULTIPLE_CMD
              sample_WRITE_STORAGE_CMD sample_WRITE_STORAGE_ERROR
              sample_READ_STORAGE_CMD sample_READ_STORAGE_ERROR
              sample_SET_TX_POWER sample_HARDWARE_VERSION_CMD sample_GET_SELECT_PARAMETER_CMD
              sample_SET_SELECT_PARAMETER_CMD sample_SET_SELECT_OK
              600 (power_on (queued [])) 2600 16 [1; 2; 3; 4] 4 0x03 0 0 (repeat 0xE2 12))
    as ((u1 & H1 & Hc & _) & _ & _ & _ & (u5 & H5 & _) & _ & (u7 & H7 & _) & _);
    [intros k _; reflexivity|reflexivity|reflexivity|lia|simpl; lia|simpl; lia|simpl; lia
    |simpl; lia|simpl; lia|simpl; lia|simpl; lia|lia|].
  split; [exists u1; split; [exact H1|exact Hc]|].
  split; [exists u5; exact H5|exists u7; exact H7].
Defined.

(** ** EPC strings and EPC bytes *)

Lemma hex2str_inj_table :
  forallb (fun x => forallb (fun y =>
      implb (String.eqb (hex2str (Z.of_nat x)) (hex2str (Z.of_nat y))) (x =? y)%nat)
    (seq 0 256)) (seq 0 256) = true.
Proof. vm_compute. reflexivity. Qed.

Lemma hex2str_inj x y :
  0 <= x < 256 -> 0 <= y < 256 -> hex2str x = hex2str y -> x = y.
Proof.
  intros Hx Hy Heq.
  pose proof hex2str_inj_table as H. rewrite forallb_forall in H.
  specialize (H (Z.to_nat x)). rewrite in_seq in H.
  specialize (H ltac:(lia)). rewrite forallb_forall in H.
  specialize (H (Z.to_nat y)). rewrite in_seq in H. specialize (H ltac:(lia)).
  rewrite !Z2Nat.id in H by lia. rewrite Heq, String.eqb_refl in H.
  cbn [implb] in H. apply Nat.eqb_eq in H. lia.
Qed.

Lemma string_app_inj (s1 s2 t1 t2 : string) :
  String.length s1 = String.length s2 ->
  (s1 ++ t1 = s2 ++ t2)%string -> s1 = s2 /\ t1 = t2.
Proof.
  revert s2. induction s1 as [|c s1 IH]; intros [|d s2] Hlen Heq; cbn in *; try done.
  injection Heq as -> Heq. destruct (IH s2) as [-> ->]; [lia|done|done].
Qed.

Lemma hex_text_inj (b b' : list Z) idx : forall s s',
  String.length s = String.length s' ->
  (forall i, In i idx -> 0 <= load b i < 256 /\ 0 <= load b' i < 256) ->
  fold_left (fun s i => (s ++ hex2str (load b i))%string) idx s
  = fold_left (fun s i => (s ++ hex2str (load b' i))%string) idx s' ->
  s = s' /\ forall i, In i idx -> load b i = load b' i.
Proof.
  induction idx as [|j idx IH]; intros s s' Hlen Hrange Heq; cbn [fold_left] in Heq.
  - split; [done|]. intros i [].
  - apply IH in Heq as [Heq Hrest].
    + apply string_app_inj in Heq as [-> Hj]; [|done].
      split; [done|]. intros i [<-|Hi]; [|apply Hrest; done].
      apply hex2str_inj; try apply Hrange; try (left; done). done.
    + rewrite !string_length_append, !hex2str_length. lia.
    + intros i Hi. apply Hrange. right. done.
Qed.

(** X3. The table is keyed by the text [saveCardInfo] builds, and for bytes
    that text is as good as the EPC itself: two buffers give the same EPC
    string exactly when their bytes 8..19 agree, so two records built by
    [saveCardInfo] have equal [epc_str] exactly when they have equal [epc]. *)
Theorem epc_text_injective b b' :
  (forall i, (8 <= i < 20)%nat -> 0 <= load b i < 256 /\ 0 <= load b' i < 256) ->
  (epc_text b = epc_text b' <-> forall i, (8 <= i < 20)%nat -> load b i = load b' i) /\
  (epc_str (card_of_buffer b) = epc_str (card_of_buffer b')
   <-> epc (card_of_buffer b) = epc (card_of_buffer b')).
Proof.
  intros Hrange.
  assert (Hiff : epc_text b = epc_text b' <->
                 forall i, (8 <= i < 20)%nat -> load b i = load b' i).
  { split.
    - intros Heq. unfold epc_text in Heq.
      apply hex_text_inj in Heq as [_ Hall]; [|done|].
      + intros i Hi. apply Hall. apply in_seq. lia.
      + intros i Hi. apply in_seq in Hi. apply Hrange. lia.
    - intros Hall. apply epc_text_ext. done. }
  split; [done|].
  cbn [epc_str epc card_of_buffer]. rewrite Hiff. split.
  - intros Hall. apply map_ext_in. intros i Hi. apply in_seq in Hi. apply Hall. lia.
  - intros Hmap i Hi.
    assert (Hnth : nth (i - 8) (map (load b) (seq 8 12)) 0
                   = nth (i - 8) (map (load b') (seq 8 12)) 0) by (rewrite Hmap; done).
    rewrite !(nth_indep _ 0 (load b 0)) in Hnth by (rewrite length_map, length_seq; lia).
    rewrite (map_nth (load b)) in Hnth.
    rewrite (nth_indep _ (load b 0) (load b' 0)) in Hnth by (rewrite length_map, length_seq; lia).
    rewrite (map_nth (load b')) in Hnth.
    rewrite !seq_nth in Hnth by lia.
    replace (8 + (i - 8))%nat with i in Hnth by lia. done.
Qed.

Lemma epc_text_injective_witness :
  epc_text (tag_frame 0xC5 0x11 0x22) = epc_text (tag_frame 0xB0 0x11 0x22) /\
  epc_text (tag_frame 0xC5 0x11 0x22) <> epc_text (tag_frame 0xC5 0x11 0x23).
Proof.
  split.
  - destruct (epc_text_injective (tag_frame 0xC5 0x11 0x22) (tag_frame 0xB0 0x11 0x22))
      as [[_ Hsame] _].
    + intros i Hi. do 8 (destruct i as [|i]; [lia|]).
      do 12 (destruct i as [|i]; [vm_compute; split; split; congruence|]). lia.
    + apply Hsame. intros i Hi. do 8 (destruct i as [|i]; [lia|]).
      do 12 (destruct i as [|i]; [reflexivity|]). lia.
  - intros Heq.
    destruct (epc_text_injective (tag_frame 0xC5 0x11 0x22) (tag_frame 0xC5 0x11 0x23))
      as [[Hbytes _] _].
    + intros i Hi. do 8 (destruct i as [|i]; [lia|]).
      do 12 (destruct i as [|i]; [vm_compute; split; split; congruence|]). lia.
    + specialize (Hbytes Heq 9%nat ltac:(lia)). vm_compute in Hbytes. discriminate Hbytes.
Defined.

(** ** Replies *)

Lemma terminated_spec l :
  terminated l = true ->
  l = removelast l ++ [0x7e] /\ no_terminator (removelast l) /\
  length l = S (length (removelast l)).
Proof.
  unfold terminated. intros H.
  apply andb_true_iff in H as [H Hne]. apply andb_true_iff in H as [Hpre Hlast].
  apply Z.eqb_eq in Hlast. apply negb_true_iff, Nat.eqb_neq in Hne.
  assert (Hnil : l <> []) by (intros ->; done).
  pose proof (app_removelast_last 0 Hnil) as Hsplit. rewrite Hlast in Hsplit.
  split; [done|]. split.
  - apply Forall_forall. intros x Hx. rewrite forallb_forall in Hpre.
    apply list_elem_of_In, Hpre, negb_true_iff, Z.eqb_neq in Hx. done.
  - rewrite Hsplit at 1. rewrite length_app. cbn [length]. lia.
Qed.

Lemma deliversb_ext s s' deadline l : forall k,
  wire s' = wire s -> rx_pos s' = rx_pos s ->
  deliversb s' deadline k l = deliversb s deadline k l.
Proof.
  induction l as [|x l IH]; intros k Hw Hp; [done|].
  cbn [deliversb]. rewrite Hw, Hp. destruct (wire s (rx_pos s + k)) as [[t b]|]; [|done].
  rewrite IH by done. done.
Qed.

(** Sending, and building a frame in [buffer], do not change what comes in. *)
Lemma replies_ext u v l :
  wire (_serial v) = wire (_serial u) -> rx_pos (_serial v) = rx_pos (_serial u) ->
  clock (_serial v) = clock (_serial u) ->
  replies v l = replies u l.
Proof.
  intros Hw Hp Hc. unfold replies. rewrite Hc, (deliversb_ext (_serial u)) by done. done.
Qed.

(** What [waitMsg] makes of a reply that arrives in time: the verdict is
    the start marker test, and [buffer] holds the reply followed by zeros up
    to index 199. *)
Lemma waitMsg_reply fuel u l :
  length (buffer u) = 256%nat ->
  replies u l = true ->
  (500 + length l <= fuel)%nat ->
  exists u',
    waitMsg fuel default_timerout u = Done (load l 0 =? 0xbb, u') /\
    (forall k, (k < 200)%nat -> load (buffer u') k = load l k) /\
    (forall k, (k < length l)%nat -> load (buffer u') k = load l k) /\
    length (buffer u') = 256%nat /\
    rx_pos (_serial u') = (rx_pos (_serial u) + length l)%nat /\
    wire (_serial u') = wire (_serial u) /\
    tx_log (_serial u') = tx_log (_serial u) /\
    cards u' = cards u /\
    _debug u' = _debug u /\
    clock (_serial u) <= clock (_serial u').
Proof.
  intros Hlen Hrep Hfuel. unfold replies in Hrep.
  apply andb_true_iff in Hrep as [Hrep Hdel]. apply andb_true_iff in Hrep as [Hterm Hshort].
  apply Nat.ltb_lt in Hshort. apply deliversb_true in Hdel.
  apply terminated_spec in Hterm as (Hsplit & Hpre & Hl).
  set (pre := removelast l) in *.
  destruct (waitMsg_frame fuel default_timerout u pre)
    as (u' & Hwait & Hbuf & Hpos & Hwire & Htx & Hcards); try done; try lia.
  { rewrite <- Hsplit. done. }
  { change (Z.to_nat default_timerout) with 500%nat. lia. }
  rewrite <- Hsplit in Hbuf.
  assert (Hhd : hd 0x7e pre = load l 0).
  { rewrite Hsplit. destruct pre; done. }
  rewrite Hhd in Hwait.
  pose proof (waitMsg_inv _ _ _ _ _ Hlen Hwait)
    as (n & _ & _ & _ & _ & _ & Hdbg & Hclk & _).
  pose proof (waitMsg_cards _ _ _ _ _ Hwait) as [_ Hlen'].
  assert (Hclean : length (buffer (cleanBuffer u)) = 256%nat)
    by (rewrite cleanBuffer_length; done).
  assert (Hin : forall k, (k < length l)%nat -> load (buffer u') k = load l k).
  { intros k Hk. rewrite Hbuf, load_fill_written by lia. done. }
  exists u'. split; [done|]. split; [|split; [done|]].
  - intros k Hk. destruct (decide (k < length l)%nat) as [Hlt|Hge]; [apply Hin; done|].
    unfold load at 1. rewrite Hbuf, fill_lookup_other by lia.
    fold (load (buffer (cleanBuffer u)) k). rewrite cleanBuffer_zero by done.
    unfold load. rewrite lookup_ge_None_2 by lia. done.
  - split; [lia|]. split; [rewrite Hpos; lia|]. done.
Qed.

(** ** Parameters in command frames *)

Lemma be16 x :
  0 <= x < 65536 -> 256 * Z.land (Z.shiftr x 8) 0xff + Z.land x 0xff = x.
Proof.
  intros Hx. rewrite !land_ff, Z.shiftr_div_pow2 by lia. change (2 ^ 8) with 256.
  rewrite (Z.mod_small (x / 256)) by (split; [apply Z.div_pos|apply Z.div_lt_upper_bound]; lia).
  pose proof (Z.div_mod x 256). lia.
Qed.

Lemma be32 x :
  0 <= x < 4294967296 ->
  16777216 * Z.land (Z.shiftr x 24) 0xff + 65536 * Z.land (Z.shiftr x 16) 0xff
  + 256 * Z.land (Z.shiftr x 8) 0xff + Z.land x 0xff = x.
Proof.
  intros Hx. rewrite !land_ff, !Z.shiftr_div_pow2 by lia.
  change (2 ^ 24) with 16777216. change (2 ^ 16) with 65536. change (2 ^ 8) with 256.
  Z.div_mod_to_equations. lia.
Qed.

(** Reading a buffer that a run of constant-index stores has built. *)
Ltac load_store :=
  repeat first
    [ rewrite load_insert_eq by (rewrite ?length_insert; lia)
    | rewrite load_insert_ne by lia ].

(** X4. [setTxPower] encodes any 16-bit power value big-endian in bytes 5
    and 6 of its frame, leaves the other bytes of the [SET_TX_POWER] table
    alone except the checksum at index 7, and sends the table's length of
    bytes. *)
Theorem setTxPower_encodes SET_TX_POWER db u :
  length (buffer u) = 256%nat ->
  (length SET_TX_POWER <= 256)%nat ->
  0 <= db < 65536 ->
  exists u1,
    setTxPower_frame SET_TX_POWER db u = Done u1 /\
    256 * load (buffer u1) 5 + load (buffer u1) 6 = db /\
    load (buffer u1) 7 = sum_bytes (buffer u1) 1 6 mod 256 /\
    (forall k, (k < length SET_TX_POWER)%nat -> k <> 5%nat -> k <> 6%nat -> k <> 7%nat ->
               load (buffer u1) k = load SET_TX_POWER k) /\
    forall fuel r u',
      setTxPower SET_TX_POWER fuel db u = Done (r, u') ->
      tx_log (_serial u') = tx_log (_serial u) ++ [take (length SET_TX_POWER) (buffer u1)].
Proof.
  intros Hlen Hcmd Hdb. unfold setTxPower, setTxPower_frame.
  rewrite load_template_ok by done. cbn [bind buffer with_buffer].
  set (b0 := memcpy (buffer u) SET_TX_POWER).
  assert (Hb0 : length b0 = 256%nat) by (unfold b0; rewrite memcpy_length; lia).
  eexists. split; [reflexivity|]. cbn [buffer with_buffer _serial].
  split; [|split; [|split]].
  - load_store. apply be16. done.
  - load_store. rewrite land_ff, checksum_sum, Z.mod_mod by lia. f_equal.
    symmetry. apply sum_bytes_ext. intros i Hi. rewrite load_insert_ne by lia. done.
  - intros k Hk H5 H6 H7. load_store. unfold b0, memcpy, load.
    rewrite lookup_app_l by done. done.
  - intros fuel r u' Hrun.
    destruct (waitMsg fuel default_timerout _) as [[ok u3]| |] eqn:Hwait;
      cbn [bind] in Hrun; [|done|done].
    apply waitMsg_tx_log in Hwait.
    assert (u' = u3) as -> by (destruct ok; [destruct (negb _)|]; congruence).
    rewrite Hwait. reflexivity.
Qed.

Lemma setTxPower_encodes_witness :
  exists u1,
    setTxPower_frame sample_SET_TX_POWER 3000 (power_on (queued [])) = Done u1 /\
    256 * load (buffer u1) 5 + load (buffer u1) 6 = 3000.
Proof.
  destruct (setTxPower_encodes sample_SET_TX_POWER 3000 (power_on (queued [])) eq_refl)
    as (u1 & Hframe & Hdb & _); [simpl; lia|lia|].
  exists u1. split; [exact Hframe|exact Hdb].
Defined.

(** X5. The verdict of [setTxPower] on a reply of fewer than 256 bytes that
    arrives in time and has its only 0x7E byte at its end ([replies]): true
    exactly when byte 0 is 0xBB and byte 2 is 0xB6, the same for all such
    replies that agree in these two bytes; the bytes of the reply are
    consumed, and no more. *)
Theorem setTxPower_verdict SET_TX_POWER fuel db u reply :
  length (buffer u) = 256%nat ->
  (length SET_TX_POWER <= 256)%nat ->
  replies u reply = true ->
  (500 + length reply <= fuel)%nat ->
  exists u',
    setTxPower SET_TX_POWER fuel db u
    = Done ((load reply 0 =? 0xbb) && (load reply 2 =? 0xB6), u') /\
    rx_pos (_serial u') = (rx_pos (_serial u) + length reply)%nat.
Proof.
  intros Hlen Hcmd Hrep Hfuel. unfold setTxPower, setTxPower_frame.
  rewrite load_template_ok by done. cbn [bind].
  match goal with |- context [waitMsg fuel _ ?v] =>
    destruct (waitMsg_reply fuel v reply) as (u' & Hwait & Hbuf & _ & _ & Hpos & _) end;
    [unfold sendCMD, with_serial, with_buffer; cbn [buffer];
     rewrite !length_insert, memcpy_length; lia
    |rewrite <- Hrep; apply replies_ext; reflexivity|exact Hfuel|].
  rewrite Hwait. cbn [bind]. exists u'. split; [|exact Hpos].
  rewrite Hbuf by lia.
  destruct (load reply 0 =? 0xbb); [|done].
  destruct (load reply 2 =? 0xB6); done.
Qed.

Lemma setTxPower_verdict_witness :
  exists u',
    setTxPower sample_SET_TX_POWER 600 2600
      (power_on (queued [0xBB; 0x01; 0xB6; 0x00; 0x01; 0x55; 0x00; 0x7E]))
    = Done (true, u').
Proof.
  destruct (setTxPower_verdict sample_SET_TX_POWER 600 2600
              (power_on (queued [0xBB; 0x01; 0xB6; 0x00; 0x01; 0x55; 0x00; 0x7E]))
              [0xBB; 0x01; 0xB6; 0x00; 0x01; 0x55; 0x00; 0x7E])
    as (u' & Hrun & _); [reflexivity|simpl; lia|reflexivity|simpl; lia|].
  exists u'. exact Hrun.
Defined.

(** ** writeCard: the parameter bytes and the largest payloads *)

(** The copy loop of [writeCard] for every payload that stays inside the
    buffer: [offset] is counted modulo 256. *)
Lemma writeCard_copy_upto data size (m : nat) : forall n i u,
  Z.of_nat m = size - i -> 0 <= i -> (m <= n)%nat ->
  size <= 242 -> size <= Z.of_nat (length data) ->
  length (buffer u) = 256%nat ->
  exists u',
    writeCard_copy n data size i (u8 (14 + i)) u = Done (u8 (14 + size), u') /\
    length (buffer u') = 256%nat /\
    _serial u' = _serial u /\
    _debug u' = _debug u /\
    (forall j, (j < 14 + Z.to_nat i \/ 14 + Z.to_nat size <= j)%nat ->
               buffer u' !! j = buffer u !! j) /\
    (forall k, (Z.to_nat i <= k < Z.to_nat size)%nat ->
               buffer u' !! (14 + k)%nat = data !! k).
Proof.
  induction m as [|m IH]; intros n i u Hm Hi Hn Hsize Hdata Hlen.
  - exists u. assert (i = size) as -> by lia.
    split.
    + destruct n; cbn [writeCard_copy]; rewrite Z.ltb_irrefl; done.
    + repeat split; try done. intros k Hk. lia.
  - destruct n as [|n]; [lia|]. cbn [writeCard_copy].
    replace (i <? size) with true by (symmetry; apply Z.ltb_lt; lia).
    destruct (data !! Z.to_nat i) as [d|] eqn:Hd;
      [|apply lookup_ge_None_1 in Hd; lia].
    unfold buffer_set. rewrite in_range_true by lia. cbn [bind].
    rewrite (u8_small (i + 1)) by lia.
    replace (u8 (u8 (14 + i) + 1)) with (u8 (14 + (i + 1)))
      by (unfold u8; rewrite Zplus_mod_idemp_l; f_equal; lia).
    destruct (IH n (i + 1) (with_buffer (<[Z.to_nat (14 + i) := d]> (buffer u)) u))
      as (u' & Hrun & Hlen' & Hser & Hdbg & Hout & Hin); try lia.
    { cbn [buffer with_buffer]. rewrite length_insert. done. }
    exists u'. split; [done|]. split; [done|]. split; [done|]. split; [done|].
    cbn [buffer with_buffer] in Hout. split.
    + intros j Hj. rewrite Hout by lia. apply list_lookup_insert_ne. lia.
    + intros k Hk. destruct (decide (k = Z.to_nat i)) as [->|Hne].
      * rewrite Hout by lia.
        replace (14 + Z.to_nat i)%nat with (Z.to_nat (14 + i)) by lia.
        rewrite list_lookup_insert_eq by lia. done.
      * apply Hin. lia.
Qed.

(** With more than 242 bytes to copy, the pass for [i = 242] stores to
    [buffer[256]]. *)
Lemma writeCard_copy_overrun data size (m : nat) : forall n i off u,
  Z.of_nat m = 242 - i -> 0 <= i -> (m < n)%nat ->
  242 < size -> 242 < Z.of_nat (length data) ->
  writeCard_copy n data size i off u = Fault (BufferIndex 256).
Proof.
  induction m as [|m IH]; intros n i off u Hm Hi Hn Hsize Hdata;
    (destruct n as [|n]; [lia|]); cbn [writeCard_copy];
    replace (i <? size) with true by (symmetry; apply Z.ltb_lt; lia);
    (destruct (data !! Z.to_nat i) as [d|] eqn:Hd;
      [|apply lookup_ge_None_1 in Hd; lia]); unfold buffer_set.
  - assert (i = 242) as -> by lia. done.
  - rewrite in_range_true by lia. cbn [bind].
    rewrite (u8_small (i + 1)) by lia. apply IH; lia.
Qed.

(** X6. [writeCard] puts its parameters into the frame so that they can be
    read back: the access password big-endian in bytes 5..8, the memory bank
    in byte 9, the start address big-endian in bytes 10..11; bytes 0..4 are
    those of the [WRITE_STORAGE_CMD] table. *)
Theorem writeCard_frame_params WRITE_STORAGE_CMD data size membank sa access_password u :
  length (buffer u) = 256%nat ->
  (length WRITE_STORAGE_CMD <= 256)%nat ->
  0 <= size <= Z.of_nat (length data) ->
  size <= 240 ->
  0 <= access_password < 4294967296 ->
  0 <= sa < 65536 ->
  exists u1,
    writeCard_frame WRITE_STORAGE_CMD data size membank sa access_password u
    = Done (size + 16, u1) /\
    16777216 * load (buffer u1) 5 + 65536 * load (buffer u1) 6
    + 256 * load (buffer u1) 7 + load (buffer u1) 8 = access_password /\
    load (buffer u1) 9 = membank /\
    256 * load (buffer u1) 10 + load (buffer u1) 11 = sa /\
    forall k, (k < 5)%nat -> (k < length WRITE_STORAGE_CMD)%nat ->
              load (buffer u1) k = load WRITE_STORAGE_CMD k.
Proof.
  intros Hlen Hcmd Hsize Hfit Hpw Hsa. unfold writeCard_frame.
  rewrite load_template_ok by done. cbn [bind buffer with_buffer].
  set (b0 := memcpy (buffer u) WRITE_STORAGE_CMD).
  assert (Hb0 : length b0 = 256%nat) by (unfold b0; rewrite memcpy_length; lia).
  set (b13 := <[13%nat := _]> _).
  assert (Hb13 : length b13 = 256%nat) by (unfold b13; rewrite !length_insert; done).
  destruct (writeCard_copy_upto data size (Z.to_nat size) 256 0
              (with_buffer b13 (with_buffer b0 u)))
    as (u2 & Hcopy & Hlen2 & _ & _ & Hout & _); try done; try lia.
  change (u8 (14 + 0)) with 14 in Hcopy. rewrite u8_small in Hcopy by lia.
  rewrite Hcopy. cbn [bind].
  unfold buffer_set. rewrite in_range_true by lia. cbn [bind].
  rewrite in_range_true by lia. cbn [bind buffer with_buffer].
  cbn [buffer with_buffer] in Hout.
  eexists. split; [f_equal; f_equal; lia|].
  cbn [buffer with_buffer].
  assert (Hkeep : forall j chk, (j < 14)%nat ->
            load (<[Z.to_nat (14 + size + 1) := 126]>
                    (<[Z.to_nat (14 + size) := chk]> (buffer u2))) j = load b13 j).
  { intros j chk Hj. rewrite !load_insert_ne by lia. unfold load. rewrite Hout by lia. done. }
  rewrite !Hkeep by lia. unfold b13.
  split; [|split; [|split]].
  - load_store. apply be32. done.
  - load_store. done.
  - load_store. apply be16. done.
  - intros k Hk Hk'. rewrite Hkeep by lia. unfold b13. load_store. unfold b0, memcpy, load.
    rewrite lookup_app_l by done. done.
Qed.

Lemma writeCard_frame_params_witness :
  exists u1,
    writeCard_frame sample_WRITE_STORAGE_CMD [0x12; 0x34; 0x56; 0x78] 4 0x03 0x0102
      0xDEADBEEF (power_on (queued [])) = Done (20, u1) /\
    map (load (buffer u1)) [5; 6; 7; 8; 9; 10; 11]%nat
    = [0xDE; 0xAD; 0xBE; 0xEF; 0x03; 0x01; 0x02].
Proof.
  destruct (writeCard_frame_params sample_WRITE_STORAGE_CMD
              [0x12; 0x34; 0x56; 0x78] 4 0x03 0x0102 0xDEADBEEF (power_on (queued [])) eq_refl)
    as (u1 & Hframe & _); [simpl; lia|simpl; lia|lia|lia|lia|].
  exists u1. split; [exact Hframe|].
  vm_compute in Hframe. injection Hframe as <-. reflexivity.
Defined.

(** X7. The largest payloads of [writeCard].  Up to 240 bytes the frame fits
    (C6).  With 241 bytes, or more than 242, the call stores past the end of
    [buffer].  With exactly 242 bytes the 8-bit [offset] wraps to 0: the
    payload is copied, but checksum and terminator land in [buffer[0..1]] and
    the two bytes 00 7E are all that is sent.  With 240 bytes and debug traces
    on, the trace loop counts to 256 with an 8-bit counter and never ends. *)
Theorem writeCard_size_edge WRITE_STORAGE_CMD WRITE_STORAGE_ERROR
    fuel data size membank sa access_password u :
  length (buffer u) = 256%nat ->
  (length WRITE_STORAGE_CMD <= 256)%nat ->
  0 <= size <= Z.of_nat (length data) ->
  (size = 241 \/ 242 < size ->
   writeCard WRITE_STORAGE_CMD WRITE_STORAGE_ERROR fuel data size membank sa access_password u
   = Fault (BufferIndex 256)) /\
  (size = 242 ->
   exists u1,
     writeCard_frame WRITE_STORAGE_CMD data size membank sa access_password u
     = Done (2, u1) /\
     (forall k, (k < 242)%nat -> buffer u1 !! (14 + k)%nat = data !! k) /\
     forall r u',
       writeCard WRITE_STORAGE_CMD WRITE_STORAGE_ERROR fuel data size membank sa
         access_password u = Done (r, u') ->
       tx_log (_serial u') = tx_log (_serial u) ++ [[0x00; 0x7e]]) /\
  (size = 240 -> _debug u = true ->
   writeCard WRITE_STORAGE_CMD WRITE_STORAGE_ERROR fuel data size membank sa access_password u
   = Spin).
Proof.
  intros Hlen Hcmd Hsize. unfold writeCard, writeCard_frame.
  rewrite load_template_ok by done. cbn [bind buffer with_buffer].
  set (b0 := memcpy (buffer u) WRITE_STORAGE_CMD).
  assert (Hb0 : length b0 = 256%nat) by (unfold b0; rewrite memcpy_length; lia).
  set (b13 := <[13%nat := _]> _).
  assert (Hb13 : length b13 = 256%nat) by (unfold b13; rewrite !length_insert; done).
  assert (Hcopy : size <= 242 -> exists u2,
            writeCard_copy 256 data size 0 14 (with_buffer b13 (with_buffer b0 u))
            = Done (u8 (14 + size), u2) /\
            length (buffer u2) = 256%nat /\ _serial u2 = _serial u /\ _debug u2 = _debug u /\
            forall k, (k < Z.to_nat size)%nat -> buffer u2 !! (14 + k)%nat = data !! k).
  { intros Hfit.
    destruct (writeCard_copy_upto data size (Z.to_nat size) 256 0
                (with_buffer b13 (with_buffer b0 u)))
      as (u2 & Hrun & Hlen2 & Hser & Hdbg & _ & Hin); try done; try lia.
    exists u2. change (u8 (14 + 0)) with 14 in Hrun.
    repeat split; try done. intros k Hk. apply Hin. lia. }
  split; [|split].
  - intros [->|Hbig].
    + destruct Hcopy as (u2 & -> & Hlen2 & _); [lia|]. done.
    + rewrite (writeCard_copy_overrun data size 242) by lia. done.
  - intros ->. destruct Hcopy as (u2 & -> & Hlen2 & Hser & _ & Hin); [lia|].
    change (u8 (14 + 242)) with 0. cbn [bind]. unfold buffer_set.
    rewrite !in_range_true by lia. cbn [bind buffer with_buffer].
    change (Z.to_nat 0 - 1)%nat with 0%nat. change (checksum (buffer u2) 1 0) with 0.
    change (Z.land 0 255) with 0. change (Z.to_nat (0 + 1)) with 1%nat.
    change (Z.to_nat 0) with 0%nat. change (0 + 2) with 2.
    eexists. split; [reflexivity|]. cbn [buffer with_buffer _serial _debug].
    split.
    { intros k Hk. rewrite !list_lookup_insert_ne by lia. apply Hin. lia. }
    intros r u' Hrun. unfold debug_loop in Hrun. cbn [_debug with_buffer] in Hrun.
    change (256 <=? 2) with false in Hrun. rewrite andb_false_r in Hrun.
    cbn [bind] in Hrun.
    destruct (waitMsg fuel default_timerout _) as [[ok u3]| |] eqn:Hwait;
      cbn [bind] in Hrun; [|done|done].
    apply waitMsg_tx_log in Hwait.
    assert (u' = u3) as -> by (destruct ok; [destruct (_ =? _)|]; congruence).
    rewrite Hwait. unfold sendCMD, write, with_serial, with_buffer.
    cbn [_serial tx_log buffer]. rewrite Hser. do 2 f_equal.
    destruct (buffer u2) as [|x [|y l]]; cbn [length] in Hlen2; try lia. done.
  - intros -> Hdbg. destruct Hcopy as (u2 & -> & Hlen2 & _ & Hdbg2 & _); [lia|].
    change (u8 (14 + 240)) with 254. cbn [bind]. unfold buffer_set.
    rewrite !in_range_true by lia. cbn [bind].
    unfold debug_loop. cbn [_debug with_buffer]. rewrite Hdbg2, Hdbg. done.
Qed.

Lemma writeCard_size_edge_witness :
  writeCard sample_WRITE_STORAGE_CMD sample_WRITE_STORAGE_ERROR 600 (repeat 0x11 250) 241
    0x03 0 0 (power_on (queued [])) = Fault (BufferIndex 256) /\
  exists u1,
    writeCard_frame sample_WRITE_STORAGE_CMD (repeat 0x11 250) 242 0x03 0 0
      (power_on (queued [])) = Done (2, u1).
Proof.
  split.
  - destruct (writeCard_size_edge sample_WRITE_STORAGE_CMD sample_WRITE_STORAGE_ERROR 600
                (repeat 0x11 250) 241 0x03 0 0 (power_on (queued [])) eq_refl)
      as (Hover & _); [simpl; lia|simpl; lia|].
    apply Hover. left. reflexivity.
  - destruct (writeCard_size_edge sample_WRITE_STORAGE_CMD sample_WRITE_STORAGE_ERROR 600
                (repeat 0x11 250) 242 0x03 0 0 (power_on (queued [])) eq_refl)
      as (_ & Hwrap & _); [simpl; lia|simpl; lia|].
    destruct (Hwrap eq_refl) as (u1 & Hframe & _). exists u1. exact Hframe.
Defined.

(** ** readCard: the request and the largest reads *)

(** X8. The request [readCard] sends: the [READ_STORAGE_CMD] table with the
    access password big-endian in bytes 5..8, the memory bank in byte 9, the
    8-bit word count [size / 2] in byte 13 under a zero byte 12, and the sum
    modulo 256 of bytes 1..13 in byte 14.  The start address [sa] is not
    used: bytes 10 and 11 are the table's, and any two addresses give the
    same request. *)
Theorem readCard_request_layout READ_STORAGE_CMD size membank sa access_password u :
  length (buffer u) = 256%nat ->
  (length READ_STORAGE_CMD < 256)%nat ->
  0 <= access_password < 4294967296 ->
  exists u3,
    readCard_request READ_STORAGE_CMD size membank sa access_password u = Done u3 /\
    16777216 * load (buffer u3) 5 + 65536 * load (buffer u3) 6
    + 256 * load (buffer u3) 7 + load (buffer u3) 8 = access_password /\
    load (buffer u3) 9 = membank /\
    load (buffer u3) 12 = 0 /\
    load (buffer u3) 13 = (size / 2) mod 256 /\
    load (buffer u3) 14 = sum_bytes (buffer u3) 1 13 mod 256 /\
    (forall k, (k < length READ_STORAGE_CMD)%nat -> (k < 5 \/ 9 < k < 12 \/ 14 < k)%nat ->
               load (buffer u3) k = load READ_STORAGE_CMD k) /\
    tx_log (_serial u3)
    = tx_log (_serial u) ++ [take (length READ_STORAGE_CMD) (buffer u3)] /\
    forall sa',
      readCard_request READ_STORAGE_CMD size membank sa' access_password u = Done u3.
Proof.
  intros Hlen Hcmd Hpw. unfold readCard_request.
  rewrite load_template_ok by lia. cbn [bind buffer with_buffer].
  set (b0 := memcpy (buffer u) READ_STORAGE_CMD).
  assert (Hb0 : length b0 = 256%nat) by (unfold b0; rewrite memcpy_length; lia).
  assert (Hdbg : forall v, debug_loop v (Z.of_nat (length READ_STORAGE_CMD)) = Done tt).
  { intros v. unfold debug_loop.
    replace (256 <=? Z.of_nat (length READ_STORAGE_CMD)) with false
      by (symmetry; apply Z.leb_gt; lia).
    rewrite andb_false_r. done. }
  rewrite Hdbg. cbn [bind]. eexists. split; [reflexivity|].
  unfold sendCMD, write, with_serial, with_buffer. cbn [buffer _serial tx_log].
  pose proof (u8_range (size / 2)) as Hword.
  repeat split.
  - load_store. apply be32. done.
  - load_store. done.
  - load_store. rewrite land_ff, Z.shiftr_div_pow2 by lia. change (2 ^ 8) with 256.
    rewrite Z.div_small by done. done.
  - load_store. rewrite land_ff. unfold u8. apply Z.mod_mod. lia.
  - load_store. rewrite land_ff, checksum_sum, Z.mod_mod by lia. f_equal.
    symmetry. apply sum_bytes_ext. intros i Hi. rewrite load_insert_ne by lia. done.
  - intros k Hk Hother. load_store. unfold b0, memcpy, load.
    rewrite lookup_app_l by done. done.
Qed.

Lemma readCard_request_layout_witness :
  exists u3,
    readCard_request sample_READ_STORAGE_CMD 4 0x03 0x1234 0xDEADBEEF (power_on (queued []))
    = Done u3 /\
    readCard_request sample_READ_STORAGE_CMD 4 0x03 0 0xDEADBEEF (power_on (queued []))
    = Done u3.
Proof.
  destruct (readCard_request_layout sample_READ_STORAGE_CMD 4 0x03 0x1234 0xDEADBEEF
              (power_on (queued [])) eq_refl)
    as (u3 & Hreq & _ & _ & _ & _ & _ & _ & _ & Hsa); [simpl; lia|lia|].
  exists u3. split; [exact Hreq|apply Hsa].
Defined.

(** With more than 236 bytes to copy, the pass for [i = 236] reads
    [buffer[256]]. *)
Lemma readCard_copy_overrun u size (m : nat) : forall n i temp,
  Z.of_nat m = 236 - i -> 0 <= i -> (m < n)%nat -> 236 < size ->
  readCard_copy n size i temp u = Fault (BufferIndex 256).
Proof.
  induction m as [|m IH]; intros n i temp Hm Hi Hn Hsize;
    (destruct n as [|n]; [lia|]); cbn [readCard_copy];
    replace (i <? size) with true by (symmetry; apply Z.ltb_lt; lia);
    unfold buffer_get.
  - assert (i = 236) as -> by lia. done.
  - rewrite in_range_true by lia. cbn [bind].
    rewrite (u8_small (i + 1)) by lia. apply IH; lia.
Qed.

(** X9. The largest reads of [readCard], once a reply has been accepted and
    is not the error reply.  The copy from [buffer[20 + i]] leaves the buffer
    when [size] exceeds 236; with debug traces on, the trace loop up to
    [22 + size] never ends from [size = 234] on.  So a call that returns has
    [size <= 236], and [size < 234] with traces on. *)
Theorem readCard_size_edge READ_STORAGE_CMD READ_STORAGE_ERROR
    fuel data size membank sa access_password u u3 u4 :
  readCard_request READ_STORAGE_CMD size membank sa access_password u = Done u3 ->
  waitMsg fuel default_timerout u3 = Done (true, u4) ->
  load READ_STORAGE_ERROR 2 <> load (buffer u4) 2 ->
  let run := readCard READ_STORAGE_CMD READ_STORAGE_ERROR fuel data size membank sa
               access_password u in
  (236 < size -> _debug u4 = false -> run = Fault (BufferIndex 256)) /\
  (234 <= size -> _debug u4 = true -> run = Spin) /\
  (forall r data' u', run = Done (r, data', u') ->
     size <= 236 /\ (_debug u4 = true -> size < 234)).
Proof.
  intros Hreq Hwait Herr run. apply Z.eqb_neq in Herr.
  assert (Hrun : run = do _ <- debug_loop u4 (22 + size);
                       do temp <- readCard_copy 256 size 0 [] u4;
                       do data' <- copy_out data temp size; Done (true, data', u4)).
  { unfold run, readCard. rewrite Hreq. cbn [bind]. rewrite Hwait. cbn [bind].
    rewrite Herr. done. }
  assert (Hover : 236 < size -> readCard_copy 256 size 0 [] u4 = Fault (BufferIndex 256))
    by (intros Hbig; apply (readCard_copy_overrun u4 size 236); lia).
  assert (Hspin : 234 <= size -> _debug u4 = true -> debug_loop u4 (22 + size) = Spin).
  { intros Hbig Hdbg. unfold debug_loop. rewrite Hdbg.
    replace (256 <=? 22 + size) with true by (symmetry; apply Z.leb_le; lia). done. }
  split; [|split].
  - intros Hbig Hdbg. rewrite Hrun, debug_loop_off by done. cbn [bind].
    rewrite Hover by done. done.
  - intros Hbig Hdbg. rewrite Hrun, Hspin by done. done.
  - intros r data' u' Hdone. rewrite Hrun in Hdone. split.
    + destruct (Z_le_gt_dec size 236) as [|Hbig]; [done|].
      destruct (debug_loop u4 (22 + size)); cbn [bind] in Hdone; [|done|done].
      rewrite Hover in Hdone by lia. done.
    + intros Hdbg. destruct (Z_lt_ge_dec size 234) as [|Hbig]; [done|].
      rewrite Hspin in Hdone by (done || lia). done.
Qed.

Lemma readCard_size_edge_witness :
  readCard sample_READ_STORAGE_CMD sample_READ_STORAGE_ERROR 600 (repeat 0 240) 237 0x03 0 0
    (power_on (queued read_reply)) = Fault (BufferIndex 256).
Proof.
  edestruct (readCard_size_edge sample_READ_STORAGE_CMD sample_READ_STORAGE_ERROR 600
               (repeat 0 240) 237 0x03 0 0 (power_on (queued read_reply)))
    as (Hover & _);
    [vm_compute; reflexivity|vm_compute; reflexivity|vm_compute; congruence|].
  apply Hover; [lia|reflexivity].
Defined.

(** ** pollingMultiple: the request *)

Lemma load_take (l : list Z) n k : (k < n)%nat -> load (take n l) k = load l k.
Proof. intros. unfold load. rewrite lookup_take_lt by done. done. Qed.

Lemma saveCardInfo_serial slot u saved u' :
  saveCardInfo slot u = Done (saved, u') -> _serial u' = _serial u.
Proof.
  unfold saveCardInfo. intros Hsave.
  destruct (negb _); [injection Hsave as _ <-; done|].
  destruct (_ && _); [|done]. injection Hsave as _ <-. done.
Qed.

(** A scan loop receives only. *)
Lemma pollingMultiple_loop_tx_log fuel wfuel : forall count u n u',
  pollingMultiple_loop fuel wfuel count u = Done (n, u') ->
  tx_log (_serial u') = tx_log (_serial u).
Proof.
  induction fuel as [|fuel IH]; intros count u n u' Hrun; [done|].
  cbn [pollingMultiple_loop] in Hrun.
  destruct (waitMsg wfuel default_timerout u) as [[ok u1]| |] eqn:Hwait;
    cbn [bind] in Hrun; [|done|done].
  apply waitMsg_tx_log in Hwait. rewrite <- Hwait.
  destruct ok; [|injection Hrun as _ <-; done].
  destruct (load (buffer u1) 23 =? 0x7e); [|apply IH in Hrun; done].
  destruct (count <? 200); [|injection Hrun as _ <-; done].
  destruct (saveCardInfo count u1) as [[saved u2]| |] eqn:Hsave;
    cbn [bind] in Hrun; [|done|done].
  apply saveCardInfo_serial in Hsave. apply IH in Hrun. rewrite Hrun, Hsave. done.
Qed.

(** X10. The request of [pollingMultiple]: one frame, as long as the
    [POLLING_MULTIPLE_CMD] table, with the round count big-endian in bytes
    6..7, the sum modulo 256 of bytes 1..7 in byte 8, and the table's bytes
    elsewhere.  Nothing else is sent during the scan. *)
Theorem pollingMultiple_request POLLING_MULTIPLE_CMD fuel polling_count u n u' :
  length (buffer u) = 256%nat ->
  (9 <= length POLLING_MULTIPLE_CMD <= 256)%nat ->
  0 <= polling_count < 65536 ->
  pollingMultiple POLLING_MULTIPLE_CMD fuel polling_count u = Done (n, u') ->
  exists frame,
    tx_log (_serial u') = tx_log (_serial u) ++ [frame] /\
    length frame = length POLLING_MULTIPLE_CMD /\
    256 * load frame 6 + load frame 7 = polling_count /\
    load frame 8 = sum_bytes frame 1 7 mod 256 /\
    forall k, (k < length POLLING_MULTIPLE_CMD)%nat -> (k < 6 \/ 8 < k)%nat ->
              load frame k = load POLLING_MULTIPLE_CMD k.
Proof.
  intros Hlen Hcmd Hcount Hrun. unfold pollingMultiple in Hrun.
  rewrite load_template_ok in Hrun by lia. cbn [bind buffer with_buffer] in Hrun.
  destruct (debug_loop _ _); cbn [bind] in Hrun; [|done|done].
  apply pollingMultiple_loop_tx_log in Hrun.
  unfold sendCMD, write, with_serial, with_buffer, cleanCardsBuffer, with_cards in Hrun.
  cbn [_serial tx_log buffer] in Hrun.
  set (b0 := memcpy (buffer u) POLLING_MULTIPLE_CMD) in *.
  assert (Hb0 : length b0 = 256%nat) by (unfold b0; rewrite memcpy_length; lia).
  eexists. split; [exact Hrun|].
  split; [rewrite length_take, !length_insert; lia|].
  split; [|split].
  - rewrite !load_take by lia. load_store. apply be16. done.
  - rewrite load_take by lia. load_store.
    rewrite land_ff, checksum_sum, Z.mod_mod by lia. f_equal.
    symmetry. apply sum_bytes_ext. intros i Hi. rewrite load_take by lia.
    rewrite load_insert_ne by lia. done.
  - intros k Hk Hother. rewrite load_take by lia. load_store. unfold b0, memcpy, load.
    rewrite lookup_app_l by done. done.
Qed.

Lemma pollingMultiple_request_witness :
  exists frame,
    tx_log (_serial (power_on (queued []))) ++ [frame]
    = [[0xBB; 0x00; 0x27; 0x00; 0x03; 0x22; 0x01; 0x2C; 0x79; 0x7E]].
Proof.
  edestruct (pollingMultiple_request sample_POLLING_MULTIPLE_CMD 600 300
               (power_on (queued [])) 0) as (frame & Hlog & _);
    [reflexivity|simpl; lia|lia|vm_compute; reflexivity|].
  exists frame. rewrite <- Hlog. reflexivity.
Defined.

(** ** getVersion: the text of a reply *)

Lemma terminated_inner l k :
  terminated l = true -> (S k < length l)%nat -> load l k <> 0x7e.
Proof.
  intros Hterm Hk. apply terminated_spec in Hterm as (Hsplit & Hpre & Hl).
  rewrite Hsplit. unfold load. rewrite lookup_app_l by lia.
  destruct (removelast l !! k) as [x|] eqn:Hx; [|apply lookup_ge_None_1 in Hx; lia].
  unfold no_terminator in Hpre. rewrite Forall_lookup in Hpre. apply (Hpre k x Hx).
Qed.

Lemma terminated_last l :
  terminated l = true -> load l (length l - 1) = 0x7e.
Proof.
  intros Hterm. apply terminated_spec in Hterm as (Hsplit & _ & Hl).
  rewrite Hsplit at 1. unfold load. rewrite lookup_app_r by lia.
  replace (length l - 1 - length (removelast l))%nat with 0%nat by lia. done.
Qed.

Lemma string_app_cons (s t : string) c :
  ((s ++ String c "") ++ t)%string = (s ++ String c t)%string.
Proof. induction s as [|a s IH]; cbn [append]; [done|]. rewrite IH. done. Qed.

(** The scan of [getVersion] over a buffer that holds the text [text] from
    index 6 on and the first terminator two places behind its last byte. *)
Lemma getVersion_scan_text b text (m : nat) : forall n i info,
  (forall j, (j < length text)%nat -> load b (6 + j) = load text j) ->
  (forall j, (S j < length text)%nat -> load b (8 + j) <> 0x7e) ->
  load b (8 + (length text - 1)) = 0x7e ->
  (S (i + m) = length text)%nat -> (m < n)%nat ->
  getVersion_scan n i b info
  = (info ++ string_of_list_ascii (map char_of_byte (drop i text)))%string.
Proof.
  induction m as [|m IH]; intros n i info Htext Hin Hend Hm Hn;
    (destruct n as [|n]; [lia|]); cbn [getVersion_scan];
    (destruct (text !! i) as [x|] eqn:Hx; [|apply lookup_ge_None_1 in Hx; lia]);
    rewrite (drop_S _ _ _ Hx); cbn [map string_of_list_ascii];
    assert (Hli : load text i = x) by (unfold load; rewrite Hx; done);
    rewrite (Htext i), Hli by lia.
  - replace (length text - 1)%nat with i in Hend by lia. rewrite Hend, Z.eqb_refl.
    rewrite drop_ge by lia. done.
  - replace (load b (8 + i) =? 126) with false
      by (symmetry; apply Z.eqb_neq, Hin; lia).
    rewrite (IH n (S i)) by (done || lia). apply string_app_cons.
Qed.

(** [getVersion] on a version reply that arrives in time. *)
Lemma getVersion_reply HARDWARE_VERSION_CMD fuel u h text chk :
  length (buffer u) = 256%nat ->
  length h = 6%nat -> load h 0 = 0xbb ->
  (1 <= length text <= 50)%nat ->
  replies u (h ++ text ++ [chk; 0x7e]) = true ->
  (508 + length text <= fuel)%nat ->
  exists u',
    getVersion HARDWARE_VERSION_CMD fuel u
    = Done (string_of_list_ascii (map char_of_byte text), u') /\
    rx_pos (_serial u') = (rx_pos (_serial u) + (length text + 8))%nat.
Proof.
  intros Hlen Hh Hbb Htext Hrep Hfuel. unfold getVersion.
  set (l := h ++ text ++ [chk; 0x7e]) in *.
  assert (Hl : length l = (length text + 8)%nat)
    by (unfold l; rewrite !length_app; cbn [length]; lia).
  destruct (waitMsg_reply fuel
              (sendCMD HARDWARE_VERSION_CMD (length HARDWARE_VERSION_CMD) u) l)
    as (u' & Hwait & Hbuf & _ & _ & Hpos & _);
    [done|rewrite <- Hrep; apply replies_ext; reflexivity|lia|].
  assert (Hl0 : load l 0 = 0xbb).
  { unfold l, load. rewrite lookup_app_l by lia. exact Hbb. }
  rewrite Hwait, Hl0. cbn [bind]. exists u'. split; [|rewrite Hpos, Hl; done].
  do 2 f_equal.
  assert (Hterm : terminated l = true).
  { unfold replies in Hrep. apply andb_true_iff in Hrep as [Hrep _].
    apply andb_true_iff in Hrep as [Hrep _]. done. }
  rewrite (getVersion_scan_text (buffer u') text (length text - 1)); try lia; [done| | |].
  - intros j Hj. rewrite Hbuf by lia. unfold l, load.
    rewrite lookup_app_r by lia. rewrite lookup_app_l by lia. do 2 f_equal. lia.
  - intros j Hj. rewrite Hbuf by lia. apply terminated_inner; [done|lia].
  - rewrite Hbuf by lia. pose proof (terminated_last l Hterm) as Hlast.
    replace (8 + (length text - 1))%nat with (length l - 1)%nat by lia. done.
Qed.

(** X11. [getVersion] hands back the text of a version reply: for a reply
    that arrives in time, made of six header bytes starting with 0xBB, a text
    of 1 to 50 bytes, a checksum byte and the terminator, with no 0x7E byte
    before that terminator ([replies]), the result is the text, byte for
    byte, and the bytes of the reply are consumed, and no more. *)
Theorem getVersion_text HARDWARE_VERSION_CMD fuel u h text chk :
  length (buffer u) = 256%nat ->
  length h = 6%nat -> load h 0 = 0xbb ->
  (1 <= length text <= 50)%nat ->
  replies u (h ++ text ++ [chk; 0x7e]) = true ->
  (508 + length text <= fuel)%nat ->
  exists u',
    getVersion HARDWARE_VERSION_CMD fuel u
    = Done (string_of_list_ascii (map char_of_byte text), u') /\
    rx_pos (_serial u') = (rx_pos (_serial u) + (length text + 8))%nat.
Proof. apply getVersion_reply. Qed.

Lemma getVersion_text_witness :
  exists u',
    getVersion sample_HARDWARE_VERSION_CMD 600
      (power_on (queued [0xBB; 0x01; 0x03; 0x00; 0x05; 0x00; 0x4D; 0x31; 0x30; 0x30; 0x22; 0x7E]))
    = Done ("M100"%string, u').
Proof.
  destruct (getVersion_text sample_HARDWARE_VERSION_CMD 600
              (power_on (queued [0xBB; 0x01; 0x03; 0x00; 0x05; 0x00; 0x4D; 0x31; 0x30; 0x30;
                                 0x22; 0x7E]))
              [0xBB; 0x01; 0x03; 0x00; 0x05; 0x00] [0x4D; 0x31; 0x30; 0x30] 0x22)
    as (u' & Hrun & _);
    [reflexivity|reflexivity|reflexivity|simpl; lia|reflexivity|simpl; lia|].
  exists u'. exact Hrun.
Defined.

(** ** select and readTID *)

(** A run of stores [b[i] = f(i)] over the indices [idx]. *)
Lemma fold_store_length (f : nat -> Z) idx : forall b,
  length (fold_left (fun b i => <[i := f i]> b) idx b) = length b.
Proof.
  induction idx as [|i idx IH]; intros b; cbn [fold_left]; [done|].
  rewrite IH, length_insert. done.
Qed.

Lemma fold_store_out (f : nat -> Z) idx k : forall b,
  k ∉ idx -> load (fold_left (fun b i => <[i := f i]> b) idx b) k = load b k.
Proof.
  induction idx as [|i idx IH]; intros b Hk; cbn [fold_left]; [done|].
  apply not_elem_of_cons in Hk as [Hne Hk].
  rewrite IH by done. apply load_insert_ne. done.
Qed.

Lemma fold_store_in (f : nat -> Z) idx k : forall b,
  k ∈ idx -> (k < length b)%nat ->
  load (fold_left (fun b i => <[i := f i]> b) idx b) k = f k.
Proof.
  induction idx as [|i idx IH]; intros b Hk Hlen; cbn [fold_left].
  - apply elem_of_nil in Hk. done.
  - destruct (decide (k ∈ idx)) as [Hin|Hout].
    + apply IH; [done|]. rewrite length_insert. done.
    + apply elem_of_cons in Hk as [->|Hin]; [|done].
      rewrite fold_store_out by done. apply load_insert_eq. done.
Qed.


(** X12. The request of [select]: the [SET_SELECT_PARAMETER_CMD] table with
    the twelve EPC bytes of the caller in bytes 12..23 and the sum modulo 256
    of bytes 1..23 in byte 24; the table's length of bytes is sent. *)
Theorem select_frame_layout SET_SELECT_PARAMETER_CMD SET_SELECT_OK epc u :
  length (buffer u) = 256%nat ->
  (25 <= length SET_SELECT_PARAMETER_CMD <= 256)%nat ->
  (12 <= length epc)%nat ->
  exists u1,
    select_frame SET_SELECT_PARAMETER_CMD epc u = Done u1 /\
    (forall j, (j < 12)%nat -> load (buffer u1) (12 + j) = load epc j) /\
    load (buffer u1) 24 = sum_bytes (buffer u1) 1 23 mod 256 /\
    (forall k, (k < length SET_SELECT_PARAMETER_CMD)%nat -> (k < 12 \/ 24 < k)%nat ->
               load (buffer u1) k = load SET_SELECT_PARAMETER_CMD k) /\
    forall fuel r u',
      select SET_SELECT_PARAMETER_CMD SET_SELECT_OK fuel epc u = Done (r, u') ->
      tx_log (_serial u')
      = tx_log (_serial u) ++ [take (length SET_SELECT_PARAMETER_CMD) (buffer u1)].
Proof.
  intros Hlen Hcmd Hepc. unfold select, select_frame.
  rewrite load_template_ok by lia. cbn [bind buffer with_buffer].
  replace (length epc <? 12)%nat with false by (symmetry; apply Nat.ltb_ge; done).
  set (b0 := memcpy (buffer u) SET_SELECT_PARAMETER_CMD).
  assert (Hb0 : length b0 = 256%nat) by (unfold b0; rewrite memcpy_length; lia).
  set (f := fun i : nat => load epc (i - 12)).
  set (b1 := fold_left _ (seq 12 12) b0).
  assert (Hb1 : length b1 = 256%nat) by (unfold b1; rewrite (fold_store_length f); done).
  assert (Hin : forall k, (12 <= k < 24)%nat -> load b1 k = load epc (k - 12)).
  { intros k Hk. unfold b1. apply (fold_store_in f); [|lia].
    apply list_elem_of_In, in_seq. lia. }
  assert (Hout : forall k, (k < 12 \/ 24 <= k)%nat -> load b1 k = load b0 k).
  { intros k Hk. unfold b1. apply (fold_store_out f).
    intros Hel. apply list_elem_of_In, in_seq in Hel. lia. }
  eexists. split; [reflexivity|]. cbn [buffer with_buffer bind].
  split; [|split; [|split]].
  - intros j Hj. rewrite load_insert_ne, Hin by lia. f_equal. lia.
  - rewrite load_insert_eq by lia. rewrite land_ff, checksum_sum, Z.mod_mod by lia.
    f_equal. symmetry. apply sum_bytes_ext. intros i Hi. rewrite load_insert_ne by lia. done.
  - intros k Hk Hother. rewrite load_insert_ne, Hout by lia. unfold b0, memcpy, load.
    rewrite lookup_app_l by done. done.
  - intros fuel r u' Hrun.
    destruct (waitMsg fuel default_timerout _) as [[ok u3]| |] eqn:Hwait;
      cbn [bind] in Hrun; [|done|done].
    apply waitMsg_tx_log in Hwait.
    assert (u' = u3) as ->.
    { destruct ok; [|congruence].
      destruct (select_reply_ok _ _); cbn [bind] in Hrun; congruence. }
    rewrite Hwait. reflexivity.
Qed.

Lemma select_frame_layout_witness :
  exists u1,
    select_frame sample_SET_SELECT_PARAMETER_CMD
      [0xE2; 0x00; 0x00; 0x17; 0x22; 0x0A; 0x01; 0x44; 0x15; 0x40; 0x7C; 0x6B]
      (power_on (queued [])) = Done u1 /\
    map (load (buffer u1)) (seq 12 12)
    = [0xE2; 0x00; 0x00; 0x17; 0x22; 0x0A; 0x01; 0x44; 0x15; 0x40; 0x7C; 0x6B].
Proof.
  destruct (select_frame_layout sample_SET_SELECT_PARAMETER_CMD sample_SET_SELECT_OK
              [0xE2; 0x00; 0x00; 0x17; 0x22; 0x0A; 0x01; 0x44; 0x15; 0x40; 0x7C; 0x6B]
              (power_on (queued [])) eq_refl)
    as (u1 & Hframe & _); [simpl; lia|simpl; lia|].
  exists u1. split; [exact Hframe|].
  vm_compute in Hframe. injection Hframe as <-. reflexivity.
Defined.



(** X14. [readTID] gives up after a failed [select]: when the module does
    not answer, the call returns false 500 clock units later, and the one
    frame it has sent is the select request carrying the EPC bytes of the
    table slot [tagIndex]; no read request follows.  The slot is not
    bounds-checked: an index of 200 or more reads outside [cards]. *)
Theorem readTID_select_fails SET_SELECT_PARAMETER_CMD SET_SELECT_OK
    READ_STORAGE_CMD READ_STORAGE_ERROR fuel tagIndex u :
  silent (_serial u) ->
  length (buffer u) = 256%nat ->
  (25 <= length SET_SELECT_PARAMETER_CMD <= 256)%nat ->
  (500 < fuel)%nat ->
  let run := readTID SET_SELECT_PARAMETER_CMD SET_SELECT_OK READ_STORAGE_CMD
               READ_STORAGE_ERROR fuel tagIndex u in
  (0 <= tagIndex < 200 ->
   (12 <= length (epc (card_at (cards u) (Z.to_nat tagIndex))))%nat ->
   exists u' frame,
     run = Done (false, u') /\
     tx_log (_serial u') = tx_log (_serial u) ++ [frame] /\
     (forall j, (j < 12)%nat ->
        load frame (12 + j) = load (epc (card_at (cards u) (Z.to_nat tagIndex))) j) /\
     clock (_serial u') = clock (_serial u) + 500) /\
  (200 <= tagIndex -> run = Fault (CardsIndex tagIndex)).
Proof.
  intros Hs Hlen Hcmd Hfuel run. unfold run, readTID, cards_get. split.
  - intros Hidx Hepc.
    replace ((0 <=? tagIndex) && (tagIndex <? 200)) with true
      by (symmetry; apply andb_true_iff; split; [apply Z.leb_le|apply Z.ltb_lt]; lia).
    cbn [bind]. set (e := epc (card_at (cards u) (Z.to_nat tagIndex))) in *.
    unfold select, select_frame. rewrite load_template_ok by lia.
    cbn [bind buffer with_buffer].
    replace (length e <? 12)%nat with false by (symmetry; apply Nat.ltb_ge; done).
    cbn [bind].
    rewrite waitMsg_silent;
      [|exact Hs|done|change (Z.to_nat default_timerout) with 500%nat; done].
    cbn [bind]. eexists. eexists. split; [reflexivity|].
    unfold timed_out, sendCMD, write, delay, with_serial, cleanBuffer, with_buffer.
    cbn [_serial tx_log clock buffer]. split; [reflexivity|]. split; [|done].
    intros j Hj. rewrite load_take, load_insert_ne by lia.
    rewrite (fold_store_in (fun i : nat => load e (i - 12))).
    + f_equal. lia.
    + apply list_elem_of_In, in_seq. lia.
    + rewrite memcpy_length; lia.
  - intros Hidx.
    replace (tagIndex <? 200) with false by (symmetry; apply Z.ltb_ge; done).
    rewrite andb_false_r. done.
Qed.

Lemma readTID_select_fails_witness :
  exists u',
    readTID sample_SET_SELECT_PARAMETER_CMD sample_SET_SELECT_OK sample_READ_STORAGE_CMD
      sample_READ_STORAGE_ERROR 600 3 (power_on (queued [])) = Done (false, u') /\
    length (tx_log (_serial u')) = 1%nat.
Proof.
  destruct (readTID_select_fails sample_SET_SELECT_PARAMETER_CMD sample_SET_SELECT_OK
              sample_READ_STORAGE_CMD sample_READ_STORAGE_ERROR 600 3 (power_on (queued [])))
    as [Hfail _]; [intros k _; reflexivity|reflexivity|simpl; lia|lia|].
  destruct Hfail as (u' & frame & Hrun & Hlog & _); [lia|simpl; lia|].
  exists u'. split; [exact Hrun|]. rewrite Hlog. reflexivity.
Defined.

(** ** verifyRegion and setReceiverParams: the bounded receive loop *)

(** The loop of [verifyRegion] and [setReceiverParams] always ends: within
    [limit] clock units of [start], with the bytes it took and no more than
    the array holds. *)
Lemma collect_run fuel : forall limit cap c0 resp w p c tx,
  c0 <= c <= c0 + limit -> limit < 4294967296 ->
  (Z.to_nat (c0 + limit - c) < fuel)%nat ->
  exists (n : nat) c',
    collect fuel limit cap (u32 c0) resp (mkSerial w p c tx)
    = Done (resp ++ received (mkSerial w p c tx) n, mkSerial w (p + n) c' tx) /\
    c <= c' <= c0 + limit /\
    (length resp + n <= Nat.max cap (length resp))%nat /\
    ((length resp + n < cap)%nat -> c' = c0 + limit) /\
    (forall k, (k < n)%nat -> is_Some (w (p + k)%nat)).
Proof.
  induction fuel as [|fuel IH]; intros limit cap c0 resp w p c tx Hc Hlimit Hfuel; [lia|].
  cbn [collect]. unfold millis. cbn [clock]. rewrite u32_sub, u32_small by lia.
  assert (Hstop : forall c', c' = c -> (cap <= length resp)%nat \/ c = c0 + limit ->
            exists (n : nat) c'',
              Done (resp, mkSerial w p c tx)
              = Done (resp ++ received (mkSerial w p c tx) n, mkSerial w (p + n) c'' tx) /\
              c <= c'' <= c0 + limit /\
              (length resp + n <= Nat.max cap (length resp))%nat /\
              ((length resp + n < cap)%nat -> c'' = c0 + limit) /\
              (forall k, (k < n)%nat -> is_Some (w (p + k)%nat))).
  { intros c' -> Hwhy. exists 0%nat, c. cbn [received seq map].
    rewrite app_nil_r, Nat.add_0_r. repeat split; try done; try lia. }
  destruct (c - c0 <? limit) eqn:Ht; cbn [andb];
    [apply Z.ltb_lt in Ht|apply Z.ltb_ge in Ht; apply (Hstop c); [done|right; lia]].
  destruct (length resp <? cap)%nat eqn:Hroom;
    [apply Nat.ltb_lt in Hroom|apply Nat.ltb_ge in Hroom; apply (Hstop c); [done|left; lia]].
  assert (Hidle : exists (n : nat) c',
            collect fuel limit cap (u32 c0) resp (tick (mkSerial w p c tx))
            = Done (resp ++ received (mkSerial w p c tx) n, mkSerial w (p + n) c' tx) /\
            c <= c' <= c0 + limit /\
            (length resp + n <= Nat.max cap (length resp))%nat /\
            ((length resp + n < cap)%nat -> c' = c0 + limit) /\
            (forall k, (k < n)%nat -> is_Some (w (p + k)%nat))).
  { unfold tick, delay. cbn [wire rx_pos clock tx_log].
    destruct (IH limit cap c0 resp w p (c + 1) tx) as (n & c' & Hrun & Hc' & Hn & Hfull & Hsome);
      try lia.
    exists n, c'. split; [exact Hrun|]. repeat split; try done; lia. }
  unfold available, read, available. cbn [wire rx_pos clock tx_log].
  destruct (w p) as [[t b]|] eqn:Hw; [|exact Hidle].
  destruct (t <=? c); [|exact Hidle].
  unfold tick, delay. cbn [wire rx_pos clock tx_log].
  destruct (IH limit cap c0 (resp ++ [u8 b]) w (S p) (c + 1) tx)
    as (n & c' & Hrun & Hc' & Hn & Hfull & Hsome); try lia.
  rewrite length_app in Hn, Hfull. cbn [length] in Hn, Hfull.
  exists (S n), c'. split; [|repeat split; try lia].
  - rewrite Hrun. rewrite received_S. unfold wire_byte. cbn [wire rx_pos clock tx_log].
    rewrite Hw, <- app_assoc. cbn [app].
    replace (p + S n)%nat with (S p + n)%nat by lia. done.
  - intros k Hk. destruct k as [|k]; [rewrite Nat.add_0_r, Hw; eauto|].
    replace (p + S k)%nat with (S p + k)%nat by lia. apply Hsome. lia.
Qed.



(** X16. The request of [setReceiverParams]: eleven bytes, the two gain
    codes in bytes 5 and 6, the threshold big-endian in bytes 7..8, and the
    sum modulo 256 of bytes 1..8 in byte 9, between 0xBB and 0x7E. *)
Theorem setParamsCmd_layout mixer_g if_g thrd :
  0 <= mixer_g < 256 -> 0 <= if_g < 256 -> 0 <= thrd < 65536 ->
  let cmd := setParamsCmd mixer_g if_g thrd in
  length cmd = 11%nat /\
  load cmd 0 = 0xBB /\ load cmd 10 = 0x7E /\
  load cmd 5 = mixer_g /\ load cmd 6 = if_g /\
  256 * load cmd 7 + load cmd 8 = thrd /\
  load cmd 9 = sum_bytes cmd 1 8 mod 256 /\
  0 <= load cmd 9 < 256.
Proof.
  intros Hm Hi Ht cmd. unfold cmd, setParamsCmd.
  split; [done|]. split; [done|]. split; [done|]. split; [done|]. split; [done|].
  split; [|split].
  - cbn [load lookup list_lookup insert list_insert default]. unfold id.
    unfold u8 at 2. rewrite land_ff, Z.mod_mod by lia. rewrite <- land_ff.
    unfold u8. rewrite <- land_ff. apply be16. done.
  - rewrite load_insert_eq by (cbn [length]; lia). rewrite checksum_sum. f_equal.
  - rewrite load_insert_eq by (cbn [length]; lia). rewrite checksum_sum.
    apply Z.mod_pos_bound. lia.
Qed.

Lemma setParamsCmd_layout_witness :
  setParamsCmd 0x06 0x07 0x00B0
  = [0xBB; 0x00; 0xF0; 0x00; 0x04; 0x06; 0x07; 0x00; 0xB0; 0xB1; 0x7E] /\
  load (setParamsCmd 0x06 0x07 0x00B0) 9
  = sum_bytes (setParamsCmd 0x06 0x07 0x00B0) 1 8 mod 256.
Proof.
  split; [reflexivity|].
  apply (setParamsCmd_layout 0x06 0x07 0x00B0); lia.
Defined.

(** Emptying a queue whose bytes have all arrived takes one pass a byte. *)
Lemma drain_pending l : forall fuel w p c tx,
  pending (mkSerial w p c tx) l ->
  (length l < fuel)%nat ->
  drain fuel (mkSerial w p c tx)
  = Done (mkSerial w (p + length l) (c + Z.of_nat (length l)) tx).
Proof.
  induction l as [|x l IH]; intros fuel w p c tx Hp Hfuel;
    (destruct fuel as [|fuel]; [cbn [length] in Hfuel; lia|]);
    cbn [drain]; unfold available, read, available; cbn [wire rx_pos clock tx_log];
    pose proof (Hp 0%nat) as H0; cbn [lookup list_lookup wire rx_pos clock] in H0;
    rewrite Nat.add_0_r in H0.
  - rewrite H0. cbn [length]. rewrite Nat.add_0_r, Z.add_0_r. done.
  - destruct H0 as (t & Hw & Ht). rewrite Hw.
    replace (t <=? c) with true by (symmetry; apply Z.leb_le; done).
    unfold tick, delay. cbn [snd wire rx_pos clock tx_log].
    rewrite (IH fuel w (S p) (c + 1) tx); [|
      apply (pending_advance (mkSerial w p c tx) _ [x] l); cbn; try done; lia
      |cbn [length] in Hfuel; lia].
    cbn [length]. do 2 f_equal; lia.
Qed.

(** X17. [setReceiverParams] throws away what is in the receive queue
    before it sends: with a reply already received and nothing coming after,
    the queue is emptied, the request goes out once, 500 clock units pass,
    and the result is false, whatever the discarded bytes were. *)
Theorem setReceiverParams_discards_queue fuel mixer_g if_g thrd u l :
  pending (_serial u) l ->
  (500 + length l < fuel)%nat ->
  exists u',
    setReceiverParams fuel mixer_g if_g thrd u = Done (false, u') /\
    rx_pos (_serial u') = (rx_pos (_serial u) + length l)%nat /\
    clock (_serial u') = clock (_serial u) + Z.of_nat (length l) + 500 /\
    tx_log (_serial u') = tx_log (_serial u) ++ [setParamsCmd mixer_g if_g thrd] /\
    buffer u' = buffer u /\ cards u' = cards u.
Proof.
  intros Hp Hfuel. destruct u as [[w p c tx] dbg buf cs].
  cbn [_serial] in Hp. unfold setReceiverParams. cbn [_serial].
  rewrite (drain_pending l) by (done || lia). cbn [bind].
  unfold sendCMD, write, with_serial, millis.
  cbn [_serial wire rx_pos clock tx_log _debug buffer cards].
  set (c1 := c + Z.of_nat (length l)). set (p1 := (p + length l)%nat).
  destruct (collect_run fuel 500 10 c1 [] w p1 c1
              (tx ++ [take (length (setParamsCmd mixer_g if_g thrd))
                           (setParamsCmd mixer_g if_g thrd)]))
    as (n & c' & Hrun & Hc' & Hn & Hfull & Hsome); try lia.
  assert (n = 0)%nat as ->.
  { destruct n as [|n]; [done|]. destruct (Hsome 0%nat) as [tb Htb]; [lia|].
    pose proof (Hp (length l)) as Hend. cbn [wire rx_pos] in Hend.
    rewrite lookup_ge_None_2 in Hend by lia.
    rewrite Nat.add_0_r in Htb. unfold p1 in Htb. congruence. }
  rewrite Hrun. cbn [bind app received seq map length] in *.
  eexists. split; [reflexivity|].
  cbn [_serial wire rx_pos clock tx_log _debug buffer cards].
  rewrite take_ge by done.
  repeat split; try done; try lia.
Qed.

Lemma setReceiverParams_discards_queue_witness :
  exists u',
    setReceiverParams 600 0x06 0x07 0x00B0
      (power_on (queued [0xBB; 0x01; 0xF0; 0x00; 0x01; 0x00; 0xF2; 0x7E]))
    = Done (false, u').
Proof.
  destruct (setReceiverParams_discards_queue 600 0x06 0x07 0x00B0
              (power_on (queued [0xBB; 0x01; 0xF0; 0x00; 0x01; 0x00; 0xF2; 0x7E]))
              [0xBB; 0x01; 0xF0; 0x00; 0x01; 0x00; 0xF2; 0x7E])
    as (u' & Hrun & _); [apply pending_queued; lia|simpl; lia|].
  exists u'. exact Hrun.
Defined.

(** ** initializeModule *)




(** ** writeCard and selectInfo on a reply *)



(** X20. [selectInfo] on a reply of fewer than 256 bytes that arrives in
    time and has its only 0x7E byte at its end ([replies]): "ERROR" unless
    the reply starts with 0xBB, and otherwise the 24 hexadecimal digits of
    bytes 12..23 of the reply, a reply that ends before byte 23 counting as
    followed by zeros. *)
Theorem selectInfo_text GET_SELECT_PARAMETER_CMD fuel u reply :
  length (buffer u) = 256%nat ->
  replies u reply = true ->
  (500 + length reply <= fuel)%nat ->
  exists u',
    selectInfo GET_SELECT_PARAMETER_CMD fuel u
    = Done (if load reply 0 =? 0xbb then select_text reply else "ERROR"%string, u') /\
    String.length (select_text reply) = 24%nat /\
    rx_pos (_serial u') = (rx_pos (_serial u) + length reply)%nat.
Proof.
  intros Hlen Hrep Hfuel. unfold selectInfo.
  destruct (waitMsg_reply fuel
              (sendCMD GET_SELECT_PARAMETER_CMD (length GET_SELECT_PARAMETER_CMD) u) reply)
    as (u' & Hwait & Hbuf & _ & _ & Hpos & _);
    [done|rewrite <- Hrep; apply replies_ext; reflexivity|exact Hfuel|].
  rewrite Hwait. cbn [bind]. exists u'. split; [|split; [|exact Hpos]].
  - destruct (load reply 0 =? 0xbb); [|done]. do 2 f_equal.
    unfold select_text. cbn [seq fold_left]. rewrite !Hbuf by lia. done.
  - unfold select_text. cbn [seq fold_left].
    rewrite !string_length_append, !hex2str_length. done.
Qed.

Lemma selectInfo_text_witness :
  exists u',
    selectInfo sample_GET_SELECT_PARAMETER_CMD 600
      (power_on (queued ([0xBB; 0x01; 0x0B; 0x00; 0x13; 0x01; 0x00; 0x00; 0x00; 0x20; 0x60; 0x00;
                          0xE2; 0x00; 0x00; 0x17; 0x22; 0x0A; 0x01; 0x44; 0x15; 0x40; 0x7C; 0x6B;
                          0x5A; 0x7E])))
    = Done ("e2000017220a014415407c6b"%string, u').
Proof.
  destruct (selectInfo_text sample_GET_SELECT_PARAMETER_CMD 600
      (power_on (queued ([0xBB; 0x01; 0x0B; 0x00; 0x13; 0x01; 0x00; 0x00; 0x00; 0x20; 0x60; 0x00;
                          0xE2; 0x00; 0x00; 0x17; 0x22; 0x0A; 0x01; 0x44; 0x15; 0x40; 0x7C; 0x6B;
                          0x5A; 0x7E])))
      [0xBB; 0x01; 0x0B; 0x00; 0x13; 0x01; 0x00; 0x00; 0x00; 0x20; 0x60; 0x00;
       0xE2; 0x00; 0x00; 0x17; 0x22; 0x0A; 0x01; 0x44; 0x15; 0x40; 0x7C; 0x6B; 0x5A; 0x7E])
    as (u' & Hrun & _); [reflexivity|reflexivity|simpl; lia|].
  exists u'. exact Hrun.
Defined.

(** ** getSignalQuality *)

Ltac split_ltb :=
  repeat match goal with
         | |- context [?x <? ?y] => destruct (Z.ltb_spec x y)
         | H : context [?x <? ?y] |- _ => destruct (Z.ltb_spec x y)
         end.

(** X21. The signal label [displayTagInfo] prints for a stored RSSI byte,
    which it reads as a signed 8-bit value: bytes 0..127 and 207..255 are
    Excellent, 192..206 Good, 182..191 Fair, 128..181 Weak.  As a function of
    the signed value the label never gets worse when the value rises. *)
Theorem signal_quality_bands b :
  0 <= b < 256 ->
  getSignalQuality (int8 b)
  = (if (b <? 128) || (206 <? b) then "(Excellent)"%string
     else if 191 <? b then "(Good)"%string
     else if 181 <? b then "(Fair)"%string
     else "(Weak)"%string) /\
  (forall r r', r <= r' -> getSignalQuality r = "(Excellent)"%string ->
                getSignalQuality r' = "(Excellent)"%string) /\
  (forall r r', r <= r' -> getSignalQuality r' = "(Weak)"%string ->
                getSignalQuality r = "(Weak)"%string).
Proof.
  intros Hb. split; [|split].
  - unfold getSignalQuality, int8. rewrite u8_small by done.
    split_ltb; cbn [orb]; split_ltb; try done; lia.
  - intros r r' Hle. unfold getSignalQuality. split_ltb; try done; lia.
  - intros r r' Hle. unfold getSignalQuality. split_ltb; try done; lia.
Qed.

Lemma signal_quality_bands_witness :
  getSignalQuality (int8 0xC5) = "(Good)"%string.
Proof.
  destruct (signal_quality_bands 0xC5) as [Hband _]; [lia|]. exact Hband.
Defined.

(** ** verifyRegion on what has been received *)



